(** * Croxz bridge: the filename sanitizer, the URL classifier, the format
      reconciler and the record transformer of [croxz_bridge.py]

    The development has two parts.  Part I embeds the functions of the
    bridge as Rocq definitions, one per Python function and with the
    Python names.  Part II states and proves the properties of those
    definitions. *)

From Stdlib Require Import ZArith NArith List String Ascii Bool Lia.
From Stdlib Require Import Numbers.DecimalString.
From Stdlib Require Import Sorting.Sorted.
From Stdlib Require Import DecimalPos.
From stdpp Require Import base option list gmap strings fin_maps.

Set Warnings "-register-all".
Local Open Scope string_scope.
Local Open Scope Z_scope.

(* ===================================================================== *)
(** * Part I: the program *)
(* ===================================================================== *)

(** ** Python strings

    A Python [str] is a sequence of code points.  The title handed to the
    sanitizer is kept as such a sequence ([list N]), because the sanitizer
    exists for titles outside Latin scripts.  Everywhere else a [str] is a
    Rocq [string], whose characters stand for the code points 0..255. *)

Definition codepoints (s : string) : list N :=
  map N_of_ascii (list_ascii_of_string s).

(** The double quote, written by its code: [chr(34)]. *)
Definition dquote : ascii := "034"%char.

Definition ascii_in (cs : string) (c : ascii) : bool :=
  existsb (Ascii.eqb c) (list_ascii_of_string cs).

(** [str.isspace] on one code point below 256; the class [\s] of [re] on
    a [str] pattern is the same set. *)
Definition py_isspace (c : ascii) : bool :=
  let n := N_of_ascii c in
  ((9 <=? n) && (n <=? 13) || (28 <=? n) && (n <=? 32)
   || (n =? 133) || (n =? 160))%N.

(** [s.lstrip(chars)], [s.rstrip(chars)] and [s.strip(chars)]. *)
Fixpoint lstrip (p : ascii -> bool) (l : list ascii) : list ascii :=
  match l with
  | [] => []
  | c :: l' => if p c then lstrip p l' else l
  end.

Definition rstrip (p : ascii -> bool) (l : list ascii) : list ascii :=
  rev (lstrip p (rev l)).

Definition strip (p : ascii -> bool) (l : list ascii) : list ascii :=
  rstrip p (lstrip p l).

(** The slice [s[:n]]: the first [n] items, and for a negative [n] all
    but the last [-n]. *)
Definition slice_to {A} (l : list A) (n : Z) : list A :=
  if 0 <=? n then firstn (Z.to_nat n) l
  else firstn (Z.to_nat (Z.of_nat (length l) + n)) l.

(** ** Filename sanitizer: [sanitize_filename] *)

(** The table [replacements] of the fallback, in the order of the source:
    a code point and the ASCII text that replaces it. *)
Definition replacements : list (N * string) :=
  [ (0x011f, "g"); (0x011e, "G");
    (0x0131, "i"); (0x0130, "I");
    (0x015f, "s"); (0x015e, "S");
    (0x00fc, "u"); (0x00dc, "U");
    (0x00f6, "o"); (0x00d6, "O");
    (0x00e7, "c"); (0x00c7, "C");
    (0x00e4, "ae"); (0x00c4, "Ae");
    (0x00df, "ss");
    (0x00e9, "e"); (0x00e8, "e"); (0x00ea, "e"); (0x00eb, "e");
    (0x00e0, "a"); (0x00e1, "a"); (0x00e2, "a");
    (0x00f1, "n"); (0x00d1, "N");
    (0x2019, "'"); (0x2018, "'");
    (0x201c, String dquote ""); (0x201d, String dquote "");
    (0x2013, "-"); (0x2014, "-");
    (0x2026, "...");
    (0x00a9, "(c)"); (0x00ae, "(r)");
    (0x2122, "(tm)") ]%N.

(** [temp.replace(old, new)] for a one-character [old]. *)
Definition replace_char (old : N) (new : string) (s : list N) : list N :=
  flat_map (fun c => if (c =? old)%N then codepoints new else [c]) s.

(** [for old, new in replacements.items(): temp = temp.replace(old, new)] *)
Definition apply_replacements (title : list N) : list N :=
  fold_left (fun temp '(old, new) => replace_char old new temp)
            replacements title.

(** [s.encode('ascii', 'ignore').decode('ascii')]: the code points below
    128, in order. *)
Definition encode_ascii_ignore (s : list N) : list ascii :=
  map ascii_of_N (List.filter (fun c => (c <? 128)%N) s).

(** The character class of [invalid_chars]: backslash, slash, colon,
    asterisk, question mark, double quote, angle brackets, pipe and the
    control characters 0x00-0x1f. *)
Definition invalid_char (c : ascii) : bool :=
  ascii_in "\/:*?<>|" c || Ascii.eqb c dquote || (N_of_ascii c <=? 31)%N.

(** The class [[\s_]]. *)
Definition space_or_underscore (c : ascii) : bool :=
  py_isspace c || Ascii.eqb c "_".

(** [re.sub(r'[\s_]+', '_', clean)]: every maximal run of the class
    becomes one underscore.  [in_run] says that the previous character
    belonged to a run, whose underscore is already written. *)
Fixpoint collapse_runs (in_run : bool) (l : list ascii) : list ascii :=
  match l with
  | [] => []
  | c :: l' =>
      if space_or_underscore c
      then (if in_run then collapse_runs true l'
            else "_"%char :: collapse_runs true l')
      else c :: collapse_runs false l'
  end.

Section Sanitizer.

(** [unicodedata.normalize('NFKD', s)], the Unicode database's
    compatibility decomposition, is a parameter. *)
Variable nfkd : list N -> list N.

(** [sanitize_filename(title, max_length)].  The test
    [len(ascii_text) < len(title) * 0.3] is written over the integers
    as [10 * len(ascii_text) < 3 * len(title)]; the two agree for every
    length below 2^50, where the float product is within 2^-3 of
    [3n/10] and is exactly [3n/10] when that is an integer. *)
Definition sanitize_filename (title : list N) (max_length : Z) : string :=
  match title with
  | [] => "download"
  | _ =>
      let normalized := nfkd title in
      let ascii_text := encode_ascii_ignore normalized in
      let ascii_text :=
        if 10 * Z.of_nat (length ascii_text) <? 3 * Z.of_nat (length title)
        then
          let temp := apply_replacements title in
          let normalized := nfkd temp in
          encode_ascii_ignore normalized
        else ascii_text in
      let clean := List.filter (fun c => negb (invalid_char c)) ascii_text in
      let clean := collapse_runs false clean in
      let clean := strip (ascii_in "_. ") clean in
      let clean :=
        if Z.of_nat (length clean) >? max_length
        then rstrip (ascii_in "_") (slice_to clean max_length)
        else clean in
      match clean with
      | [] => "download"
      | _ => string_of_list_ascii clean
      end
  end.

End Sanitizer.

(** What the contract of the sanitizer asks of a result: a character
    of a safe filename is ASCII, is no control character and is none of
    the characters that Windows refuses; a safe filename is not empty and
    has only such characters. *)
Definition filename_char_ok (c : ascii) : Prop :=
  (N_of_ascii c < 128)%N /\ (31 < N_of_ascii c)%N /\
  ~ In c (list_ascii_of_string "\/:*?<>|") /\ c <> dquote.

Definition filesystem_safe (r : string) : Prop :=
  r <> "" /\ forall c, In c (list_ascii_of_string r) -> filename_char_ok c.

(** ** Outcomes and values

    A call returns a value or raises.  [OutOfModel] is the third
    outcome: the run reaches a step whose result depends on a part of
    the interpreter that is not embedded here (the text of a list or
    dict, the order in which a failing sort compares).  Nothing is
    proved about such runs. *)
Inductive exn : Set := TypeError | ValueError | AttributeError.

Inductive result (A : Type) : Type :=
| Ok (a : A)
| Raise (e : exn)
| OutOfModel.
Arguments Ok {A} a.
Arguments Raise {A} e.
Arguments OutOfModel {A}.

#[global] Instance result_ret : MRet result := fun A a => Ok a.
#[global] Instance result_bind : MBind result := fun A B f m =>
  match m with
  | Ok a => f a
  | Raise e => Raise e
  | OutOfModel => OutOfModel
  end.
#[global] Instance result_fmap : FMap result := fun A B f m =>
  match m with
  | Ok a => Ok (f a)
  | Raise e => Raise e
  | OutOfModel => OutOfModel
  end.

(** [for x in l: ...] over a body that may raise, collecting results. *)
Fixpoint mapM_result {A B} (f : A -> result B) (l : list A) : result (list B) :=
  match l with
  | [] => Ok []
  | x :: l' => y ← f x; ys ← mapM_result f l'; Ok (y :: ys)
  end.

(** A loop that appends an item in some of its turns: the turns are
    [Some] item or [None], and [keep_some] is the list that was built. *)
Fixpoint keep_some {A} (l : list (option A)) : list A :=
  match l with
  | [] => []
  | Some x :: l' => x :: keep_some l'
  | None :: l' => keep_some l'
  end.

(** The values that [json.loads] builds, without floats: [None], [bool],
    [int], [str], [list] and [dict] (string keys; the order of the keys
    is not kept). *)
Inductive pyval : Type :=
| VNone
| VBool (b : bool)
| VInt (n : Z)
| VStr (s : string)
| VList (l : list pyval)
| VDict (d : gmap string pyval).

Abbreviation pydict := (gmap string pyval).

(** Truth value of an object: [bool(v)]. *)
Definition truthy (v : pyval) : bool :=
  match v with
  | VNone => false
  | VBool b => b
  | VInt n => negb (n =? 0)
  | VStr s => negb (String.eqb s "")
  | VList l => match l with [] => false | _ => true end
  | VDict d => negb (bool_decide (d = ∅))
  end.

(** [a or b] and [a and b] as values. *)
Definition py_or (a b : pyval) : pyval := if truthy a then a else b.
Definition py_and (a b : pyval) : pyval := if truthy a then b else a.

(** [d.get(k)] and [d.get(k, dflt)]. *)
Definition get (d : pydict) (k : string) : pyval := default VNone (d !! k).
Definition get_or (d : pydict) (k : string) (dflt : pyval) : pyval :=
  default dflt (d !! k).

(** [v == "text"] against a string literal. *)
Definition eq_str (v : pyval) (s : string) : bool :=
  match v with
  | VStr t => String.eqb t s
  | _ => false
  end.

(** *** [int(s)] for a [str]

    Surrounding whitespace is dropped (the characters 9-13, 32, 0x85 and
    0xA0; not 0x1C-0x1F), then come an optional sign and decimal digits,
    where single underscores may stand between digits.  Anything else is
    a [ValueError].  The interpreter's optional limit on the number of
    digits is not modelled. *)
Definition int_space (c : ascii) : bool :=
  let n := N_of_ascii c in
  ((9 <=? n) && (n <=? 13) || (n =? 32) || (n =? 133) || (n =? 160))%N.

Definition digit_of (c : ascii) : option Z :=
  let n := N_of_ascii c in
  if ((48 <=? n) && (n <=? 57))%N then Some (Z.of_N n - 48) else None.

Fixpoint int_digits (acc : Z) (l : list ascii) : option Z :=
  match l with
  | [] => Some acc
  | c :: l' =>
      match digit_of c with
      | Some d => int_digits (acc * 10 + d) l'
      | None =>
          if Ascii.eqb c "_" then
            match l' with
            | c' :: l'' =>
                match digit_of c' with
                | Some d => int_digits (acc * 10 + d) l''
                | None => None
                end
            | [] => None
            end
          else None
      end
  end.

Definition int_unsigned (l : list ascii) : option Z :=
  match l with
  | c :: l' =>
      match digit_of c with
      | Some d => int_digits d l'
      | None => None
      end
  | [] => None
  end.

Definition int_of_str (s : string) : option Z :=
  match strip int_space (list_ascii_of_string s) with
  | c :: l =>
      if Ascii.eqb c "-" then Z.opp <$> int_unsigned l
      else if Ascii.eqb c "+" then int_unsigned l
      else int_unsigned (c :: l)
  | [] => None
  end.

(** [int(v)]: a [TypeError] for [None], lists and dicts, a [ValueError]
    for a [str] that is no integer literal. *)
Definition py_int (v : pyval) : result Z :=
  match v with
  | VNone => Raise TypeError
  | VBool b => Ok (Z.b2z b)
  | VInt n => Ok n
  | VStr s => match int_of_str s with Some n => Ok n | None => Raise ValueError end
  | VList _ | VDict _ => Raise TypeError
  end.

(** [str(n)] for an [int]. *)
Definition str_of_int (n : Z) : string := NilZero.string_of_int (Z.to_int n).

(** [str(v)], which is what an f-string writes for [{v}].  The text of a
    list or dict is not embedded. *)
Definition py_str (v : pyval) : result string :=
  match v with
  | VNone => Ok "None"
  | VBool true => Ok "True"
  | VBool false => Ok "False"
  | VInt n => Ok (str_of_int n)
  | VStr s => Ok s
  | VList _ | VDict _ => OutOfModel
  end.

(** [len(v)] *)
Definition py_len (v : pyval) : result Z :=
  match v with
  | VStr s => Ok (Z.of_nat (String.length s))
  | VList l => Ok (Z.of_nat (length l))
  | VDict d => Ok (Z.of_nat (size d))
  | _ => Raise TypeError
  end.

(** ** URL classifier *)

Definition ARCHIVE_EXTENSIONS : gset string := list_to_set
  ["zip"; "rar"; "7z"; "tar"; "gz"; "bz2"; "xz"; "iso"; "cab"; "arj"; "lzh"; "ace"].

Definition EXECUTABLE_EXTENSIONS : gset string := list_to_set
  ["exe"; "msi"; "dmg"; "pkg"; "deb"; "rpm"; "appimage"; "apk"; "ipa"; "run";
   "bin"; "sh"; "bat"; "cmd"; "ps1"].

Definition DOCUMENT_EXTENSIONS : gset string := list_to_set
  ["pdf"; "doc"; "docx"; "xls"; "xlsx"; "ppt"; "pptx"; "odt"; "ods"; "odp";
   "rtf"; "txt"; "csv"; "epub"; "mobi"].

Definition IMAGE_EXTENSIONS : gset string := list_to_set
  ["jpg"; "jpeg"; "png"; "gif"; "webp"; "bmp"; "svg"; "ico"; "tiff"; "tif";
   "psd"; "ai"; "raw"; "cr2"; "nef"].

Definition AUDIO_EXTENSIONS : gset string := list_to_set
  ["mp3"; "m4a"; "wav"; "flac"; "ogg"; "aac"; "wma"; "opus"; "aiff"; "ape"; "alac"].

Definition VIDEO_EXTENSIONS : gset string := list_to_set
  ["mp4"; "mkv"; "webm"; "avi"; "mov"; "wmv"; "flv"; "m4v"; "mpeg"; "mpg";
   "3gp"; "ts"; "m2ts"; "vob"].

Definition FONT_EXTENSIONS : gset string := list_to_set
  ["ttf"; "otf"; "woff"; "woff2"; "eot"; "fon"].

Definition CODE_EXTENSIONS : gset string := list_to_set
  ["js"; "py"; "java"; "cpp"; "c"; "h"; "cs"; "php"; "rb"; "go"; "rs";
   "swift"; "kt"; "scala"; "sql"].

Definition ALL_DIRECT_EXTENSIONS : gset string :=
  ARCHIVE_EXTENSIONS ∪ EXECUTABLE_EXTENSIONS ∪ DOCUMENT_EXTENSIONS ∪
  IMAGE_EXTENSIONS ∪ AUDIO_EXTENSIONS ∪ VIDEO_EXTENSIONS ∪
  FONT_EXTENSIONS ∪ CODE_EXTENSIONS.

(** [c.lower()] on a code point below 256. *)
Definition lower_char (c : ascii) : ascii :=
  let n := N_of_ascii c in
  if ((65 <=? n) && (n <=? 90)
      || (192 <=? n) && (n <=? 222) && negb (n =? 215))%N
  then ascii_of_N (n + 32) else c.

Definition py_lower (s : string) : string :=
  string_of_list_ascii (map lower_char (list_ascii_of_string s)).

(** [c.isalnum()] on a code point below 256. *)
Definition isalnum_char (c : ascii) : bool :=
  let n := N_of_ascii c in
  ((48 <=? n) && (n <=? 57) || (65 <=? n) && (n <=? 90)
   || (97 <=? n) && (n <=? 122)
   || (n =? 170) || (n =? 178) || (n =? 179) || (n =? 181) || (n =? 185)
   || (n =? 186) || (188 <=? n) && (n <=? 190)
   || (192 <=? n) && (n <=? 214) || (216 <=? n) && (n <=? 246)
   || (248 <=? n))%N.

(** [s.isalnum()]: every character is alphanumeric and there is one. *)
Definition py_isalnum (s : string) : bool :=
  match list_ascii_of_string s with
  | [] => false
  | l => forallb isalnum_char l
  end.

(** [c in s] for a one-character [c]. *)
Definition has_char (c : ascii) (s : string) : bool :=
  existsb (Ascii.eqb c) (list_ascii_of_string s).

(** [s.split(c)[0]]: the text before the first [c]. *)
Fixpoint before_first (c : ascii) (l : list ascii) : list ascii :=
  match l with
  | [] => []
  | a :: l' => if Ascii.eqb a c then [] else a :: before_first c l'
  end.

(** [s.rsplit(c, 1)[-1]]: the text after the last [c], all of [s] when
    there is none.  [after_last_aux] carries the text read since the
    last [c]. *)
Fixpoint after_last_aux (c : ascii) (acc l : list ascii) : list ascii :=
  match l with
  | [] => acc
  | a :: l' =>
      if Ascii.eqb a c then after_last_aux c [] l'
      else after_last_aux c (acc ++ [a])%list l'
  end.

Definition after_last (c : ascii) (s : string) : string :=
  string_of_list_ascii (after_last_aux c [] (list_ascii_of_string s)).

(** [s.rsplit(c, 1)[0]]: the text before the last [c], all of [s] when
    there is none. *)
Definition before_last (c : ascii) (s : string) : string :=
  let l := list_ascii_of_string s in
  if has_char c s
  then string_of_list_ascii
         (firstn (length l - S (String.length (after_last c s))) l)
  else s.

(** [posixpath.basename]: the text after the last slash. *)
Definition posix_basename (p : string) : string := after_last "/" p.

(** [get_file_category(ext)] *)
Definition get_file_category (ext : string) : string :=
  let ext := py_lower ext in
  if bool_decide (ext ∈ ARCHIVE_EXTENSIONS) then "archive"
  else if bool_decide (ext ∈ EXECUTABLE_EXTENSIONS) then "executable"
  else if bool_decide (ext ∈ DOCUMENT_EXTENSIONS) then "document"
  else if bool_decide (ext ∈ IMAGE_EXTENSIONS) then "image"
  else if bool_decide (ext ∈ AUDIO_EXTENSIONS) then "audio"
  else if bool_decide (ext ∈ VIDEO_EXTENSIONS) then "video"
  else if bool_decide (ext ∈ FONT_EXTENSIONS) then "font"
  else if bool_decide (ext ∈ CODE_EXTENSIONS) then "code"
  else "file".

Section Classifier.

(** The library calls of the classifier are parameters: the path of
    [urllib.parse.urlparse(url)] (the call raises [ValueError] on a
    malformed host), [urllib.parse.unquote], [os.path.basename] (the
    text after the last separator of the platform) and the test of
    [find_ytdlp() is not None], which looks at the file system. *)
Variable urlparse_path : string -> result string.
Variable unquote : string -> string.
Variable basename : string -> string.
Variable has_ytdlp : bool.

(** [extract_filename_from_url(url)] *)
Definition extract_filename_from_url (url : string) : result string :=
  parsed_path ← urlparse_path url;
  let path := unquote parsed_path in
  let filename := basename path in
  let filename :=
    if has_char "?" filename
    then string_of_list_ascii (before_first "?" (list_ascii_of_string filename))
    else filename in
  Ok (if String.eqb filename "" then "download" else filename).

(** [get_extension_from_url(url)]; [None] is the Python [None]. *)
Definition get_extension_from_url (url : string) : result (option string) :=
  filename ← extract_filename_from_url url;
  Ok (if has_char "." filename then
        let ext := py_lower (after_last "." filename) in
        if (Z.of_nat (String.length ext) <=? 10) && py_isalnum ext
        then Some ext else None
      else None).

(** [is_direct_download_url(url)] *)
Definition is_direct_download_url (url : string) : result bool :=
  ext ← get_extension_from_url url;
  Ok (match ext with
      | Some ext => bool_decide (ext ∈ ALL_DIRECT_EXTENSIONS)
      | None => false
      end).

(** [analyze_url(url)]: the dict of the classification.  The three
    helper calls each parse the URL again, as in the source. *)
Definition analyze_url (url : string) : result pydict :=
  extension ← get_extension_from_url url;
  filename ← extract_filename_from_url url;
  let res : pydict :=
    <["filename" := VStr filename]>
    (<["extension" := from_option VStr VNone extension]>
    (<["has_ytdlp" := VBool has_ytdlp]>
    (<["is_direct" := VBool false]>
    (<["url" := VStr url]> ∅)))) in
  direct ← is_direct_download_url url;
  if (direct : bool)
  then
    let res := <["is_direct" := VBool true]> res in
    (* [get_file_category(None)] would fail on [None.lower()] *)
    match extension with
    | Some ext => Ok (<["category" := VStr (get_file_category ext)]> res)
    | None => Raise AttributeError
    end
  else Ok res.

End Classifier.

(** The words of the classification rule.  [ext] is the extension of
    [name]: the text after its last dot. *)
Definition has_extension (name ext : string) : Prop :=
  exists stem, name = stem ++ "." ++ ext /\ has_char "." ext = false.

(** The last path segment cut at its first question mark. *)
Definition before_question (segment : string) : string :=
  string_of_list_ascii (before_first "?" (list_ascii_of_string segment)).

(** The rule as the specification words it, on the last path segment. *)
Definition direct_as_specified (segment : string) : Prop :=
  exists ext, has_extension segment ext /\ py_isalnum ext = true /\
              (String.length ext <= 10)%nat /\ ext ∈ ALL_DIRECT_EXTENSIONS.

(** The rule of the code: the segment is cut at its first question
    mark and the extension is lowercased before it is judged. *)
Definition direct_filename (segment : string) : Prop :=
  exists ext, has_extension (before_question segment) ext /\
              py_isalnum (py_lower ext) = true /\
              (String.length ext <= 10)%nat /\
              get_file_category ext <> "file".

(** ** Format reconciler *)

(** [has_video(fmt)], [has_audio(fmt)] and [is_combined_format(fmt)].
    The Python functions return the value of [vcodec and vcodec != "none"];
    every caller only tests it, so the embedding returns its truth
    value. *)
Definition has_video (fmt : pydict) : bool :=
  let vcodec := get_or fmt "vcodec" (VStr "none") in
  truthy vcodec && negb (eq_str vcodec "none").

Definition has_audio (fmt : pydict) : bool :=
  let acodec := get_or fmt "acodec" (VStr "none") in
  truthy acodec && negb (eq_str acodec "none").

Definition is_combined_format (fmt : pydict) : bool :=
  has_video fmt && has_audio fmt.

(** [safe_int(value, default)]: [int(value)], and [default] for [None]
    and when [int] raises [TypeError] or [ValueError]. *)
Definition safe_int (value : pyval) (default : Z) : Z :=
  match value with
  | VNone => default
  | _ => match py_int value with
         | Ok n => n
         | _ => default
         end
  end.

(** [get_format_quality_score(fmt)] *)
Definition get_format_quality_score (fmt : pydict) : Z :=
  let score := 0 in
  let score := if is_combined_format fmt then score + 100000 else score in
  let height := safe_int (get fmt "height") 0 in
  let score := score + height * 10 in
  let tbr := safe_int (get fmt "tbr") 0 in
  let score := score + tbr in
  let ext := py_or (get fmt "ext") (VStr "") in
  let score :=
    if eq_str ext "mp4" then score + 500
    else if eq_str ext "webm" then score + 100
    else score in
  let fps := safe_int (get fmt "fps") 0 in
  let score :=
    if fps >=? 60 then score + 200
    else if fps >=? 30 then score + 100
    else score in
  score.

(** *** [list.sort(key=..., reverse=True)]

    The sort is stable: the result is in descending order of the keys
    and items with equal keys keep their input order.  [sort_desc] builds
    that list by insertion, for a key order [lt]. *)
Fixpoint insert_desc {A} (lt : A -> A -> bool) (x : A) (l : list A) : list A :=
  match l with
  | [] => [x]
  | y :: l' => if lt x y then y :: insert_desc lt x l' else x :: l
  end.

Fixpoint sort_desc {A} (lt : A -> A -> bool) (l : list A) : list A :=
  match l with
  | [] => []
  | x :: l' => insert_desc lt x (sort_desc lt l')
  end.

(** How a key value compares under [<]: numbers ([bool] counts as 0 or
    1) among themselves, strings among themselves by code points, lists
    among lists item by item; every other pair raises [TypeError]. *)
Inductive key_class : Type :=
| KNum (n : Z)
| KStr (s : string)
| KList
| KOther.

Definition key_class_of (v : pyval) : key_class :=
  match v with
  | VBool b => KNum (Z.b2z b)
  | VInt n => KNum n
  | VStr s => KStr s
  | VList _ => KList
  | VNone | VDict _ => KOther
  end.

Definition key_num (v : pyval) : Z :=
  match key_class_of v with KNum n => n | _ => 0 end.
Definition key_str (v : pyval) : string :=
  match key_class_of v with KStr s => s | _ => "" end.
Definition is_num_key (v : pyval) : bool :=
  match key_class_of v with KNum _ => true | _ => false end.
Definition is_str_key (v : pyval) : bool :=
  match key_class_of v with KStr _ => true | _ => false end.
Definition is_list_key (v : pyval) : bool :=
  match key_class_of v with KList => true | _ => false end.

(** [l.sort(key=key, reverse=True)] for keys that are Python values.  A
    list with fewer than two items is never compared.  Otherwise every
    comparison sort compares across any two classes of keys that are
    present, so keys of two classes, and keys that do not compare at
    all, raise [TypeError]; keys that are all lists may or may not
    compare, which is left out. *)
Definition sort_by_key_desc {A} (key : A -> pyval) (l : list A) : result (list A) :=
  match l with
  | [] | [_] => Ok l
  | _ =>
      if forallb (fun x => is_num_key (key x)) l
      then Ok (sort_desc (fun x y => key_num (key x) <? key_num (key y)) l)
      else if forallb (fun x => is_str_key (key x)) l
      then Ok (sort_desc (fun x y => String.ltb (key_str (key x)) (key_str (key y))) l)
      else if forallb (fun x => is_list_key (key x)) l
      then OutOfModel
      else Raise TypeError
  end.

(** The first loop of [merge_video_audio_formats] puts every format in
    at most one of three lists. *)
Inductive bucket : Set := Skipped | Combined | VideoOnly | AudioOnly.

Definition classify (fmt : pydict) : bucket :=
  if negb (truthy (get fmt "url")) then Skipped
  else if eq_str (get fmt "ext") "mhtml" || eq_str (get fmt "vcodec") "images"
  then Skipped
  else if is_combined_format fmt then Combined
  else if has_video fmt then VideoOnly
  else if has_audio fmt then AudioOnly
  else Skipped.

Definition bucket_eqb (a b : bucket) : bool :=
  match a, b with
  | Skipped, Skipped | Combined, Combined
  | VideoOnly, VideoOnly | AudioOnly, AudioOnly => true
  | _, _ => false
  end.

Definition in_bucket (b : bucket) (fmt : pydict) : bool :=
  bucket_eqb (classify fmt) b.

(** The sort key of the audio formats: [x.get("abr") or x.get("tbr") or 0]. *)
Definition audio_key (x : pydict) : pyval :=
  py_or (py_or (get x "abr") (get x "tbr")) (VInt 0).

(** The merged entry built from a video-only format and the best audio. *)
Definition merge_entry (best_audio vfmt : pydict) : pydict :=
  let merged := vfmt in
  let merged := <["acodec" := get_or best_audio "acodec" (VStr "aac")]> merged in
  let merged := <["abr" := get best_audio "abr"]> merged in
  let merged := <["audio_ext" := get_or best_audio "ext" (VStr "m4a")]> merged in
  let merged := <["_audio_url" := get best_audio "url"]> merged in
  let merged := <["_needs_merge" := VBool true]> merged in
  merged.

Definition video_only_entry (vfmt : pydict) : pydict :=
  <["_video_only" := VBool true]> vfmt.

Definition audio_entry (fmt : pydict) : pydict :=
  <["preference" := VInt (safe_int (get fmt "preference") 0 - 50)]> fmt.

(** The tests [has_v] and [has_a] of [transform_single] and of the last
    loop of the reconciler, on [fmt.get(k)] without a default. *)
Definition loop_has (fmt : pydict) (k : string) : bool :=
  truthy (py_and (get fmt k) (VBool (negb (eq_str (get fmt k) "none")))).

(** The state of the last loop: [seen_resolutions], [video_formats] and
    [best_audio]. *)
Record dedup_state : Type := {
  seen_resolutions : gset string;
  video_formats : list pydict;
  best_audio : option pydict
}.

(** One turn of the last loop.  The tests [has_v] and [has_a] are
    written as in the loop, with [fmt.get(k)] and no default. *)
Definition dedup_step (st : dedup_state) (fmt : pydict) : result dedup_state :=
  let height := py_or (get fmt "height") (VInt 0) in
  let has_v := py_and (get fmt "vcodec")
                 (VBool (negb (eq_str (get fmt "vcodec") "none"))) in
  let has_a := py_and (get fmt "acodec")
                 (VBool (negb (eq_str (get fmt "acodec") "none"))) in
  let has_audio_ext := get fmt "audio_ext" in
  if truthy has_v then
    if truthy (py_or has_a has_audio_ext) then
      height_text ← py_str height;
      let key := "video_" ++ height_text in
      if bool_decide (key ∈ seen_resolutions st) then Ok st
      else Ok {| seen_resolutions := seen_resolutions st ∪ {[ key ]};
                 video_formats := (video_formats st ++ [fmt])%list;
                 best_audio := best_audio st |}
    else Ok st
  else
    if truthy has_a && bool_decide (best_audio st = None)
    then Ok {| seen_resolutions := seen_resolutions st;
               video_formats := video_formats st;
               best_audio := Some fmt |}
    else Ok st.

Fixpoint dedup_loop (st : dedup_state) (l : list pydict) : result dedup_state :=
  match l with
  | [] => Ok st
  | fmt :: l' => st' ← dedup_step st fmt; dedup_loop st' l'
  end.

(** The state in which the last loop starts. *)
Definition dedup_start : dedup_state :=
  {| seen_resolutions := ∅; video_formats := []; best_audio := None |}.

(** [merge_video_audio_formats(formats)] *)
Definition merge_video_audio_formats (formats : list pydict)
  : result (list pydict) :=
  let combined := List.filter (in_bucket Combined) formats in
  let video_only := List.filter (in_bucket VideoOnly) formats in
  let audio_only := List.filter (in_bucket AudioOnly) formats in
  let result := combined in
  (* if video_only and audio_only: *)
  '(audio_only, result) ←
    match video_only, audio_only with
    | _ :: _, _ :: _ =>
        audio_only ← sort_by_key_desc audio_key audio_only;
        match audio_only with
        | best_audio :: _ =>
            if truthy (VDict best_audio)
            then Ok (audio_only,
                     (result ++ map (merge_entry best_audio) video_only)%list)
            else Ok (audio_only, result)
        | [] => Ok (audio_only, result)
        end
    | _, _ => Ok (audio_only, result)
    end;
  (* if not result and video_only: *)
  let result :=
    match result with
    | [] => map video_only_entry video_only
    | _ => result
    end in
  let result := (result ++ map audio_entry audio_only)%list in
  let result :=
    sort_desc (fun x y => get_format_quality_score x <? get_format_quality_score y)
              result in
  st ← dedup_loop dedup_start result;
  let deduplicated := video_formats st in
  match best_audio st with
  | Some b => if truthy (VDict b) then Ok (deduplicated ++ [b])%list
              else Ok deduplicated
  | None => Ok deduplicated
  end.

(** ** The reconciler over a store of objects

    The definitions above pass dicts by value.  Here the dicts and lists
    of the reconciler are objects in a store and the program works on
    references, so that aliasing and mutation are visible: [x.copy()]
    allocates, [l.append(x)], [l.sort()] and [d[k] = v] update the store
    in place.  The members of a dict are values; a nested dict or list
    is held by value, the reconciler never writes to one. *)
Abbreviation loc := positive.

Inductive obj : Type :=
| ODict (d : pydict)
| OList (items : list loc).

Abbreviation store := (gmap positive obj).

(** A computation on the store. *)
Definition M (A : Type) : Type := store -> result (A * store).

#[global] Instance M_ret : MRet M := fun A a h => Ok (a, h).
#[global] Instance M_bind : MBind M := fun A B f m h =>
  match m h with
  | Ok (a, h') => f a h'
  | Raise e => Raise e
  | OutOfModel => OutOfModel
  end.

(** A step that does not touch the store. *)
Definition lift {A} (r : result A) : M A := fun h =>
  match r with
  | Ok a => Ok (a, h)
  | Raise e => Raise e
  | OutOfModel => OutOfModel
  end.

(** A new object: [[]], [set()], [d.copy()]. *)
Definition alloc (o : obj) : M loc := fun h =>
  let l := fresh (dom h) in Ok (l, <[l := o]> h).

(** The dict behind a reference, for [x.get(...)]; a list has no [get].
    A reference to nothing does not occur in a Python run. *)
Definition read_dict (l : loc) : M pydict := fun h =>
  match h !! l with
  | Some (ODict d) => Ok (d, h)
  | Some (OList _) => Raise AttributeError
  | None => OutOfModel
  end.

(** The items of the list behind a reference, for [for x in l].  The
    reference is to a list: the loop over the keys of a dict is left
    out. *)
Definition read_list (l : loc) : M (list loc) := fun h =>
  match h !! l with
  | Some (OList items) => Ok (items, h)
  | Some (ODict _) => OutOfModel
  | None => OutOfModel
  end.

(** [l.append(x)] *)
Definition append (l x : loc) : M unit := fun h =>
  match h !! l with
  | Some (OList items) => Ok (tt, <[l := OList (items ++ [x])]> h)
  | Some (ODict _) => Raise AttributeError
  | None => OutOfModel
  end.

(** The list behind [l] gets new items in place, as [l.sort()] does. *)
Definition set_items (l : loc) (items : list loc) : M unit := fun h =>
  match h !! l with
  | Some (OList _) => Ok (tt, <[l := OList items]> h)
  | Some (ODict _) => Raise AttributeError
  | None => OutOfModel
  end.

(** [d[k] = v] *)
Definition setitem (l : loc) (k : string) (v : pyval) : M unit := fun h =>
  match h !! l with
  | Some (ODict d) => Ok (tt, <[l := ODict (<[k := v]> d)]> h)
  | Some (OList _) => Raise TypeError
  | None => OutOfModel
  end.

(** [d.copy()]: a new dict with the same members. *)
Definition copy (l : loc) : M loc :=
  d ← read_dict l; alloc (ODict d).

(** [x.get(k)] and [x.get(k, dflt)] through a reference. *)
Definition ref_get (l : loc) (k : string) : M pyval :=
  d ← read_dict l; mret (get d k).
Definition ref_get_or (l : loc) (k : string) (dflt : pyval) : M pyval :=
  d ← read_dict l; mret (get_or d k dflt).

(** [for x in items: body(x)] *)
Fixpoint for_each {A} (items : list A) (body : A -> M unit) : M unit :=
  match items with
  | [] => mret tt
  | x :: items' => _ ← body x; for_each items' body
  end.

(** A loop that carries local variables [s]. *)
Fixpoint fold_each {A S} (items : list A) (s : S) (body : S -> A -> M S) : M S :=
  match items with
  | [] => mret s
  | x :: items' => s' ← body s x; fold_each items' s' body
  end.

Fixpoint read_dicts (items : list loc) : M (list pydict) :=
  match items with
  | [] => mret []
  | x :: items' => d ← read_dict x; ds ← read_dicts items'; mret (d :: ds)
  end.

(** [l.sort(key=key, reverse=True)] on a list of references to dicts:
    the key is computed from the dict behind each reference. *)
Definition sort_refs_by_key (l : loc) (key : pydict -> pyval) : M unit :=
  items ← read_list l;
  ds ← read_dicts items;
  sorted ← lift (sort_by_key_desc (fun p => key (snd p)) (combine items ds));
  set_items l (map fst sorted).

Definition sort_refs_by_score (l : loc) : M unit :=
  items ← read_list l;
  ds ← read_dicts items;
  set_items l
    (map fst
       (sort_desc (fun p q => get_format_quality_score (snd p)
                              <? get_format_quality_score (snd q))
                  (combine items ds))).

(** One turn of the last loop: the local variables are
    [seen_resolutions] and [best_audio]; [video_formats] is a list in
    the store. *)
Definition dedup_turn (video_formats : loc)
    (s : gset string * option loc) (fmt : loc)
  : M (gset string * option loc) :=
  let '(seen, best) := s in
  d ← read_dict fmt;
  let height := py_or (get d "height") (VInt 0) in
  let has_v := loop_has d "vcodec" in
  let has_a := loop_has d "acodec" in
  let has_audio_ext := get d "audio_ext" in
  if has_v then
    if has_a || truthy has_audio_ext then
      height_text ← lift (py_str height);
      let key := "video_" ++ height_text in
      if bool_decide (key ∈ seen) then mret (seen, best)
      else _ ← append video_formats fmt; mret (seen ∪ {[ key ]}, best)
    else mret (seen, best)
  else
    if has_a && bool_decide (best = None)
    then mret (seen, Some fmt)
    else mret (seen, best).

(** [merge_video_audio_formats(formats)] on references: [formats] is
    the list object of the caller, and the result is a reference to the
    list that is returned. *)
Definition merge_video_audio_formats_refs (formats : loc) : M loc :=
  combined ← alloc (OList []);
  video_only ← alloc (OList []);
  audio_only ← alloc (OList []);
  items ← read_list formats;
  _ ← for_each items (fun fmt =>
         d ← read_dict fmt;
         match classify d with
         | Skipped => mret tt
         | Combined => append combined fmt
         | VideoOnly => append video_only fmt
         | AudioOnly => append audio_only fmt
         end);
  result ← alloc (OList []);
  cs ← read_list combined;
  _ ← for_each cs (fun fmt => append result fmt);
  vs ← read_list video_only;
  aus ← read_list audio_only;
  _ ← match vs, aus with
      | _ :: _, _ :: _ =>
          _ ← sort_refs_by_key audio_only audio_key;
          sorted ← read_list audio_only;
          match sorted with
          | best_audio :: _ =>
              b ← read_dict best_audio;
              if truthy (VDict b) then
                for_each vs (fun vfmt =>
                  merged ← copy vfmt;
                  acodec ← ref_get_or best_audio "acodec" (VStr "aac");
                  _ ← setitem merged "acodec" acodec;
                  abr ← ref_get best_audio "abr";
                  _ ← setitem merged "abr" abr;
                  audio_ext ← ref_get_or best_audio "ext" (VStr "m4a");
                  _ ← setitem merged "audio_ext" audio_ext;
                  audio_url ← ref_get best_audio "url";
                  _ ← setitem merged "_audio_url" audio_url;
                  _ ← setitem merged "_needs_merge" (VBool true);
                  append result merged)
              else mret tt
          | [] => mret tt
          end
      | _, _ => mret tt
      end;
  rs ← read_list result;
  _ ← match rs with
      | [] =>
          for_each vs (fun vfmt =>
            vfmt_copy ← copy vfmt;
            _ ← setitem vfmt_copy "_video_only" (VBool true);
            append result vfmt_copy)
      | _ => mret tt
      end;
  aus ← read_list audio_only;
  _ ← for_each aus (fun fmt =>
         fmt_copy ← copy fmt;
         preference ← ref_get fmt_copy "preference";
         _ ← setitem fmt_copy "preference" (VInt (safe_int preference 0 - 50));
         append result fmt_copy);
  _ ← sort_refs_by_score result;
  video_formats ← alloc (OList []);
  rs ← read_list result;
  s ← fold_each rs (∅, None) (dedup_turn video_formats);
  let deduplicated := video_formats in
  match snd s with
  | Some best_audio =>
      b ← read_dict best_audio;
      if truthy (VDict b)
      then _ ← append deduplicated best_audio; mret deduplicated
      else mret deduplicated
  | None => mret deduplicated
  end.

(** *** What a run may do to the store

    [h0] is the store when the reconciler is called and [ins] are the
    items of the list it is called with.  A reference is acceptable in a
    list of the run when it is one of those items or was allocated by
    the run.  The invariant of a run: every object of [h0] is still
    there, unchanged; and every reference in [L] (the lists of the run)
    is new, is a list, and holds acceptable references only. *)
Section StoreInvariant.

Variable h0 : store.
Variable ins : list loc.

Definition acceptable (x : loc) : Prop := In x ins \/ h0 !! x = None.

Definition run_inv (L : list loc) (h : store) : Prop :=
  (forall l o, h0 !! l = Some o -> h !! l = Some o) /\
  (forall l, In l L ->
     h0 !! l = None /\
     exists items, h !! l = Some (OList items) /\
                   forall x, In x items -> acceptable x).

(** From a store with [run_inv L], a run of [m] that returns [a] ends
    in a store with [run_inv (L' a)], and [post a] holds. *)
Definition triple {A} (L : list loc) (m : M A)
    (post : A -> Prop) (L' : A -> list loc) : Prop :=
  forall h a h', run_inv L h -> m h = Ok (a, h') ->
                 post a /\ run_inv (L' a) h'.

End StoreInvariant.

(** ** Record transformer *)

(** [for x in v]: the items that the loop visits.  A dict gives its
    keys; their order is not kept, and no loop below depends on it. *)
Definition py_iter (v : pyval) : result (list pyval) :=
  match v with
  | VList l => Ok l
  | VStr s => Ok (map (fun c => VStr (String c "")) (list_ascii_of_string s))
  | VDict d => Ok (map (fun kv => VStr (fst kv)) (map_to_list d))
  | VNone | VBool _ | VInt _ => Raise TypeError
  end.

(** The receiver of [v.get(...)] or [v.items()]: only a dict has these
    methods. *)
Definition as_dict (v : pyval) : result pydict :=
  match v with
  | VDict d => Ok d
  | _ => Raise AttributeError
  end.

(** [needle in s] for strings. *)
Fixpoint is_infix (needle s : string) : bool :=
  String.prefix needle s ||
  match s with
  | EmptyString => false
  | String _ s' => is_infix needle s'
  end.

(** [needle in v] for a string literal [needle]. *)
Definition py_contains_str (needle : string) (v : pyval) : result bool :=
  match v with
  | VStr s => Ok (is_infix needle s)
  | VList l => Ok (existsb (fun x => eq_str x needle) l)
  | VDict d => Ok (bool_decide (is_Some (d !! needle)))
  | VNone | VBool _ | VInt _ => Raise TypeError
  end.

(** [v.startswith(p)] *)
Definition py_startswith (v : pyval) (p : string) : result bool :=
  match v with
  | VStr s => Ok (String.prefix p s)
  | _ => Raise AttributeError
  end.

(** *** [format_filesize]

    The size becomes a float and is written with one or two decimals.
    For an [int] below 2^53 the float is the integer itself and the
    divisions by powers of 1024 are exact, so the decimals are those of
    the exact quotient, rounded to nearest with ties to even. *)
Definition round_half_even (a b : Z) : Z :=
  let q := a / b in
  let r := a mod b in
  if 2 * r <? b then q
  else if b <? 2 * r then q + 1
  else if Z.even q then q else q + 1.

(** [f"{n/unit:.1f}"] and [f"{n/unit:.2f}"] *)
Definition fixed1 (n unit : Z) : string :=
  let t := round_half_even (n * 10) unit in
  str_of_int (t / 10) ++ "." ++ str_of_int (t mod 10).

Definition fixed2 (n unit : Z) : string :=
  let t := round_half_even (n * 100) unit in
  str_of_int (t / 100) ++ "." ++
  str_of_int (t mod 100 / 10) ++ str_of_int (t mod 10).

(** [format_filesize(size_bytes)].  [float(s)] of a [str] and the
    rounding of an [int] from 2^53 on are not embedded. *)
Definition format_filesize (size_bytes : pyval) : result string :=
  match size_bytes with
  | VNone => Ok ""
  | VBool b => Ok (str_of_int (Z.b2z b) ++ "B")
  | VInt n =>
      if 2 ^ 53 <=? Z.abs n then OutOfModel
      else if n <? 1024 then Ok (str_of_int n ++ "B")
      else if n <? 1024 * 1024 then Ok (fixed1 n 1024 ++ "KB")
      else if n <? 1024 * 1024 * 1024 then Ok (fixed1 n (1024 * 1024) ++ "MB")
      else Ok (fixed2 n (1024 * 1024 * 1024) ++ "GB")
  | VStr _ => OutOfModel
  | VList _ | VDict _ => Ok ""
  end.

(** One item of the list comprehension over [fragments]. *)
Definition fragment_entry (f : pyval) : result pyval :=
  f ← as_dict f;
  Ok (VDict (<["path" := get_or f "path" (get_or f "url" (VStr ""))]> ∅)).

(** [transform_format(fmt, title, video_id)]; [None] is the Python
    [None]. *)
Definition transform_format (fmt : pydict) (title : string) (video_id : pyval)
  : result (option pydict) :=
  let url := get fmt "url" in
  if negb (truthy url) then Ok None else
  let protocol := get_or fmt "protocol" (VStr "https") in
  protocol ←
    (if eq_str protocol "http" || eq_str protocol "https"
        || eq_str protocol "m3u8_native" || eq_str protocol "http_dash_segments"
     then Ok protocol
     else
       in_url ← py_contains_str "m3u8" url;
       if (in_url : bool) || eq_str (get fmt "ext") "m3u8"
       then Ok (VStr "m3u8_native")
       else
         https ← py_startswith url "https";
         Ok (VStr (if (https : bool) then "https" else "http")));
  let ext := get_or fmt "ext" (VStr "mp4") in
  let height := get fmt "height" in
  let res : pydict :=
    <["tbr" := get fmt "tbr"]>
    (<["preference" := VInt (safe_int (get fmt "preference") 0)]>
    (<["quality" := VInt (safe_int (get fmt "quality") 0)]>
    (<["filesize" := py_or (get fmt "filesize") (get fmt "filesize_approx")]>
    (<["ext" := ext]>
    (<["protocol" := protocol]>
    (<["url" := url]> ∅)))))) in
  (* Video codec handling *)
  let vcodec := get_or fmt "vcodec" (VStr "none") in
  let has_v := truthy vcodec && negb (eq_str vcodec "none") in
  let res :=
    if has_v then
      <["fps" := get fmt "fps"]> (<["width" := get fmt "width"]>
      (<["height" := height]> (<["vcodec" := vcodec]>
      (<["video_ext" := ext]> res))))
    else res in
  (* Audio codec handling *)
  let acodec := get_or fmt "acodec" (VStr "none") in
  let has_a := truthy acodec && negb (eq_str acodec "none") in
  let res :=
    if has_a then
      <["abr" := get fmt "abr"]> (<["acodec" := acodec]>
      (<["audio_ext" := if has_v then ext else get_or fmt "audio_ext" ext]> res))
    else res in
  (* Formats that had audio info merged in *)
  let res :=
    if truthy (get fmt "audio_ext") && negb has_a then
      <["abr" := get fmt "abr"]>
      (<["acodec" := get_or fmt "acodec" (VStr "aac")]>
      (<["audio_ext" := get fmt "audio_ext"]> res))
    else res in
  (* Format description *)
  parts_v ←
    (if has_v then
       let fps := safe_int (get fmt "fps") 0 in
       hp ← (if truthy height then t ← py_str height; Ok [t ++ "p"] else Ok []);
       Ok (hp ++ (if fps >=? 60 then [(str_of_int fps ++ "fps")%string] else []))%list
     else Ok []);
  let parts_a :=
    if has_a || truthy (get fmt "audio_ext") then
      let abr := safe_int (get fmt "abr") 0 in
      if abr >? 0 then [str_of_int abr ++ "kbps"] else []
    else [] in
  let filesize := py_or (get fmt "filesize") (get fmt "filesize_approx") in
  parts_s ←
    (if truthy filesize then
       size_str ← format_filesize filesize; Ok ["[" ++ size_str ++ "]"]
     else Ok []);
  let format_parts := (parts_v ++ parts_a ++ parts_s)%list in
  res ←
    match format_parts with
    | [] => Ok res
    | _ =>
        t ← py_str ext;
        Ok (<["format" := VStr (String.concat " " format_parts ++ " (" ++ t ++ ")")]> res)
    end;
  (* Filename of this format *)
  res ←
    (if negb (String.eqb title "") then
       hp ← (if truthy height then t ← py_str height; Ok [t ++ "p"] else Ok []);
       ip ← (if truthy video_id then
               n ← py_len video_id;
               if n <=? 12 then t ← py_str video_id; Ok ["[" ++ t ++ "]"]
               else Ok []
             else Ok []);
       Ok (<["_filename" := VStr (String.concat "_" (title :: hp ++ ip)%list)]> res)
     else Ok res);
  let res :=
    if truthy (get fmt "language") then
      <["languagePreference" := get_or fmt "language_preference" (VInt 0)]>
      (<["language" := get fmt "language"]> res)
    else res in
  let http_headers := get_or fmt "http_headers" (VDict ∅) in
  let res :=
    if truthy http_headers then <["httpHeaders" := http_headers]> res else res in
  res ←
    (if eq_str protocol "http_dash_segments" then
       t ← py_str ext; Ok (<["container" := VStr (t ++ "_dash")]> res)
     else Ok res);
  let fragments := get_or fmt "fragments" (VList []) in
  res ←
    (if truthy fragments then
       items ← py_iter fragments;
       frags ← mapM_result fragment_entry items;
       Ok (<["fragments" := VList frags]>
           (<["fragment_base_url" := get_or fmt "fragment_base_url" (VStr "")]> res))
     else Ok res);
  let res :=
    if eq_str protocol "m3u8_native"
    then <["manifestUrl" := get_or fmt "manifest_url" url]> res else res in
  Ok (Some res).

(** [transform_playlist_info(data)]; [playlist_entry] is one turn of
    its loop. *)
Definition playlist_entry (entry : pyval) : result (option pyval) :=
  if truthy entry then
    e ← as_dict entry;
    Ok (Some (VDict
      (<["duration" := get e "duration"]>
      (<["title" := get_or e "title" (VStr "Unknown")]>
      (<["url" := get_or e "url" (get_or e "webpage_url" (VStr ""))]>
      (<["_type" := VStr "url"]> ∅))))))
  else Ok None.

Definition transform_playlist_info (data : pydict) : result pydict :=
  items ← py_iter (get_or data "entries" (VList []));
  entries ← mapM_result playlist_entry items;
  Ok (<["entries" := VList (keep_some entries)]>
      (<["webpage_url" := get_or data "webpage_url" (VStr "")]>
      (<["title" := get_or data "title" (VStr "Playlist")]>
      (<["id" := get_or data "id" (VStr "")]>
      (<["_type" := VStr "playlist"]> ∅))))).

(** [repr(v)] of an item of a list, as [str] of the list writes it, for
    [None], a [bool] and an [int].  The text of a string (its quotes
    and escapes), of a nested list and of a dict is not embedded. *)
Definition py_repr_item (v : pyval) : result string :=
  match v with
  | VNone | VBool _ | VInt _ => py_str v
  | VStr _ | VList _ | VDict _ => OutOfModel
  end.

(** [str(l)] for a list: its items between brackets, with a comma and a
    space between two items. *)
Definition py_str_list (l : list pyval) : result string :=
  items ← mapM_result py_repr_item l;
  Ok ("[" ++ String.concat ", " items ++ "]").

(** The f-string of the [upload_date] lines on a list [l]: the texts of
    [l[:4]], [l[4:6]] and [l[6:8]] with hyphens between them. *)
Definition list_date (l : list pyval) : result string :=
  a ← py_str_list (firstn 4 l);
  b ← py_str_list (firstn 2 (skipn 4 l));
  c ← py_str_list (firstn 2 (skipn 6 l));
  Ok (a ++ "-" ++ b ++ "-" ++ c).

(** The [upload_date] lines of [transform_single]: the text of the
    field, or [None] when the field is left out.  The value is tested
    for truth and for [len(upload_date) == 8] only, so a list of eight
    items is sliced like a string of eight characters.  The slice of a
    dict raises ([TypeError], or [KeyError] from Python 3.12 on) and is
    not embedded. *)
Definition upload_date_field (upload_date : pyval) : result (option string) :=
  if truthy upload_date then
    n ← py_len upload_date;
    if n =? 8 then
      match upload_date with
      | VStr s =>
          Ok (Some (substring 0 4 s ++ "-" ++ substring 4 2 s ++ "-" ++
                    substring 6 2 s))
      | VList l => text ← list_date l; Ok (Some text)
      | _ => OutOfModel
      end
    else Ok None
  else Ok None.

(** The list that the reconciler is called with. *)
Definition raw_formats (data : pydict) : result (list pydict) :=
  let formats := get_or data "formats" (VList []) in
  let formats :=
    if negb (truthy formats) && truthy (get data "url")
    then VList [VDict data] else formats in
  items ← py_iter formats;
  mapM_result as_dict items.

(** The filter of [transform_single]: combined, audio-only, with audio
    info, or flagged as the video-only fallback. *)
Definition keep_format (fmt : pydict) : bool :=
  let has_v := loop_has fmt "vcodec" in
  let has_a := loop_has fmt "acodec" in
  (has_v && has_a) || (negb has_v && has_a)
  || truthy (get fmt "audio_ext") || truthy (get fmt "_video_only").

(** The subtitle loop of [transform_single]: one track, one language,
    and the loop over [subtitles.items()]. *)
Definition subtitle_entry (lang : string) (sub : pyval) : result pyval :=
  sub ← as_dict sub;
  Ok (VDict
    (<["ext" := get_or sub "ext" (VStr "vtt")]>
    (<["url" := get_or sub "url" (VStr "")]>
    (<["name" := get_or sub "name" (VStr lang)]> ∅)))).

Definition subtitle_language (item : string * pyval)
  : result (option (string * pyval)) :=
  let '(lang, subs) := item in
  match subs with
  | VList ((_ :: _) as l) =>
      entries ← mapM_result (subtitle_entry lang) l;
      Ok (Some (lang, VList entries))
  | _ => Ok None
  end.

Definition transform_subtitles (subtitles : pyval) : result pydict :=
  d ← as_dict subtitles;
  pairs ← mapM_result subtitle_language (map_to_list d);
  Ok (list_to_map (keep_some pairs)).

(** The thumbnail loop of [transform_single] and one turn of it. *)
Definition thumbnail_entry (thumb : pyval) : result (option pyval) :=
  t ← as_dict thumb;
  if truthy (get t "url") then
    Ok (Some (VDict
      (<["preference" := VInt (safe_int (get t "preference") 0)]>
      (<["height" := get t "height"]>
      (<["width" := get t "width"]>
      (<["url" := get t "url"]> ∅))))))
  else Ok None.

Definition transform_thumbnails (thumbnails : pyval) : result (list pyval) :=
  items ← py_iter thumbnails;
  thumbs ← mapM_result thumbnail_entry items;
  Ok (keep_some thumbs).

Section Transformer.

Variable nfkd : list N -> list N.

(** What [check_ytdlp_version()] returns: the version text of the
    installed extractor, or [None].  It runs the extractor, so it is a
    parameter. *)
Variable ytdlp_version : option string.

(** [sanitize_filename(title)] on a value: an empty value of any type
    gives the fallback name, and [unicodedata.normalize] refuses what is
    no [str]. *)
Definition sanitize_title (title : pyval) : result string :=
  if negb (truthy title) then Ok "download"
  else match title with
       | VStr s => Ok (sanitize_filename nfkd (codepoints s) 200)
       | _ => Raise TypeError
       end.

(** The [formats] of the result: the reconciled formats, transformed
    and filtered. *)
Definition transformed_formats (data : pydict) (clean_title : string)
    (video_id : pyval) : result (list pydict) :=
  formats ← raw_formats data;
  processed_formats ← merge_video_audio_formats formats;
  fmt_objs ← mapM_result
    (fun fmt => transform_format fmt clean_title video_id) processed_formats;
  let formats :=
    List.filter (fun fmt_obj => truthy (VDict fmt_obj))
      (keep_some fmt_objs) in
  let filtered_formats := List.filter keep_format formats in
  Ok (match filtered_formats with
      | [] => formats
      | _ => filtered_formats
      end).

(** [transform_single(data)] *)
Definition transform_single (data : pydict) : result pydict :=
  if eq_str (get data "_type") "playlist" then transform_playlist_info data
  else
    let original_title := get_or data "title" (VStr "Unknown Title") in
    clean_title ← sanitize_title original_title;
    let video_id := get_or data "id" (VStr "") in
    let res : pydict :=
      <["thumbnails" := VList []]>
      (<["subtitles" := VDict ∅]>
      (<["formats" := VList []]>
      (<["duration" := get data "duration"]>
      (<["webpage_url" := get_or data "webpage_url" (get_or data "url" (VStr ""))]>
      (<["original_title" := original_title]>
      (<["title" := VStr clean_title]>
      (<["id" := video_id]> ∅))))))) in
    upload_date ← upload_date_field (get data "upload_date");
    let res :=
      match upload_date with
      | Some text => <["upload_date" := VStr text]> res
      | None => res
      end in
    formats ← transformed_formats data clean_title video_id;
    let res := <["formats" := VList (map VDict formats)]> res in
    let res :=
      match formats with
      | [] =>
          <["_hint" := VStr "Try updating yt-dlp: yt-dlp -U"]>
          (<["_ytdlp_version" := from_option VStr VNone ytdlp_version]>
          (<["_error" := VStr "No downloadable formats found"]> res))
      | _ => res
      end in
    subtitles ← transform_subtitles (get_or data "subtitles" (VDict ∅));
    let res := <["subtitles" := VDict subtitles]> res in
    thumbnails ← transform_thumbnails (get_or data "thumbnails" (VList []));
    let res := <["thumbnails" := VList thumbnails]> res in
    Ok res.

End Transformer.

(** The words of the reconciler's properties.  A video-with-audio
    candidate is a combined format, or a video-only format together with
    an audio-only format to pair it with. *)
Definition video_with_audio_candidate (formats : list pydict) : Prop :=
  (exists f, In f formats /\ classify f = Combined) \/
  ((exists v, In v formats /\ classify v = VideoOnly) /\
   (exists a, In a formats /\ classify a = AudioOnly)).

(** The raw formats of the first end-to-end scenario: a video-only
    stream at 1080 lines and an audio-only stream. *)
Definition scenario_video : pydict :=
  <["height" := VInt 1080]> (<["vcodec" := VStr "avc1"]>
  (<["acodec" := VStr "none"]> (<["ext" := VStr "mp4"]>
  (<["url" := VStr "A"]> ∅)))).

Definition scenario_audio : pydict :=
  <["height" := VInt 0]> (<["vcodec" := VStr "none"]>
  (<["acodec" := VStr "aac"]> (<["abr" := VInt 128]>
  (<["ext" := VStr "m4a"]> (<["url" := VStr "B"]> ∅))))).

(** A combined format at 1080 lines, for the container tie-break. *)
Definition scenario_combined : pydict :=
  <["height" := VInt 1080]> (<["vcodec" := VStr "avc1"]>
  (<["acodec" := VStr "aac"]> (<["url" := VStr "C"]> ∅))).

(** The store of a call on the two formats of the scenario: the two
    dicts, and the list that holds them. *)
Definition scenario_store : store :=
  {[ 1%positive := ODict scenario_video;
     2%positive := ODict scenario_audio;
     3%positive := OList [1%positive; 2%positive] ]}.



(** A record with a well-formed upload date. *)
Definition record_with_date : pydict :=
  <["upload_date" := VStr "20240105"]> (<["title" := VStr "clip"]>
  (<["id" := VStr "abc"]> ∅)).

(** A record without formats, and a record whose upload date has eight
    characters that are not all digits. *)
Definition record_without_formats : pydict :=
  <["formats" := VList []]> (<["title" := VStr "clip"]>
  (<["id" := VStr "abc"]> ∅)).



Definition record_with_null_subtitles : pydict :=
  <["subtitles" := VNone]> (<["formats" := VList []]>
  (<["title" := VStr "clip"]> (<["id" := VStr "abc"]> ∅))).

(** ** Direct downloads, file names and playlists *)

Section DirectDownload.

Variable nfkd : list N -> list N.
Variable urlparse_path : string -> result string.
Variable unquote : string -> string.
Variable basename : string -> string.

(** [extract_with_ytdlp(url, playlist)] runs the extractor and reads
    what it prints; it is a parameter. *)
Variable extract_with_ytdlp : string -> bool -> result pydict.

(** [create_direct_download_result(url)] *)
Definition create_direct_download_result (url : string) : result pydict :=
  original_filename ← extract_filename_from_url urlparse_path unquote basename url;
  extension ← get_extension_from_url urlparse_path unquote basename url;
  let ext :=
    match extension with
    | Some e => if String.eqb e "" then "bin" else e
    | None => "bin"
    end in
  let category := get_file_category ext in
  let name_without_ext :=
    if has_char "." original_filename
    then before_last "." original_filename
    else original_filename in
  let clean_name := sanitize_filename nfkd (codepoints name_without_ext) 200 in
  let protocol := if String.prefix "https" url then "https" else "http" in
  let fmt : pydict :=
    <["_filename" := VStr clean_name]>
    (<["format" := VStr (category ++ "/" ++ ext)]>
    (<["ext" := VStr ext]>
    (<["protocol" := VStr protocol]>
    (<["url" := VStr url]> ∅)))) in
  let fmt :=
    if String.eqb category "video" then <["video_ext" := VStr ext]> fmt
    else if String.eqb category "audio" then <["audio_ext" := VStr ext]> fmt
    else fmt in
  Ok (<["direct_download" := VBool true]>
      (<["category" := VStr category]>
      (<["formats" := VList [VDict fmt]]>
      (<["webpage_url" := VStr url]>
      (<["original_title" := VStr original_filename]>
      (<["title" := VStr clean_name]>
      (<["id" := VStr clean_name]> ∅))))))).

(** [extract_info(url, playlist)] *)
Definition extract_info (url : string) (playlist : bool) : result pydict :=
  direct ← is_direct_download_url urlparse_path unquote basename url;
  if (direct : bool) then create_direct_download_result url
  else extract_with_ytdlp url playlist.

End DirectDownload.

(** [generate_filename(title, video_id, height, ext, include_quality)];
    the function does not read [ext]. *)
Definition generate_filename (nfkd : list N -> list N)
    (title video_id height ext : pyval) (include_quality : bool)
  : result string :=
  base_name ← sanitize_title nfkd title;
  hp ← (if include_quality && truthy height
        then t ← py_str height; Ok [t ++ "p"] else Ok []);
  ip ← (if truthy video_id then
          n ← py_len video_id;
          if n <=? 15 then t ← py_str video_id; Ok ["[" ++ t ++ "]"]
          else Ok []
        else Ok []);
  Ok (String.concat "_" (base_name :: hp ++ ip)%list).

(** [transform_playlist(items, url)]: one entry of the list it builds,
    and its loop, which stops at the first item that is a playlist. *)
Definition playlist_item_entry (item : pydict) : pyval :=
  VDict
    (<["duration" := get item "duration"]>
    (<["title" := get_or item "title" (VStr "Unknown")]>
    (<["url" := get_or item "webpage_url" (get_or item "url" (VStr ""))]>
    (<["_type" := VStr "url"]> ∅)))).

Fixpoint transform_playlist_loop (items entries : list pyval) (title : pyval)
    (url : string) : result pydict :=
  match items with
  | [] =>
      Ok (<["entries" := VList entries]>
          (<["webpage_url" := VStr url]>
          (<["title" := title]>
          (<["_type" := VStr "playlist"]> ∅))))
  | item :: items' =>
      item ← as_dict item;
      if eq_str (get item "_type") "playlist" then transform_playlist_info item
      else
        let entries := (entries ++ [playlist_item_entry item])%list in
        let title :=
          if negb (truthy title) || eq_str title "Playlist"
          then get_or item "playlist_title"
                 (get_or item "playlist" (VStr "Playlist"))
          else title in
        transform_playlist_loop items' entries title url
  end.

Definition transform_playlist (items : list pyval) (url : string)
  : result pydict :=
  transform_playlist_loop items [] (VStr "Playlist") url.

(** The keys that the reconciler writes in the copies it makes. *)
Definition reconciler_keys : list string :=
  ["acodec"; "abr"; "audio_ext"; "_audio_url"; "_needs_merge"; "_video_only";
   "preference"].

(** What [analyze_url] returns for the URL [https://x.com/a/report.pdf]
    when the extractor is installed. *)
Definition report_analysis : pydict :=
  <["category" := VStr (get_file_category "pdf")]>
  (<["is_direct" := VBool true]>
  (<["filename" := VStr "report.pdf"]>
  (<["extension" := VStr "pdf"]>
  (<["has_ytdlp" := VBool true]>
  (<["is_direct" := VBool false]>
  (<["url" := VStr "https://x.com/a/report.pdf"]> ∅)))))).

(** The shape of a clean name, on its characters: no whitespace, no two
    underscores in a row, no underscore, dot or space in front, and no
    underscore at the end. *)
Definition clean_name_shape (l : list ascii) : Prop :=
  (forall c, In c l -> py_isspace c = false) /\
  (forall l1 l2, l <> (l1 ++ "_" :: "_" :: l2)%list)%char /\
  (forall c t, l = c :: t -> ascii_in "_. " c = false) /\
  (forall t c, l = (t ++ [c])%list -> c <> "_"%char).

(** [s.endswith(c)] for a one-character [c]. *)
Definition ends_with (c : ascii) (s : string) : bool :=
  match rev (list_ascii_of_string s) with
  | a :: _ => Ascii.eqb a c
  | [] => false
  end.

(** The keys of a transformed format. *)
Definition format_keys : list string :=
  ["url"; "protocol"; "ext"; "filesize"; "quality"; "preference"; "tbr";
   "video_ext"; "vcodec"; "height"; "width"; "fps";
   "audio_ext"; "acodec"; "abr"; "format"; "_filename";
   "language"; "languagePreference"; "httpHeaders"; "container";
   "fragment_base_url"; "fragments"; "manifestUrl"].

(** The four protocols of a transformed format. *)
Definition known_protocol (v : pyval) : bool :=
  eq_str v "http" || eq_str v "https" || eq_str v "m3u8_native"
  || eq_str v "http_dash_segments".

(** The keys of a dict are among the strings of a list. *)
Definition keys_in (m : pydict) (L : list string) : Prop :=
  forall k, is_Some (m !! k) -> In k L.

(** What [transform_format] returns for the combined format of the
    scenario, the title [clip] and the video id [abc]. *)
Definition scenario_combined_transformed : pydict :=
  <["_filename" := VStr "clip_1080p_[abc]"]>
  (<["format" := VStr "1080p (mp4)"]>
  (<["abr" := VNone]> (<["acodec" := VStr "aac"]>
  (<["audio_ext" := VStr "mp4"]>
  (<["fps" := VNone]> (<["width" := VNone]> (<["height" := VInt 1080]>
  (<["vcodec" := VStr "avc1"]> (<["video_ext" := VStr "mp4"]>
  (<["tbr" := VNone]> (<["preference" := VInt 0]> (<["quality" := VInt 0]>
  (<["filesize" := VNone]> (<["ext" := VStr "mp4"]>
  (<["protocol" := VStr "https"]> (<["url" := VStr "C"]> ∅)))))))))))))))).

(** An entry of a playlist record made from the dict [d] of an item:
    its type is [url], its URL is [d] at the key [first], else at the key
    [second], else the empty text. *)
Definition url_entry_of (first second : string) (d : pydict) (e : pyval) : Prop :=
  exists ed, e = VDict ed /\
    ed !! "_type" = Some (VStr "url") /\
    ed !! "url" = Some (get_or d first (get_or d second (VStr ""))) /\
    ed !! "title" = Some (get_or d "title" (VStr "Unknown")) /\
    ed !! "duration" = Some (get d "duration") /\
    forall k, is_Some (ed !! k) ->
      k = "_type" \/ k = "url" \/ k = "title" \/ k = "duration".

(** The test of the thumbnail loop on an item. *)
Definition has_url (item : pyval) : bool :=
  match item with
  | VDict d => truthy (get d "url")
  | _ => false
  end.

(** A record with one combined format, a playlist record with one
    entry and one empty entry, an item of a flat playlist, a list of
    thumbnails and a dict of subtitles, with what the transformer makes
    of them. *)
Definition record_with_combined : pydict :=
  <["formats" := VList [VDict scenario_combined]]>
  (<["title" := VStr "clip"]> (<["id" := VStr "abc"]> ∅)).

Definition scenario_item : pydict := <["url" := VStr "u1"]> ∅.

Definition scenario_playlist : pydict :=
  <["entries" := VList [VDict scenario_item; VNone]]>
  (<["_type" := VStr "playlist"]> ∅).

Definition scenario_playlist_record : pydict :=
  <["entries" :=
      VList [VDict (<["duration" := VNone]> (<["title" := VStr "Unknown"]>
                   (<["url" := VStr "u1"]> (<["_type" := VStr "url"]> ∅))))]]>
  (<["webpage_url" := VStr ""]> (<["title" := VStr "Playlist"]>
  (<["id" := VStr ""]> (<["_type" := VStr "playlist"]> ∅)))).

Definition scenario_thumbnails : pyval :=
  VList [VDict (<["url" := VStr "t1"]> ∅); VDict ∅].

Definition scenario_thumbnails_record : list pyval :=
  [VDict (<["preference" := VInt 0]> (<["height" := VNone]>
         (<["width" := VNone]> (<["url" := VStr "t1"]> ∅))))].

Definition scenario_subtitles : pydict :=
  <["en" := VList [VDict ∅]]> (<["de" := VList []]> ∅).

Definition scenario_subtitles_record : pydict :=
  <["en" := VList [VDict (<["ext" := VStr "vtt"]> (<["url" := VStr ""]>
                         (<["name" := VStr "en"]> ∅)))]]> ∅.

(** A format from which the reconciler makes no entry unless other
    formats help: one that is skipped, or a video-only format without
    [audio_ext]. *)
Definition yields_nothing (f : pydict) : bool :=
  match classify f with
  | Skipped => true
  | VideoOnly => negb (truthy (get f "audio_ext"))
  | Combined | AudioOnly => false
  end.

(** A record whose only format is video-only without [audio_ext]. *)
Definition record_with_video_only : pydict :=
  <["formats" := VList [VDict scenario_video]]>
  (<["title" := VStr "clip"]> (<["id" := VStr "abc"]> ∅)).

(** ** The extractor: [extract_with_ytdlp]

    The program is run by [subprocess.run], which gives a completed
    process with its return code and the text of its two streams, or
    raises: [TimeoutExpired], or another exception, of which the
    extractor uses the text. *)
Record completed_process : Set := {
  returncode : Z;
  stdout : string;
  stderr : string
}.

Inductive run_outcome : Set :=
| Completed (p : completed_process)
| TimeoutExpired
| OtherException (text : string).

(** What the extractor returns: a record, or the record with the one
    key [error] and the value [str(e)] for an exception [e] raised while
    the output was read and transformed; the text of [e] is not
    embedded. *)
Inductive reply : Type :=
| Returned (d : pydict)
| Caught (e : exn).

Definition has_error_key (r : reply) : bool :=
  match r with
  | Returned d => bool_decide (is_Some (d !! "error"))
  | Caught _ => true
  end.

Definition error_record (text : string) : pydict :=
  <["error" := VStr text]> ∅.

(** [s.strip()] *)
Definition py_strip (s : string) : string :=
  string_of_list_ascii (strip py_isspace (list_ascii_of_string s)).

(** [s.split(c)]: the texts between the occurrences of [c];
    [split_aux] carries the text read since the last one. *)
Fixpoint split_aux (c : ascii) (acc l : list ascii) : list string :=
  match l with
  | [] => [string_of_list_ascii acc]
  | a :: l' =>
      if Ascii.eqb a c then string_of_list_ascii acc :: split_aux c [] l'
      else split_aux c (acc ++ [a])%list l'
  end.

Definition py_split (c : ascii) (s : string) : list string :=
  split_aux c [] (list_ascii_of_string s).

(** The line feed, written by its code: [chr(10)]. *)
Definition newline : ascii := "010"%char.

(** The command line of the extractor. *)
Definition ytdlp_command (ytdlp url : string) (playlist : bool) : list string :=
  ([ytdlp; "--dump-json"; "--no-warnings"; "--no-progress"; "--ignore-errors";
    "--no-check-certificates"]
   ++ (if playlist then ["--flat-playlist"; "--yes-playlist"]
       else ["--no-playlist"])
   ++ [url])%list.

Section Extractor.

Variable nfkd : list N -> list N.
Variable ytdlp_version : option string.

(** [find_ytdlp()], [subprocess.run(cmd, ...)] and [json.loads(line)];
    [json.JSONDecodeError] is a [ValueError]. *)
Variable find_ytdlp : option string.
Variable subprocess_run : list string -> run_outcome.
Variable json_loads : string -> result pyval.

(** The loop over the lines of the output: blank lines and lines that
    are no JSON are passed over. *)
Fixpoint parse_lines (lines : list string) : result (list pyval) :=
  match lines with
  | [] => Ok []
  | line :: lines' =>
      let line := py_strip line in
      if String.eqb line "" then parse_lines lines'
      else
        match json_loads line with
        | Ok v => json_objects ← parse_lines lines'; Ok (v :: json_objects)
        | Raise ValueError => parse_lines lines'
        | Raise e => Raise e
        | OutOfModel => OutOfModel
        end
  end.

(** The last lines of the [try] block: one object is a record, several
    are a playlist.  [transform_single] starts with [data.get]. *)
Definition transform_objects (json_objects : list pyval) (url : string)
  : result pydict :=
  match json_objects with
  | [] => Ok (error_record "Failed to parse yt-dlp output")
  | [data] => data ← as_dict data; transform_single nfkd ytdlp_version data
  | _ => transform_playlist json_objects url
  end.

(** [extract_with_ytdlp(url, playlist)] *)
Definition extract_with_ytdlp (url : string) (playlist : bool) : result reply :=
  let not_found :=
    Ok (Returned (error_record
          "yt-dlp not found. Install it for media extraction support.")) in
  match find_ytdlp with
  | None => not_found
  | Some ytdlp =>
      if String.eqb ytdlp "" then not_found
      else
        match subprocess_run (ytdlp_command ytdlp url playlist) with
        | TimeoutExpired =>
            Ok (Returned (error_record "Extraction timeout (120s)"))
        | OtherException text => Ok (Returned (error_record text))
        | Completed p =>
            let output := py_strip (stdout p) in
            if negb (returncode p =? 0)%Z && String.eqb output "" then
              let error_msg :=
                if String.eqb (stderr p) "" then "Unknown error"
                else py_strip (stderr p) in
              Ok (Returned (error_record error_msg))
            else if String.eqb output "" then
              Ok (Returned (error_record "No data returned from yt-dlp"))
            else
              match (json_objects ← parse_lines (py_split newline output);
                     transform_objects json_objects url) with
              | Ok d => Ok (Returned d)
              | Raise e => Ok (Caught e)
              | OutOfModel => OutOfModel
              end
        end
  end.

End Extractor.

(** A run of the extractor that prints one JSON object. *)
Definition scenario_run (cmd : list string) : run_outcome :=
  Completed {| returncode := 0; stdout := "{}"; stderr := "" |}.

(* ===================================================================== *)
(** * Part II: properties *)
(* ===================================================================== *)

(** ** Strings and lists of characters *)

Lemma length_string_of_list_ascii (l : list ascii) :
  String.length (string_of_list_ascii l) = length l.
Proof. induction l as [|c l IH]; simpl; [reflexivity | now rewrite IH]. Qed.

Lemma lstrip_In p c l : In c (lstrip p l) -> In c l.
Proof.
  induction l as [|a l IH]; simpl; [tauto |].
  destruct (p a); simpl; intuition.
Qed.

Lemma rstrip_In p c l : In c (rstrip p l) -> In c l.
Proof.
  unfold rstrip. intros H. apply in_rev in H.
  apply lstrip_In in H. now apply in_rev.
Qed.

Lemma strip_In p c l : In c (strip p l) -> In c l.
Proof. unfold strip. intros H. now apply rstrip_In, lstrip_In in H. Qed.

Lemma length_lstrip p l : (length (lstrip p l) <= length l)%nat.
Proof.
  induction l as [|a l IH]; simpl; [lia |].
  destruct (p a); simpl; lia.
Qed.

Lemma length_rstrip p l : (length (rstrip p l) <= length l)%nat.
Proof.
  unfold rstrip. rewrite length_rev.
  pose proof (length_lstrip p (rev l)) as H. now rewrite length_rev in H.
Qed.

Lemma firstn_In {A} (x : A) k l : In x (firstn k l) -> In x l.
Proof.
  intros H. rewrite <- (firstn_skipn k l). apply in_or_app. now left.
Qed.

Lemma slice_to_In {A} (x : A) l n : In x (slice_to l n) -> In x l.
Proof. unfold slice_to. destruct (0 <=? n); apply firstn_In. Qed.

Lemma length_slice_to {A} (l : list A) n :
  0 <= n -> Z.of_nat (length (slice_to l n)) <= n.
Proof.
  intros Hn. unfold slice_to.
  destruct (Z.leb_spec 0 n); [| lia].
  rewrite length_firstn. lia.
Qed.

(** The head of a stripped text is outside the stripped class. *)
Lemma lstrip_head p l c l' : lstrip p l = c :: l' -> p c = false.
Proof.
  induction l as [|a l IH]; simpl; [discriminate |].
  destruct (p a) eqn:E; [exact IH |].
  intros [= <- _]. exact E.
Qed.

Lemma rstrip_last p l c l' : rstrip p l = (l' ++ [c])%list -> p c = false.
Proof.
  unfold rstrip. intros H.
  apply (f_equal (@rev ascii)) in H.
  rewrite rev_involutive, rev_app_distr in H. simpl in H.
  eapply lstrip_head; eauto.
Qed.

(** ** Sanitizer *)

Lemma collapse_runs_In b c l :
  In c (collapse_runs b l) -> c = "_"%char \/ In c l.
Proof.
  revert b. induction l as [|a l IH]; intros b; simpl; [tauto |].
  destruct (space_or_underscore a).
  - destruct b; simpl; intros H.
    + destruct (IH _ H); auto.
    + destruct H as [H | H]; [now left |]. destruct (IH _ H); auto.
  - simpl. intros [H | H]; [auto |]. destruct (IH _ H); auto.
Qed.

(** [re.sub] leaves no whitespace behind: every character of the class
    [[\s_]] in the result is the underscore written for a run. *)
Lemma collapse_runs_space b c l :
  In c (collapse_runs b l) -> space_or_underscore c = true -> c = "_"%char.
Proof.
  revert b. induction l as [|a l IH]; intros b; simpl; [tauto |].
  destruct (space_or_underscore a) eqn:E.
  - destruct b; simpl; intros H Hc.
    + eauto.
    + destruct H as [H | H]; [now symmetry | eauto].
  - simpl. intros [H | H] Hc; [congruence | eauto].
Qed.

Lemma encode_ascii_ignore_ascii c s :
  In c (encode_ascii_ignore s) -> (N_of_ascii c < 128)%N.
Proof.
  unfold encode_ascii_ignore. rewrite in_map_iff.
  intros (n & <- & Hn). apply filter_In in Hn as [_ Hn].
  apply N.ltb_lt in Hn.
  rewrite N_ascii_embedding; lia.
Qed.

Lemma ascii_in_spec cs c :
  ascii_in cs c = true <-> In c (list_ascii_of_string cs).
Proof.
  unfold ascii_in. rewrite existsb_exists. split.
  - intros (x & Hx & E). apply Ascii.eqb_eq in E. now subst.
  - intros H. exists c. split; [exact H | apply Ascii.eqb_refl].
Qed.

Lemma invalid_char_false c :
  invalid_char c = false ->
  (31 < N_of_ascii c)%N /\ ~ In c (list_ascii_of_string "\/:*?<>|") /\
  c <> dquote.
Proof.
  unfold invalid_char. intros H.
  apply orb_false_iff in H as [H H3]. apply orb_false_iff in H as [H1 H2].
  apply N.leb_gt in H3. split; [exact H3 |]. split.
  - intros Hin. apply ascii_in_spec in Hin. congruence.
  - intros ->. now rewrite Ascii.eqb_refl in H2.
Qed.

Lemma download_safe : filesystem_safe "download".
Proof.
  split; [discriminate |].
  intros c Hc. simpl in Hc.
  repeat (destruct Hc as [<- | Hc];
          [ repeat split; try (vm_compute; reflexivity);
            try discriminate;
            (intros H; simpl in H; intuition discriminate) |]).
  destruct Hc.
Qed.

Section SanitizerFacts.

Variable nfkd : list N -> list N.

(** Whatever the decomposition returns, the sanitizer returns a
    non-empty ASCII name without forbidden characters. *)
Lemma sanitize_filename_safe title max_length :
  filesystem_safe (sanitize_filename nfkd title max_length).
Proof.
  unfold sanitize_filename.
  destruct title as [|t title]; [apply download_safe |].
  set (ascii_text := if _ <? _ then _ else _).
  assert (Hascii : forall c, In c ascii_text -> (N_of_ascii c < 128)%N).
  { intros c. subst ascii_text.
    destruct (_ <? _); apply encode_ascii_ignore_ascii. }
  set (clean3 := strip _ _).
  assert (H3 : forall c, In c clean3 -> filename_char_ok c).
  { intros c Hc. subst clean3. apply strip_In in Hc.
    apply collapse_runs_In in Hc as [-> | Hc].
    - repeat split; try (vm_compute; reflexivity); try discriminate.
      intros H; simpl in H; intuition discriminate.
    - apply filter_In in Hc as [Hc Hv]. apply negb_true_iff in Hv.
      destruct (invalid_char_false _ Hv) as (? & ? & ?).
      repeat split; auto. }
  set (clean4 := if _ >? _ then _ else _).
  assert (H4 : forall c, In c clean4 -> filename_char_ok c).
  { intros c Hc. apply H3. subst clean4.
    destruct (_ >? _); [| exact Hc].
    now apply rstrip_In, slice_to_In in Hc. }
  destruct clean4 as [|a l] eqn:E; [apply download_safe |].
  split; [discriminate |].
  intros c Hc. rewrite list_ascii_of_string_of_list_ascii in Hc. auto.
Qed.

(** The length bound holds for every result but the fallback name. *)
Lemma sanitize_filename_length title max_length :
  0 < max_length ->
  sanitize_filename nfkd title max_length = "download" \/
  Z.of_nat (String.length (sanitize_filename nfkd title max_length))
  <= max_length.
Proof.
  intros Hpos. unfold sanitize_filename.
  destruct title as [|t title]; [now left |].
  set (clean3 := strip _ _).
  set (clean4 := if _ >? _ then _ else _).
  assert (H4 : Z.of_nat (length clean4) <= max_length).
  { subst clean4. destruct (Z.gtb_spec (Z.of_nat (length clean3)) max_length).
    - pose proof (length_rstrip (ascii_in "_") (slice_to clean3 max_length)).
      pose proof (length_slice_to clean3 max_length). lia.
    - lia. }
  destruct clean4 as [|a l] eqn:E; [now left |].
  right. now rewrite length_string_of_list_ascii.
Qed.

(** C5 (amended).  For every title and every positive [max_length]
    the sanitizer returns a non-empty, all-ASCII string without any of
    the characters backslash, slash, colon, asterisk, question mark,
    double quote, angle brackets, pipe and without control characters
    0x00-0x1F; the result is either the literal fallback [download]
    (whatever [max_length] is) or at most [max_length] characters
    long; and the empty title gives [download]. *)
Theorem sanitize_filename_contract title max_length :
  0 < max_length ->
  filesystem_safe (sanitize_filename nfkd title max_length) /\
  (sanitize_filename nfkd title max_length = "download" \/
   Z.of_nat (String.length (sanitize_filename nfkd title max_length))
   <= max_length) /\
  sanitize_filename nfkd [] max_length = "download".
Proof.
  intros Hpos. split; [apply sanitize_filename_safe |].
  split; [now apply sanitize_filename_length | reflexivity].
Qed.

(** C6 (the failing input).  The title [ab.cd] cut to 3 characters
    comes back as [ab.]: the truncation step strips a trailing
    underscore only, so the dot that the cut exposes stays at the end
    of the name. *)
Theorem sanitize_filename_truncation_trailing_dot :
  nfkd (codepoints "ab.cd") = codepoints "ab.cd" ->
  sanitize_filename nfkd (codepoints "ab.cd") 3 = "ab.".
Proof.
  intros H. unfold sanitize_filename. rewrite H. reflexivity.
Qed.

End SanitizerFacts.

Example sanitize_example_1 :
  sanitize_filename (fun s => s) (codepoints "My  video: part_1?.") 200
  = "My_video_part_1".
Proof. vm_compute. reflexivity. Qed.

(** ** Classifier *)

Lemma list_ascii_of_string_app (a b : string) :
  list_ascii_of_string (a ++ b) =
  (list_ascii_of_string a ++ list_ascii_of_string b)%list.
Proof. induction a as [|c a IH]; simpl; [reflexivity | now rewrite IH]. Qed.

Lemma string_of_list_ascii_inj_l (l : list ascii) (s : string) :
  l = list_ascii_of_string s -> string_of_list_ascii l = s.
Proof. intros ->. apply string_of_list_ascii_of_string. Qed.

Lemma has_char_In c s :
  has_char c s = true <-> In c (list_ascii_of_string s).
Proof. apply ascii_in_spec. Qed.

Lemma has_char_false c s :
  has_char c s = false <-> ~ In c (list_ascii_of_string s).
Proof.
  rewrite <- has_char_In. destruct (has_char c s); split; congruence.
Qed.

(** [rsplit]: the text after the last separator. *)
Lemma after_last_aux_spec c l : forall acc,
  (~ In c l -> after_last_aux c acc l = (acc ++ l)%list) /\
  (In c l -> exists l1,
      l = (l1 ++ c :: after_last_aux c acc l)%list /\
      ~ In c (after_last_aux c acc l)).
Proof.
  induction l as [|a l IH]; intros acc; simpl.
  - split; [intros _; now rewrite app_nil_r | tauto].
  - destruct (Ascii.eqb_spec a c) as [-> | Hne].
    + split; [tauto |]. intros _.
      destruct (in_dec ascii_dec c l) as [Hin | Hnin].
      * destruct (proj2 (IH []) Hin) as (l1 & E & Hn).
        exists (c :: l1). split; [simpl; now rewrite <- E | exact Hn].
      * rewrite (proj1 (IH []) Hnin). simpl.
        exists []. split; [reflexivity | exact Hnin].
    + split.
      * intros Hn. rewrite (proj1 (IH _)) by tauto.
        now rewrite <- app_assoc.
      * intros [-> | Hin]; [congruence |].
        destruct (proj2 (IH (acc ++ [a])%list) Hin) as (l1 & E & Hn).
        exists (a :: l1). split; [simpl; now rewrite <- E | exact Hn].
Qed.

Lemma after_last_aux_app c l1 l2 acc :
  ~ In c l2 -> after_last_aux c acc (l1 ++ c :: l2)%list = l2.
Proof.
  revert acc. induction l1 as [|a l1 IH]; intros acc Hn; simpl.
  - rewrite Ascii.eqb_refl. now rewrite (proj1 (after_last_aux_spec c l2 [])).
  - destruct (Ascii.eqb a c); now rewrite IH.
Qed.

Lemma after_last_app c stem ext :
  has_char c ext = false ->
  after_last c (stem ++ String c ext) = ext.
Proof.
  intros H. apply has_char_false in H. unfold after_last.
  rewrite list_ascii_of_string_app. simpl.
  rewrite after_last_aux_app by exact H.
  apply string_of_list_ascii_of_string.
Qed.

Lemma after_last_split c s :
  has_char c s = true ->
  exists stem, s = stem ++ String c (after_last c s) /\
               has_char c (after_last c s) = false.
Proof.
  intros H. apply has_char_In in H.
  destruct (proj2 (after_last_aux_spec c (list_ascii_of_string s) []) H)
    as (l1 & E & Hn).
  exists (string_of_list_ascii l1). unfold after_last.
  set (t := after_last_aux c [] (list_ascii_of_string s)) in *. split.
  - rewrite <- (string_of_list_ascii_of_string s) at 1.
    rewrite E. clear.
    induction l1 as [|a l1 IH]; simpl; [reflexivity | now rewrite IH].
  - apply has_char_false. now rewrite list_ascii_of_string_of_list_ascii.
Qed.

Lemma has_char_app c stem ext : has_char c (stem ++ String c ext) = true.
Proof.
  apply has_char_In. rewrite list_ascii_of_string_app.
  apply in_or_app. right. now left.
Qed.

Lemma lower_char_idem c : lower_char (lower_char c) = lower_char c.
Proof. destruct c as [[] [] [] [] [] [] [] []]; reflexivity. Qed.

Lemma py_lower_idem s : py_lower (py_lower s) = py_lower s.
Proof.
  unfold py_lower. rewrite list_ascii_of_string_of_list_ascii, map_map.
  f_equal. apply map_ext. intros c. apply lower_char_idem.
Qed.

Lemma length_py_lower s : String.length (py_lower s) = String.length s.
Proof.
  unfold py_lower. rewrite length_string_of_list_ascii, length_map.
  rewrite <- (string_of_list_ascii_of_string s) at 2.
  now rewrite length_string_of_list_ascii.
Qed.

(** An extension has one of the eight categories exactly when its
    lowercase form is in [ALL_DIRECT_EXTENSIONS]. *)
Lemma get_file_category_file ext :
  get_file_category ext <> "file" <-> py_lower ext ∈ ALL_DIRECT_EXTENSIONS.
Proof.
  unfold get_file_category, ALL_DIRECT_EXTENSIONS.
  generalize (py_lower ext) ARCHIVE_EXTENSIONS EXECUTABLE_EXTENSIONS
    DOCUMENT_EXTENSIONS IMAGE_EXTENSIONS AUDIO_EXTENSIONS VIDEO_EXTENSIONS
    FONT_EXTENSIONS CODE_EXTENSIONS.
  intros e A B C D E F G H.
  rewrite !elem_of_union.
  repeat (case_bool_decide; [split; [tauto | discriminate] |]).
  tauto.
Qed.

Lemma before_first_no_sep c l : ~ In c l -> before_first c l = l.
Proof.
  induction l as [|a l IH]; simpl; [reflexivity |]. intros Hn.
  destruct (Ascii.eqb_spec a c) as [-> | _]; [tauto |].
  rewrite IH; tauto.
Qed.

Lemma has_extension_dot name ext :
  has_extension name ext -> has_char "." name = true /\ after_last "." name = ext.
Proof.
  intros (stem & -> & Hext). split.
  - apply has_char_app.
  - now apply after_last_app.
Qed.

Lemma has_extension_after_last name :
  has_char "." name = true -> has_extension name (after_last "." name).
Proof.
  intros H. destruct (after_last_split _ _ H) as (stem & E & Hn).
  exists stem. split; [exact E | exact Hn].
Qed.

Lemma not_has_extension_download ext : ~ has_extension "download" ext.
Proof. intros H. apply has_extension_dot in H as [H _]. discriminate. Qed.

Lemma not_has_extension_empty ext : ~ has_extension "" ext.
Proof. intros H. apply has_extension_dot in H as [H _]. discriminate. Qed.

Section ClassifierFacts.

Variable urlparse_path : string -> result string.
Variable unquote : string -> string.
Variable basename : string -> string.
Variable has_ytdlp : bool.

#[local] Abbreviation filename_of :=
  (extract_filename_from_url urlparse_path unquote basename).
#[local] Abbreviation extension_of :=
  (get_extension_from_url urlparse_path unquote basename).
#[local] Abbreviation is_direct :=
  (is_direct_download_url urlparse_path unquote basename).
#[local] Abbreviation analyze :=
  (analyze_url urlparse_path unquote basename has_ytdlp).

Lemma extract_filename_from_url_eq url parsed :
  urlparse_path url = Ok parsed ->
  filename_of url =
  Ok (if String.eqb (before_question (basename (unquote parsed))) ""
      then "download" else before_question (basename (unquote parsed))).
Proof.
  intros H. unfold extract_filename_from_url. rewrite H. simpl.
  unfold before_question.
  destruct (has_char "?" (basename (unquote parsed))) eqn:E; [reflexivity |].
  apply has_char_false in E.
  rewrite (before_first_no_sep _ _ E), string_of_list_ascii_of_string.
  reflexivity.
Qed.

(** The extension that the code reads off a URL. *)
Lemma get_extension_from_url_spec url parsed :
  urlparse_path url = Ok parsed ->
  exists oext,
    extension_of url = Ok oext /\
    forall e, oext = Some e <->
      exists ext, has_extension (before_question (basename (unquote parsed))) ext /\
                  e = py_lower ext /\
                  (String.length ext <= 10)%nat /\
                  py_isalnum (py_lower ext) = true.
Proof.
  intros H. unfold get_extension_from_url.
  rewrite (extract_filename_from_url_eq _ _ H). simpl.
  set (name := before_question (basename (unquote parsed))).
  eexists. split; [reflexivity |]. intros e.
  destruct (String.eqb_spec name "") as [E | _].
  - rewrite E. simpl. split; [discriminate |].
    intros (ext & Hx & _). now apply not_has_extension_empty in Hx.
  - destruct (has_char "." name) eqn:Hdot.
    + pose proof (has_extension_after_last _ Hdot) as Hx.
      set (raw := after_last "." name) in *.
      destruct (Z.leb_spec (Z.of_nat (String.length (py_lower raw))) 10) as [Hl | Hl];
        rewrite length_py_lower in Hl; simpl.
      * destruct (py_isalnum (py_lower raw)) eqn:Ha.
        -- split.
           ++ intros [= <-]. exists raw. repeat split; auto. lia.
           ++ intros (ext & Hx' & -> & _).
              apply has_extension_dot in Hx' as [_ Hx']. fold raw in Hx'.
              now subst.
        -- split; [discriminate |].
           intros (ext & Hx' & _ & _ & Ha').
           apply has_extension_dot in Hx' as [_ Hx']. fold raw in Hx'.
           subst. congruence.
      * split; [discriminate |].
        intros (ext & Hx' & _ & Hl' & _).
        apply has_extension_dot in Hx' as [_ Hx']. fold raw in Hx'.
        subst. lia.
    + split; [discriminate |].
      intros (ext & Hx' & _). apply has_extension_dot in Hx' as [Hx' _].
      congruence.
Qed.

Lemma is_direct_download_url_spec url parsed :
  urlparse_path url = Ok parsed ->
  exists direct : bool,
    is_direct url = Ok direct /\
    (direct = true <-> direct_filename (basename (unquote parsed))).
Proof.
  intros H. unfold is_direct_download_url.
  destruct (get_extension_from_url_spec _ _ H) as (oext & -> & Hoext). simpl.
  eexists. split; [reflexivity |].
  unfold direct_filename. destruct oext as [e |].
  - destruct (proj1 (Hoext e) eq_refl) as (ext & Hx & -> & Hl & Ha).
    rewrite bool_decide_eq_true, <- get_file_category_file. split.
    + intros Hc. exists ext. auto.
    + intros (ext' & Hx' & _ & _ & Hc).
      apply has_extension_dot in Hx as [_ <-].
      apply has_extension_dot in Hx' as [_ <-]. exact Hc.
  - split; [discriminate |].
    intros (ext & Hx & Ha & Hl & _).
    assert (None = Some (py_lower ext)) as E; [| discriminate E].
    apply Hoext. exists ext. auto.
Qed.

Lemma get_file_category_lower ext :
  get_file_category (py_lower ext) = get_file_category ext.
Proof. unfold get_file_category. now rewrite py_lower_idem. Qed.

(** C7 (amended).  For every URL that the library can parse, the
    classifier reports [is_direct = true] if and only if the last path
    segment of the decoded URL path, cut at its first question mark, has
    an extension (the text after the last dot) that, once lowercased, is
    alphanumeric, is at most 10 characters long and has one of the eight
    categories (its category is not [file]); otherwise it reports
    [is_direct = false].  A direct URL is reported with the lowercased
    extension and its category.  The URL [https://x.com/a/report.pdf] is
    direct with extension [pdf] and category [document], and
    [https://x.com/watch?v=abc] is not direct. *)
Theorem analyze_url_direct_rule :
  (forall url parsed,
      urlparse_path url = Ok parsed ->
      exists r,
        analyze url = Ok r /\
        (r !! "is_direct" = Some (VBool true) <->
         direct_filename (basename (unquote parsed))) /\
        (r !! "is_direct" = Some (VBool true) \/
         r !! "is_direct" = Some (VBool false)) /\
        (forall ext,
            has_extension (before_question (basename (unquote parsed))) ext ->
            r !! "is_direct" = Some (VBool true) ->
            r !! "extension" = Some (VStr (py_lower ext)) /\
            r !! "category" = Some (VStr (get_file_category ext)))) /\
  (urlparse_path "https://x.com/a/report.pdf" = Ok "/a/report.pdf" ->
   unquote "/a/report.pdf" = "/a/report.pdf" ->
   basename "/a/report.pdf" = "report.pdf" ->
   exists r,
     analyze "https://x.com/a/report.pdf" = Ok r /\
     r !! "is_direct" = Some (VBool true) /\
     r !! "extension" = Some (VStr "pdf") /\
     r !! "category" = Some (VStr "document")) /\
  (urlparse_path "https://x.com/watch?v=abc" = Ok "/watch" ->
   unquote "/watch" = "/watch" ->
   basename "/watch" = "watch" ->
   exists r,
     analyze "https://x.com/watch?v=abc" = Ok r /\
     r !! "is_direct" = Some (VBool false)).
Proof.
  assert (General : forall url parsed,
      urlparse_path url = Ok parsed ->
      exists r,
        analyze url = Ok r /\
        (r !! "is_direct" = Some (VBool true) <->
         direct_filename (basename (unquote parsed))) /\
        (r !! "is_direct" = Some (VBool true) \/
         r !! "is_direct" = Some (VBool false)) /\
        (forall ext,
            has_extension (before_question (basename (unquote parsed))) ext ->
            r !! "is_direct" = Some (VBool true) ->
            r !! "extension" = Some (VStr (py_lower ext)) /\
            r !! "category" = Some (VStr (get_file_category ext)))).
  { intros url parsed H. unfold analyze_url.
    destruct (get_extension_from_url_spec _ _ H) as (oext & -> & Hoext).
    rewrite (extract_filename_from_url_eq _ _ H).
    destruct (is_direct_download_url_spec _ _ H) as (direct & -> & Hdirect).
    simpl. destruct direct.
    - destruct (proj1 Hdirect eq_refl) as (ext & Hx & Ha & Hl & Hc).
      assert (oext = Some (py_lower ext)) as -> by (apply Hoext; eauto).
      eexists. split; [reflexivity |].
      split; [split; [intros _; now apply Hdirect | intros _; now simplify_map_eq] |].
      split; [left; now simplify_map_eq |].
      intros ext' Hx' _.
      apply has_extension_dot in Hx as [_ <-].
      apply has_extension_dot in Hx' as [_ <-].
      rewrite get_file_category_lower. split; now simplify_map_eq.
    - eexists. split; [reflexivity |].
      split; [split; [intros E; now simplify_map_eq | intros E; apply Hdirect in E; discriminate] |].
      split; [right; now simplify_map_eq |].
      intros ext' _ E. now simplify_map_eq. }
  split; [exact General |]. split.
  - intros H1 H2 H3.
    destruct (General _ _ H1) as (r & Hr & Hd & _ & Hfields).
    rewrite H2, H3 in Hd, Hfields.
    assert (Hx : has_extension (before_question "report.pdf") "pdf")
      by (exists "report"; split; reflexivity).
    assert (Hdir : r !! "is_direct" = Some (VBool true)).
    { apply Hd. exists "pdf".
      split; [exact Hx |]. split; [reflexivity |].
      split; [vm_compute; lia | vm_compute; discriminate]. }
    exists r. split; [exact Hr |]. split; [exact Hdir |].
    exact (Hfields "pdf" Hx Hdir).
  - intros H1 H2 H3.
    destruct (General _ _ H1) as (r & Hr & Hd & [Ht | Hf] & _).
    + rewrite H2, H3 in Hd. apply Hd in Ht as (ext & Hx & _).
      apply has_extension_dot in Hx as [Hx _]. discriminate.
    + exists r. auto.
Qed.

End ClassifierFacts.

(** ** Reconciler *)

Lemma insert_desc_In {A} (lt : A -> A -> bool) x y l :
  In y (insert_desc lt x l) <-> y = x \/ In y l.
Proof.
  induction l as [|a l IH]; simpl; [intuition |].
  destruct (lt x a); simpl; rewrite ?IH; intuition.
Qed.

Lemma sort_desc_In {A} (lt : A -> A -> bool) y l :
  In y (sort_desc lt l) <-> In y l.
Proof.
  induction l as [|a l IH]; simpl; [tauto |].
  rewrite insert_desc_In, IH. intuition.
Qed.

Lemma length_insert_desc {A} (lt : A -> A -> bool) x l :
  length (insert_desc lt x l) = S (length l).
Proof.
  induction l as [|a l IH]; simpl; [reflexivity |].
  destruct (lt x a); simpl; now rewrite ?IH.
Qed.

Lemma length_sort_desc {A} (lt : A -> A -> bool) l :
  length (sort_desc lt l) = length l.
Proof.
  induction l as [|a l IH]; simpl; [reflexivity |].
  now rewrite length_insert_desc, IH.
Qed.

Lemma sort_by_key_desc_In {A} (key : A -> pyval) l l' y :
  sort_by_key_desc key l = Ok l' -> (In y l' <-> In y l).
Proof.
  unfold sort_by_key_desc. destruct l as [|a [|b l]].
  - now intros [= <-].
  - now intros [= <-].
  - repeat (destruct (forallb _ _)); try discriminate;
      intros [= <-]; apply (sort_desc_In _ y (a :: b :: l)).
Qed.

Lemma sort_by_key_desc_length {A} (key : A -> pyval) l l' :
  sort_by_key_desc key l = Ok l' -> length l' = length l.
Proof.
  unfold sort_by_key_desc. destruct l as [|a [|b l]].
  - now intros [= <-].
  - now intros [= <-].
  - repeat (destruct (forallb _ _)); try discriminate;
      intros [= <-]; apply (length_sort_desc _ (a :: b :: l)).
Qed.

(** The tests of the last loop are the predicates of the first. *)
Lemma loop_has_v fmt :
  truthy (py_and (get fmt "vcodec")
            (VBool (negb (eq_str (get fmt "vcodec") "none"))))
  = has_video fmt.
Proof.
  unfold has_video, get, get_or, py_and.
  destruct (fmt !! "vcodec") as [v |]; simpl; [| reflexivity].
  destruct (truthy v) eqn:E; simpl; [reflexivity | exact E].
Qed.

Lemma loop_has_a fmt :
  truthy (py_and (get fmt "acodec")
            (VBool (negb (eq_str (get fmt "acodec") "none"))))
  = has_audio fmt.
Proof.
  unfold has_audio, get, get_or, py_and.
  destruct (fmt !! "acodec") as [v |]; simpl; [| reflexivity].
  destruct (truthy v) eqn:E; simpl; [reflexivity | exact E].
Qed.

Lemma truthy_py_or a b : truthy (py_or a b) = truthy a || truthy b.
Proof. unfold py_or. destruct (truthy a) eqn:E; simpl; [exact E | reflexivity]. Qed.

Lemma get_insert_eq (d : pydict) k v : get (<[k := v]> d) k = v.
Proof. unfold get. now rewrite lookup_insert_eq. Qed.

Lemma get_insert_ne (d : pydict) k k' v :
  k <> k' -> get (<[k := v]> d) k' = get d k'.
Proof. intros H. unfold get. now rewrite lookup_insert_ne. Qed.

Lemma get_or_insert_eq (d : pydict) k v dflt : get_or (<[k := v]> d) k dflt = v.
Proof. unfold get_or. now rewrite lookup_insert_eq. Qed.

Lemma get_or_insert_ne (d : pydict) k k' v dflt :
  k <> k' -> get_or (<[k := v]> d) k' dflt = get_or d k' dflt.
Proof. intros H. unfold get_or. now rewrite lookup_insert_ne. Qed.

(** What the three lists hold. *)
Lemma in_bucket_classify b fmt : in_bucket b fmt = true <-> classify fmt = b.
Proof.
  unfold in_bucket. destruct (classify fmt), b; simpl; split; congruence.
Qed.

Lemma classify_Combined fmt :
  classify fmt = Combined -> has_video fmt = true /\ has_audio fmt = true.
Proof.
  unfold classify, is_combined_format.
  destruct (negb _); [discriminate |]. destruct (_ || _); [discriminate |].
  destruct (has_video fmt), (has_audio fmt); simpl; try discriminate; auto.
Qed.

Lemma classify_VideoOnly fmt :
  classify fmt = VideoOnly -> has_video fmt = true /\ has_audio fmt = false.
Proof.
  unfold classify, is_combined_format.
  destruct (negb _); [discriminate |]. destruct (_ || _); [discriminate |].
  destruct (has_video fmt), (has_audio fmt); simpl; try discriminate; auto.
Qed.

Lemma classify_AudioOnly fmt :
  classify fmt = AudioOnly ->
  has_video fmt = false /\ has_audio fmt = true /\ truthy (get fmt "url") = true.
Proof.
  unfold classify, is_combined_format.
  destruct (truthy (get fmt "url")); simpl; [| discriminate].
  destruct (_ || _); [discriminate |].
  destruct (has_video fmt), (has_audio fmt); simpl; try discriminate; auto.
Qed.

(** One turn of the last loop either leaves [video_formats] alone or
    appends the format, which then has video, has audio information, and
    a resolution key that was not seen before. *)
Lemma dedup_step_video st fmt st' :
  dedup_step st fmt = Ok st' ->
  (video_formats st' = video_formats st /\
   seen_resolutions st' = seen_resolutions st) \/
  (video_formats st' = (video_formats st ++ [fmt])%list /\
   has_video fmt = true /\
   (has_audio fmt || truthy (get fmt "audio_ext")) = true /\
   exists t, py_str (py_or (get fmt "height") (VInt 0)) = Ok t /\
             (("video_" ++ t) ∉ seen_resolutions st) /\
             seen_resolutions st' = seen_resolutions st ∪ {[ "video_" ++ t ]}).
Proof.
  unfold dedup_step. rewrite loop_has_v, truthy_py_or, loop_has_a.
  destruct (has_video fmt) eqn:Hv.
  - destruct (has_audio fmt || truthy (get fmt "audio_ext")) eqn:Ha.
    + destruct (py_str _) as [t | |] eqn:Ht; simpl; try discriminate.
      case_bool_decide as Hseen; intros [= <-]; simpl; [now left |].
      right. repeat split; auto. exists t. auto.
    + intros [= <-]. now left.
  - destruct (_ && _); intros [= <-]; now left.
Qed.

Lemma dedup_step_best st fmt st' :
  dedup_step st fmt = Ok st' ->
  best_audio st' = best_audio st \/
  (best_audio st = None /\ best_audio st' = Some fmt /\
   has_video fmt = false /\ has_audio fmt = true).
Proof.
  unfold dedup_step. rewrite loop_has_v, truthy_py_or, loop_has_a.
  destruct (has_video fmt) eqn:Hv.
  - destruct (has_audio fmt || truthy (get fmt "audio_ext")).
    + destruct (py_str _) as [t | |]; simpl; try discriminate.
      case_bool_decide; intros [= <-]; now left.
    + intros [= <-]. now left.
  - destruct (has_audio fmt) eqn:Ha; simpl.
    + case_bool_decide as Hb; simpl; intros [= <-]; [| now left].
      right. auto.
    + intros [= <-]. now left.
Qed.

Lemma dedup_loop_video l : forall st st',
  dedup_loop st l = Ok st' ->
  forall f, In f (video_formats st') ->
    In f (video_formats st) \/
    (In f l /\ has_video f = true /\
     (has_audio f || truthy (get f "audio_ext")) = true).
Proof.
  induction l as [|a l IH]; simpl; intros st st' H f Hf.
  - injection H as <-. now left.
  - destruct (dedup_step st a) as [st1 | |] eqn:E; simpl in H; try discriminate.
    destruct (IH _ _ H f Hf) as [Hin | (Hin & Hp)]; [| right; auto].
    destruct (dedup_step_video _ _ _ E) as [[E1 _] | (E1 & Hv & Ha & _)];
      rewrite E1 in Hin.
    + now left.
    + apply in_app_or in Hin as [Hin | [<- | []]]; [now left |].
      right. auto.
Qed.

Lemma dedup_loop_best l : forall st st',
  dedup_loop st l = Ok st' ->
  forall b, best_audio st' = Some b ->
    best_audio st = Some b \/
    (In b l /\ has_video b = false /\ has_audio b = true).
Proof.
  induction l as [|a l IH]; simpl; intros st st' H b Hb.
  - injection H as <-. now left.
  - destruct (dedup_step st a) as [st1 | |] eqn:E; simpl in H; try discriminate.
    destruct (IH _ _ H b Hb) as [Hin | (Hin & Hp)]; [| right; auto].
    destruct (dedup_step_best _ _ _ E) as [E1 | (_ & E1 & Hv & Ha)];
      rewrite E1 in Hin.
    + now left.
    + right. injection Hin as <-. auto.
Qed.

(** The heights of the kept video formats are pairwise different, and
    the key of each of them is in [seen_resolutions]. *)
Lemma dedup_loop_heights l : forall st st',
  dedup_loop st l = Ok st' ->
  NoDup (map (fun f => get f "height") (video_formats st)) ->
  (forall f, In f (video_formats st) ->
     exists t, py_str (py_or (get f "height") (VInt 0)) = Ok t /\
               ("video_" ++ t) ∈ seen_resolutions st) ->
  NoDup (map (fun f => get f "height") (video_formats st')).
Proof.
  induction l as [|a l IH]; simpl; intros st st' H Hnd Hseen.
  - now injection H as <-.
  - destruct (dedup_step st a) as [st1 | |] eqn:E; simpl in H; try discriminate.
    apply (IH _ _ H);
      destruct (dedup_step_video _ _ _ E)
        as [[E1 E2] | (E1 & _ & _ & t & Ht & Hnew & E2)];
      rewrite E1, ?E2; auto.
    + rewrite map_app. simpl. apply NoDup_app. split; [exact Hnd |].
      split; [| apply NoDup_singleton].
      intros h Hh Ha. apply list_elem_of_In in Hh, Ha.
      destruct Ha as [<- | []].
      apply in_map_iff in Hh as (f & Ef & Hf).
      destruct (Hseen f Hf) as (t' & Ht' & Hin).
      rewrite Ef, Ht in Ht'. injection Ht' as <-. contradiction.
    + intros f Hf. apply in_app_or in Hf as [Hf | [<- | []]].
      * destruct (Hseen f Hf) as (t' & Ht' & Hin).
        exists t'. split; [exact Ht' | apply elem_of_union; now left].
      * exists t. split; [exact Ht |].
        apply elem_of_union. right. now apply elem_of_singleton.
Qed.

Lemma truthy_get_dict (d : pydict) k :
  truthy (get d k) = true -> truthy (VDict d) = true.
Proof.
  unfold get. destruct (d !! k) as [v |] eqn:E; simpl; [| discriminate].
  intros _. apply negb_true_iff, bool_decide_eq_false.
  intros ->. now rewrite lookup_empty in E.
Qed.

Lemma filter_bucket_In b formats e :
  In e (List.filter (in_bucket b) formats) <-> In e formats /\ classify e = b.
Proof. now rewrite filter_In, in_bucket_classify. Qed.

(** Where the entries of a returned list come from.  The list that the
    last loop reads is [sort_desc] of [result]; every entry of [result]
    is a combined format of the input, a merged entry, a fallback entry
    (and then the input has no video-with-audio candidate), or the copy
    of an audio-only format. *)
Lemma merge_video_audio_formats_inv formats out :
  merge_video_audio_formats formats = Ok out ->
  exists result st,
    (forall e, In e result ->
       (In e formats /\ classify e = Combined) \/
       (exists best v, e = merge_entry best v /\
          In best formats /\ classify best = AudioOnly /\
          In v formats /\ classify v = VideoOnly) \/
       (exists v, e = video_only_entry v /\
          In v formats /\ classify v = VideoOnly /\
          ~ video_with_audio_candidate formats) \/
       (exists a, e = audio_entry a /\
          In a formats /\ classify a = AudioOnly)) /\
    dedup_loop dedup_start
      (sort_desc (fun x y => get_format_quality_score x <? get_format_quality_score y)
                 result) = Ok st /\
    out = (video_formats st ++
           match best_audio st with
           | Some b => if truthy (VDict b) then [b] else []
           | None => []
           end)%list.
Proof.
  unfold merge_video_audio_formats.
  remember (List.filter (in_bucket Combined) formats) as combined eqn:Ec.
  remember (List.filter (in_bucket VideoOnly) formats) as video_only eqn:Ev.
  remember (List.filter (in_bucket AudioOnly) formats) as audio_only eqn:Ea.
  assert (Hcombined : forall e, In e combined <->
            In e formats /\ classify e = Combined)
    by (intros e; subst combined; apply filter_bucket_In).
  assert (Hvideo : forall e, In e video_only <->
            In e formats /\ classify e = VideoOnly)
    by (intros e; subst video_only; apply filter_bucket_In).
  assert (Haudio : forall e, In e audio_only <->
            In e formats /\ classify e = AudioOnly)
    by (intros e; subst audio_only; apply filter_bucket_In).
  clear Ec Ev Ea.
  set (paired := match video_only with [] => _ | _ => _ end).
  assert (Hpaired :
    (paired = Raise TypeError \/ paired = OutOfModel) \/
    exists ao res, paired = Ok (ao, res) /\
    (forall e, In e ao <-> In e audio_only) /\
    forall e, In e (match res with
                    | [] => map video_only_entry video_only
                    | _ => res
                    end) ->
       (In e formats /\ classify e = Combined) \/
       (exists best v, e = merge_entry best v /\
          In best formats /\ classify best = AudioOnly /\
          In v formats /\ classify v = VideoOnly) \/
       (exists v, e = video_only_entry v /\
          In v formats /\ classify v = VideoOnly /\
          ~ video_with_audio_candidate formats)).
  { assert (Hplain : (video_only = [] \/ audio_only = []) ->
      forall e, In e (match combined with
                      | [] => map video_only_entry video_only
                      | _ => combined
                      end) ->
       (In e formats /\ classify e = Combined) \/
       (exists best v, e = merge_entry best v /\
          In best formats /\ classify best = AudioOnly /\
          In v formats /\ classify v = VideoOnly) \/
       (exists v, e = video_only_entry v /\
          In v formats /\ classify v = VideoOnly /\
          ~ video_with_audio_candidate formats)).
    { intros Hva e He. destruct combined as [|c cs] eqn:Ec.
      - right. right. apply in_map_iff in He as (v & <- & Hv).
        exists v. split; [reflexivity |].
        destruct (proj1 (Hvideo v) Hv) as [Hin Hcl]. repeat split; auto.
        intros [(f & Hf & Hcf) | [(v' & Hv' & Hcv) (a & Ha' & Hca)]].
        + now apply (proj2 (Hcombined f)).
        + destruct Hva as [E | E].
          * rewrite E in Hv. destruct Hv.
          * rewrite E in Haudio. now apply (proj2 (Haudio a)).
      - left. now apply Hcombined. }
    subst paired.
    destruct video_only as [|v0 vs] eqn:Ev.
    { right. exists audio_only, combined. split; [reflexivity |].
      split; [tauto |]. apply Hplain. now left. }
    destruct audio_only as [|a0 as0] eqn:Ea.
    { right. exists [], combined. split; [reflexivity |].
      split; [tauto |]. apply Hplain. now right. }
    destruct (sort_by_key_desc audio_key (a0 :: as0)) as [sorted | e |] eqn:Es;
      simpl.
    - pose proof (sort_by_key_desc_length _ _ _ Es) as Hlen.
      assert (Hin : forall e, In e sorted <-> In e (a0 :: as0))
        by (intros e; eapply sort_by_key_desc_In; eauto).
      destruct sorted as [|best rest]; [discriminate |].
      assert (Hbest : In best formats /\ classify best = AudioOnly).
      { apply Haudio. apply Hin. now left. }
      assert (Htruthy : truthy (VDict best) = true).
      { destruct Hbest as [_ Hb].
        apply classify_AudioOnly in Hb as (_ & _ & Hu).
        eapply truthy_get_dict; eauto. }
      right. simpl. simpl in Htruthy. rewrite Htruthy.
      exists (best :: rest),
             (combined ++ map (merge_entry best) (v0 :: vs))%list.
      split; [reflexivity |]. split; [exact Hin |].
      intros e He.
      assert (He' : In e (combined ++ map (merge_entry best) (v0 :: vs))%list).
      { destruct (combined ++ map (merge_entry best) (v0 :: vs))%list eqn:Er;
          [| exact He].
        apply app_eq_nil in Er as [_ Er]. discriminate. }
      apply in_app_or in He' as [He' | He'].
      + left. now apply Hcombined.
      + right. left. apply in_map_iff in He' as (v & <- & Hv).
        apply Hvideo in Hv as [Hv1 Hv2].
        exists best, v. tauto.
    - left. left. unfold sort_by_key_desc in Es.
      destruct as0; [discriminate |].
      repeat (destruct (forallb _ _)); try discriminate.
      now injection Es as <-.
    - left. now right. }
  intros H.
  destruct Hpaired as [[E | E] | (ao & res & E & Hao & Hres)];
    rewrite E in H; try discriminate.
  simpl in H.
  set (result := (_ ++ map audio_entry ao)%list) in H.
  destruct (dedup_loop dedup_start _) as [st | |] eqn:Hloop; try discriminate.
  simpl in H. exists result, st. split; [| split; [exact Hloop |]].
  - intros e He. apply in_app_or in He as [He | He].
    + destruct (Hres e He) as [? | [? | ?]]; auto.
    + right. right. right. apply in_map_iff in He as (a & <- & Ha).
      apply Hao, Haudio in Ha. exists a. tauto.
  - destruct (best_audio st) as [b |].
    + change (negb (bool_decide (b = ∅))) with (truthy (VDict b)) in H.
      destruct (truthy (VDict b)); injection H as <-; [reflexivity |].
      now rewrite app_nil_r.
    + injection H as <-. now rewrite app_nil_r.
Qed.

Lemma has_video_insert (d : pydict) k v :
  k <> "vcodec" -> has_video (<[k := v]> d) = has_video d.
Proof. intros H. unfold has_video. now rewrite get_or_insert_ne. Qed.

Lemma has_audio_insert (d : pydict) k v :
  k <> "acodec" -> has_audio (<[k := v]> d) = has_audio d.
Proof. intros H. unfold has_audio. now rewrite get_or_insert_ne. Qed.

(** A merged entry has the audio codec of the audio format it is paired
    with, which is a real one. *)
Lemma has_audio_merge_entry best v :
  has_audio best = true -> has_audio (merge_entry best v) = true.
Proof.
  unfold merge_entry. intros H.
  rewrite !has_audio_insert by discriminate.
  unfold has_audio in *. rewrite get_or_insert_eq.
  unfold get_or in *. destruct (best !! "acodec"); [exact H | discriminate].
Qed.

Lemma has_video_audio_entry a : has_video (audio_entry a) = has_video a.
Proof. unfold audio_entry. now rewrite has_video_insert. Qed.

(** Every entry of the returned list is a video format kept by the last
    loop, or the one audio-only entry at the end. *)
Lemma merge_video_audio_formats_out formats out :
  merge_video_audio_formats formats = Ok out ->
  exists result st,
    (forall e, In e result ->
       (In e formats /\ classify e = Combined) \/
       (exists best v, e = merge_entry best v /\
          In best formats /\ classify best = AudioOnly /\
          In v formats /\ classify v = VideoOnly) \/
       (exists v, e = video_only_entry v /\
          In v formats /\ classify v = VideoOnly /\
          ~ video_with_audio_candidate formats) \/
       (exists a, e = audio_entry a /\
          In a formats /\ classify a = AudioOnly)) /\
    (forall e, In e (video_formats st) ->
       In e result /\ has_video e = true /\
       (has_audio e || truthy (get e "audio_ext")) = true) /\
    NoDup (map (fun f => get f "height") (video_formats st)) /\
    (out = video_formats st \/
     exists b, out = (video_formats st ++ [b])%list /\ In b result /\
               has_video b = false /\ has_audio b = true).
Proof.
  intros H.
  destruct (merge_video_audio_formats_inv _ _ H) as (result & st & Hres & Hloop & ->).
  exists result, st. split; [exact Hres |]. split; [| split].
  - intros e He.
    destruct (dedup_loop_video _ _ _ Hloop e He) as [[] | (Hin & Hv & Ha)].
    apply sort_desc_In in Hin. auto.
  - apply (dedup_loop_heights _ _ _ Hloop); simpl; [constructor | tauto].
  - destruct (best_audio st) as [b |] eqn:Eb; [| left; now rewrite app_nil_r].
    destruct (dedup_loop_best _ _ _ Hloop b Eb) as [Hn | (Hin & Hv & Ha)];
      [discriminate |].
    apply sort_desc_In in Hin.
    destruct (truthy (VDict b)); [| left; now rewrite app_nil_r].
    right. exists b. auto.
Qed.

(** C1.  Every entry of the list returned by the reconciler that has a
    real video codec carries audio information: a real audio codec, or
    a true [audio_ext].  An entry with a real video codec and without a
    real audio codec appears only when the input has no
    video-with-audio candidate at all, and it is then an entry of the
    fallback, flagged [_video_only]. *)
Theorem merge_video_entries_carry_audio formats out e :
  merge_video_audio_formats formats = Ok out ->
  In e out ->
  has_video e = true ->
  (has_audio e = true \/ truthy (get e "audio_ext") = true) /\
  (has_audio e = true \/
   (~ video_with_audio_candidate formats /\
    get e "_video_only" = VBool true)).
Proof.
  intros H He Hv.
  destruct (merge_video_audio_formats_out _ _ H)
    as (result & st & Hres & Hvf & _ & Hout).
  assert (Hin : In e (video_formats st)).
  { destruct Hout as [-> | (b & -> & _ & Hb & _)]; [exact He |].
    apply in_app_or in He as [He | [<- | []]]; [exact He | congruence]. }
  destruct (Hvf e Hin) as (Hr & _ & Ha). split.
  - apply orb_true_iff in Ha. exact Ha.
  - destruct (Hres e Hr)
      as [[_ Hc] | [(best & v & -> & _ & Hb & _) | [(v & -> & _ & _ & Hn) | (a & -> & _ & Hc)]]].
    + left. now apply classify_Combined in Hc.
    + left. apply has_audio_merge_entry.
      now apply classify_AudioOnly in Hb as (_ & ? & _).
    + right. split; [exact Hn |]. unfold video_only_entry.
      apply get_insert_eq.
    + rewrite has_video_audio_entry in Hv.
      apply classify_AudioOnly in Hc as (Hc & _). congruence.
Qed.

(** C2.  On the two formats of the scenario the reconciler returns
    exactly two entries: first the video format (url [A], height 1080)
    with the audio's codec, bitrate and container laid over it, flagged
    [_needs_merge] and carrying the audio URL [B] in [_audio_url]; then
    the audio-only format (url [B]) with its preference lowered by 50. *)
Theorem merge_scenario_video_audio :
  merge_video_audio_formats [scenario_video; scenario_audio] =
  Ok [ <["_needs_merge" := VBool true]> (<["_audio_url" := VStr "B"]>
       (<["audio_ext" := VStr "m4a"]> (<["abr" := VInt 128]>
       (<["acodec" := VStr "aac"]> scenario_video))));
       <["preference" := VInt (-50)]> scenario_audio ] /\
  (forall out, merge_video_audio_formats [scenario_video; scenario_audio] = Ok out ->
     length out = 2%nat /\
     exists v a, out = [v; a] /\
       v !! "url" = Some (VStr "A") /\ v !! "height" = Some (VInt 1080) /\
       v !! "vcodec" = Some (VStr "avc1") /\
       v !! "_needs_merge" = Some (VBool true) /\
       v !! "_audio_url" = Some (VStr "B") /\
       v !! "acodec" = Some (VStr "aac") /\ v !! "abr" = Some (VInt 128) /\
       v !! "audio_ext" = Some (VStr "m4a") /\
       a !! "url" = Some (VStr "B") /\ has_video a = false /\
       has_audio a = true /\
       a !! "preference" = Some (VInt (safe_int (get scenario_audio "preference") 0 - 50)) /\
       a !! "preference" = Some (VInt (-50))).
Proof.
  assert (E : merge_video_audio_formats [scenario_video; scenario_audio] =
    Ok [ <["_needs_merge" := VBool true]> (<["_audio_url" := VStr "B"]>
         (<["audio_ext" := VStr "m4a"]> (<["abr" := VInt 128]>
         (<["acodec" := VStr "aac"]> scenario_video))));
         <["preference" := VInt (-50)]> scenario_audio ])
    by reflexivity.
  split; [exact E |].
  intros out H. rewrite E in H. injection H as <-.
  split; [reflexivity |]. do 2 eexists. split; [reflexivity |].
  repeat split; reflexivity.
Qed.

(** C4 (the failing input).  The video-only format of the scenario,
    alone, is a video-only format with a URL and no storyboard, and the
    input has no combined and no audio-only format; the fallback entry
    built for it is dropped by the last loop, which keeps a video format
    only with audio information, and the reconciler returns the empty
    list. *)
Theorem merge_video_only_fallback_dropped :
  classify scenario_video = VideoOnly /\
  ~ video_with_audio_candidate [scenario_video] /\
  merge_video_audio_formats [scenario_video] = Ok [].
Proof.
  split; [reflexivity |]. split; [| reflexivity].
  intros [(f & [<- | []] & Hf) | [_ (a & [<- | []] & Ha)]]; discriminate.
Qed.

Lemma map_lookup {A B} (f : A -> B) (l : list A) i :
  map f l !! i = f <$> l !! i.
Proof.
  revert i. induction l as [|a l IH]; intros [|i]; simpl; auto.
Qed.

Lemma py_or_int_0 h : py_or (VInt h) (VInt 0) = VInt h.
Proof.
  unfold py_or. simpl. destruct (Z.eqb_spec h 0) as [-> | _]; reflexivity.
Qed.

(** A turn of the last loop on a format with video and audio. *)
Lemma dedup_step_with_audio st f t :
  has_video f = true -> has_audio f = true ->
  py_str (py_or (get f "height") (VInt 0)) = Ok t ->
  dedup_step st f =
  Ok (if bool_decide (("video_" ++ t) ∈ seen_resolutions st) then st
      else {| seen_resolutions := seen_resolutions st ∪ {[ "video_" ++ t ]};
              video_formats := (video_formats st ++ [f])%list;
              best_audio := best_audio st |}).
Proof.
  intros Hv Ha Ht. unfold dedup_step.
  rewrite loop_has_v, truthy_py_or, loop_has_a, Hv, Ha, Ht. simpl.
  now destruct (bool_decide _).
Qed.

Section ContainerTieBreak.

(** Two combined formats that differ in the container only: [d] with
    [ext] set to [mp4] and to [webm]. *)
Variable d : pydict.
Variable h : Z.
Hypothesis d_url : truthy (get d "url") = true.
Hypothesis d_not_images : eq_str (get d "vcodec") "images" = false.
Hypothesis d_combined : is_combined_format d = true.
Hypothesis d_height : get d "height" = VInt h.

Lemma classify_with_ext e :
  eq_str (VStr e) "mhtml" = false ->
  classify (<["ext" := VStr e]> d) = Combined.
Proof.
  intros He. unfold classify, is_combined_format.
  rewrite get_insert_eq, !get_insert_ne by discriminate.
  rewrite has_video_insert, has_audio_insert by discriminate.
  rewrite d_url, He, d_not_images. simpl.
  unfold is_combined_format in d_combined. now rewrite d_combined.
Qed.

Lemma score_mp4_above_webm :
  get_format_quality_score (<["ext" := VStr "webm"]> d)
  < get_format_quality_score (<["ext" := VStr "mp4"]> d).
Proof.
  unfold get_format_quality_score, is_combined_format.
  rewrite !get_insert_eq, !get_insert_ne by discriminate.
  rewrite !has_video_insert, !has_audio_insert by discriminate.
  simpl.
  destruct (has_video d && has_audio d);
    destruct (safe_int (get d "fps") 0 >=? 60);
    destruct (safe_int (get d "fps") 0 >=? 30); lia.
Qed.

Lemma dedup_two_same_height e1 e2 :
  dedup_loop dedup_start [<["ext" := VStr e1]> d; <["ext" := VStr e2]> d]
  = Ok {| seen_resolutions := ∅ ∪ {[ "video_" ++ str_of_int h ]};
          video_formats := [<["ext" := VStr e1]> d];
          best_audio := None |}.
Proof.
  assert (Hstep : forall st e,
    dedup_step st (<["ext" := VStr e]> d) =
    Ok (if bool_decide (("video_" ++ str_of_int h) ∈ seen_resolutions st) then st
        else {| seen_resolutions := seen_resolutions st ∪ {[ "video_" ++ str_of_int h ]};
                video_formats := (video_formats st ++ [<["ext" := VStr e]> d])%list;
                best_audio := best_audio st |})).
  { intros st e. apply dedup_step_with_audio.
    - rewrite has_video_insert by discriminate.
      unfold is_combined_format in d_combined.
      now apply andb_true_iff in d_combined.
    - rewrite has_audio_insert by discriminate.
      unfold is_combined_format in d_combined.
      now apply andb_true_iff in d_combined.
    - rewrite get_insert_ne by discriminate.
      now rewrite d_height, py_or_int_0. }
  unfold dedup_loop. rewrite Hstep.
  rewrite bool_decide_eq_false_2 by (simpl; apply not_elem_of_empty).
  simpl. rewrite Hstep.
  rewrite bool_decide_eq_true_2
    by (simpl; apply elem_of_union; right; now apply elem_of_singleton).
  reflexivity.
Qed.

Lemma merge_two_containers e1 e2 :
  eq_str (VStr e1) "mhtml" = false -> eq_str (VStr e2) "mhtml" = false ->
  merge_video_audio_formats [<["ext" := VStr e1]> d; <["ext" := VStr e2]> d] =
  st ← dedup_loop dedup_start
         (sort_desc (fun x y => get_format_quality_score x <? get_format_quality_score y)
            [<["ext" := VStr e1]> d; <["ext" := VStr e2]> d]);
  Ok (video_formats st ++
      match best_audio st with
      | Some b => if truthy (VDict b) then [b] else []
      | None => []
      end)%list.
Proof.
  intros H1 H2. unfold merge_video_audio_formats.
  assert (Hb : forall e b, eq_str (VStr e) "mhtml" = false ->
            in_bucket b (<["ext" := VStr e]> d) = bucket_eqb Combined b).
  { intros e b He. unfold in_bucket. now rewrite classify_with_ext. }
  cbn [List.filter]. rewrite !Hb by assumption. cbn [bucket_eqb].
  cbn [mbind result_bind app map].
  destruct (dedup_loop dedup_start _) as [st | |]; cbn [mbind result_bind];
    try reflexivity.
  destruct (best_audio st) as [b |]; [| now rewrite app_nil_r].
  destruct (truthy (VDict b)); [reflexivity | now rewrite app_nil_r].
Qed.

Lemma merge_mp4_webm :
  merge_video_audio_formats [<["ext" := VStr "mp4"]> d; <["ext" := VStr "webm"]> d]
  = Ok [<["ext" := VStr "mp4"]> d] /\
  merge_video_audio_formats [<["ext" := VStr "webm"]> d; <["ext" := VStr "mp4"]> d]
  = Ok [<["ext" := VStr "mp4"]> d].
Proof.
  pose proof score_mp4_above_webm as Hs.
  split; rewrite merge_two_containers by reflexivity; cbn [sort_desc insert_desc].
  - rewrite (proj2 (Z.ltb_ge _ _)) by lia.
    now rewrite dedup_two_same_height.
  - rewrite (proj2 (Z.ltb_lt _ _)) by lia.
    now rewrite dedup_two_same_height.
Qed.

End ContainerTieBreak.

(** C3.  The returned list holds at most one video-capable format for a
    height value: two entries with a real video codec at different
    places have different [height] values.  And of two combined formats
    with a URL, no storyboard and the same integer height that differ in
    the container only, one [mp4] and one [webm], the reconciler keeps
    exactly one, the [mp4] one, in whichever order they come. *)
Theorem merge_one_video_per_height :
  (forall formats out (i j : nat) e1 e2,
      merge_video_audio_formats formats = Ok out ->
      out !! i = Some e1 -> out !! j = Some e2 -> i <> j ->
      has_video e1 = true -> has_video e2 = true ->
      get e1 "height" <> get e2 "height") /\
  (forall (d : pydict) (h : Z),
      truthy (get d "url") = true ->
      eq_str (get d "vcodec") "images" = false ->
      is_combined_format d = true ->
      get d "height" = VInt h ->
      merge_video_audio_formats
        [<["ext" := VStr "mp4"]> d; <["ext" := VStr "webm"]> d]
      = Ok [<["ext" := VStr "mp4"]> d] /\
      merge_video_audio_formats
        [<["ext" := VStr "webm"]> d; <["ext" := VStr "mp4"]> d]
      = Ok [<["ext" := VStr "mp4"]> d]).
Proof.
  split; [| exact merge_mp4_webm].
  intros formats out i j e1 e2 H H1 H2 Hij Hv1 Hv2 Eh.
  destruct (merge_video_audio_formats_out _ _ H)
    as (result & st & _ & _ & Hnd & Hout).
  assert (Hvf : forall k e, out !! k = Some e -> has_video e = true ->
                  video_formats st !! k = Some e).
  { intros k e Hk Hv. destruct Hout as [-> | (b & -> & _ & Hb & _)]; [exact Hk |].
    apply lookup_app_Some in Hk as [Hk | [_ Hk]]; [exact Hk |].
    apply list_lookup_singleton_Some in Hk as [_ <-]. congruence. }
  apply Hij. eapply NoDup_lookup; [exact Hnd | |].
  - rewrite map_lookup, (Hvf _ _ H1 Hv1). reflexivity.
  - rewrite map_lookup, (Hvf _ _ H2 Hv2). simpl. now rewrite Eh.
Qed.

(** ** Transformer *)


(** A loop whose every turn returns, returns. *)
Lemma mapM_result_total {A B} (f : A -> result B) l :
  (forall x, In x l -> exists y, f x = Ok y) ->
  exists ys, mapM_result f l = Ok ys.
Proof.
  induction l as [|x l IH]; intros H; [now exists [] |].
  destruct (H x (or_introl eq_refl)) as [y Hy].
  destruct IH as [ys Hys]; [intros z Hz; apply H; now right |].
  exists (y :: ys). simpl. rewrite Hy. cbn [mbind result_bind].
  rewrite Hys. reflexivity.
Qed.

(** The upload date lines, the subtitle loop and the thumbnail loop
    return for values of the expected types. *)
Lemma upload_date_field_total v :
  truthy v = false \/ (exists s, v = VStr s) ->
  exists date, upload_date_field v = Ok date.
Proof.
  unfold upload_date_field. intros [Ht | [s ->]].
  - rewrite Ht. eauto.
  - destruct (truthy (VStr s)); [| eauto]. simpl.
    destruct (_ =? 8); eauto.
Qed.

Lemma transform_subtitles_total (subtitles : pydict) :
  (forall lang l x, subtitles !! lang = Some (VList l) -> In x l ->
                    exists d, x = VDict d) ->
  exists subs, transform_subtitles (VDict subtitles) = Ok subs.
Proof.
  intros H. unfold transform_subtitles. cbn [as_dict mbind result_bind].
  destruct (mapM_result_total subtitle_language (map_to_list subtitles))
    as [pairs Hp].
  - intros [lang v] Hin.
    apply list_elem_of_In, elem_of_map_to_list in Hin.
    unfold subtitle_language.
    destruct v as [| | | | [|x l] |]; eauto.
    destruct (mapM_result_total (subtitle_entry lang) (x :: l)) as [es Hes].
    + intros y Hy. destruct (H lang _ y Hin Hy) as [d ->].
      unfold subtitle_entry. cbn [as_dict mbind result_bind]. eauto.
    + rewrite Hes. cbn [mbind result_bind]. eauto.
  - rewrite Hp. cbn [mbind result_bind]. eauto.
Qed.

Lemma transform_thumbnails_total (thumbnails : list pyval) :
  (forall x, In x thumbnails -> exists d, x = VDict d) ->
  exists thumbs, transform_thumbnails (VList thumbnails) = Ok thumbs.
Proof.
  intros H. unfold transform_thumbnails. cbn [py_iter mbind result_bind].
  destruct (mapM_result_total thumbnail_entry thumbnails) as [ts Hts].
  - intros x Hx. destruct (H x Hx) as [d ->].
    unfold thumbnail_entry. cbn [as_dict mbind result_bind].
    destruct (truthy (get d "url")); eauto.
  - rewrite Hts. cbn [mbind result_bind]. eauto.
Qed.

Section TransformerFacts.

Variable nfkd : list N -> list N.
Variable ytdlp_version : option string.

(** The fields of the record that [transform_single] returns for a
    record that is no playlist, from the results of its steps. *)
Lemma transform_single_fields data clean date formats subs thumbs :
  eq_str (get data "_type") "playlist" = false ->
  sanitize_title nfkd (get_or data "title" (VStr "Unknown Title")) = Ok clean ->
  upload_date_field (get data "upload_date") = Ok date ->
  transformed_formats data clean (get_or data "id" (VStr "")) = Ok formats ->
  transform_subtitles (get_or data "subtitles" (VDict ∅)) = Ok subs ->
  transform_thumbnails (get_or data "thumbnails" (VList [])) = Ok thumbs ->
  exists r,
    transform_single nfkd ytdlp_version data = Ok r /\
    r !! "id" = Some (get_or data "id" (VStr "")) /\
    r !! "title" = Some (VStr clean) /\
    r !! "original_title" = Some (get_or data "title" (VStr "Unknown Title")) /\
    r !! "webpage_url" =
      Some (get_or data "webpage_url" (get_or data "url" (VStr ""))) /\
    r !! "duration" = Some (get data "duration") /\
    r !! "formats" = Some (VList (map VDict formats)) /\
    r !! "subtitles" = Some (VDict subs) /\
    r !! "thumbnails" = Some (VList thumbs) /\
    r !! "upload_date" = VStr <$> date /\
    r !! "error" = None /\
    (formats = [] ->
     r !! "_error" = Some (VStr "No downloadable formats found") /\
     r !! "_ytdlp_version" = Some (from_option VStr VNone ytdlp_version) /\
     r !! "_hint" = Some (VStr "Try updating yt-dlp: yt-dlp -U")) /\
    (formats <> [] -> r !! "_error" = None).
Proof.
  intros Hp Ht Hd Hf Hs Hth. unfold transform_single.
  rewrite Hp, Ht. cbn [mbind result_bind]. rewrite Hd. cbn [mbind result_bind].
  rewrite Hf. cbn [mbind result_bind]. rewrite Hs. cbn [mbind result_bind].
  rewrite Hth. cbn [mbind result_bind].
  eexists. split; [reflexivity |].
  destruct date as [text |]; destruct formats as [|f fs];
    repeat split; try (intros; congruence);
    try (intros _; repeat split); now simplify_map_eq.
Qed.

(** What the steps before the formats leave in the result: a record
    that comes back has gone through all of them. *)
Lemma transform_single_inv data r :
  eq_str (get data "_type") "playlist" = false ->
  transform_single nfkd ytdlp_version data = Ok r ->
  exists clean date formats subs thumbs,
    sanitize_title nfkd (get_or data "title" (VStr "Unknown Title")) = Ok clean /\
    upload_date_field (get data "upload_date") = Ok date /\
    transformed_formats data clean (get_or data "id" (VStr "")) = Ok formats /\
    transform_subtitles (get_or data "subtitles" (VDict ∅)) = Ok subs /\
    transform_thumbnails (get_or data "thumbnails" (VList [])) = Ok thumbs.
Proof.
  intros Hp H. unfold transform_single in H. rewrite Hp in H.
  destruct (sanitize_title _ _) as [clean | |] eqn:Ht; try discriminate.
  cbn [mbind result_bind] in H.
  destruct (upload_date_field _) as [date | |] eqn:Hd; try discriminate.
  cbn [mbind result_bind] in H.
  destruct (transformed_formats _ _ _) as [formats | |] eqn:Hf;
    try discriminate.
  cbn [mbind result_bind] in H.
  destruct (transform_subtitles _) as [subs | |] eqn:Hs; try discriminate.
  cbn [mbind result_bind] in H.
  destruct (transform_thumbnails _) as [thumbs | |] eqn:Hth; try discriminate.
  exists clean, date, formats, subs, thumbs. auto.
Qed.


(** C9 (amended).  For every raw record that is no playlist, whose
    title is a string or falsy, whose upload date is a string or falsy,
    whose subtitles are a dict in which every list holds dicts only,
    whose thumbnails are a list of dicts, and for which reconciliation
    and per-format transformation yield no format, [transform_single]
    returns a record with the normalized fields, an empty format list,
    the note [_error], the hint [_hint] and the extractor version (or
    [None]) in [_ytdlp_version]; the record has no [error] key. *)
Theorem transform_single_no_formats data subtitles thumbnails :
  eq_str (get data "_type") "playlist" = false ->
  (truthy (get_or data "title" (VStr "Unknown Title")) = false \/
   exists s, get_or data "title" (VStr "Unknown Title") = VStr s) ->
  (truthy (get data "upload_date") = false \/
   exists s, get data "upload_date" = VStr s) ->
  (forall clean,
     sanitize_title nfkd (get_or data "title" (VStr "Unknown Title")) = Ok clean ->
     transformed_formats data clean (get_or data "id" (VStr "")) = Ok []) ->
  get_or data "subtitles" (VDict ∅) = VDict subtitles ->
  (forall lang l x, subtitles !! lang = Some (VList l) -> In x l ->
                    exists d, x = VDict d) ->
  get_or data "thumbnails" (VList []) = VList thumbnails ->
  (forall x, In x thumbnails -> exists d, x = VDict d) ->
  exists r clean subs thumbs,
    transform_single nfkd ytdlp_version data = Ok r /\
    sanitize_title nfkd (get_or data "title" (VStr "Unknown Title")) = Ok clean /\
    transform_subtitles (VDict subtitles) = Ok subs /\
    transform_thumbnails (VList thumbnails) = Ok thumbs /\
    r !! "error" = None /\
    r !! "_error" = Some (VStr "No downloadable formats found") /\
    r !! "_hint" = Some (VStr "Try updating yt-dlp: yt-dlp -U") /\
    r !! "_ytdlp_version" = Some (from_option VStr VNone ytdlp_version) /\
    r !! "id" = Some (get_or data "id" (VStr "")) /\
    r !! "title" = Some (VStr clean) /\
    r !! "original_title" = Some (get_or data "title" (VStr "Unknown Title")) /\
    r !! "webpage_url" =
      Some (get_or data "webpage_url" (get_or data "url" (VStr ""))) /\
    r !! "duration" = Some (get data "duration") /\
    r !! "formats" = Some (VList []) /\
    r !! "subtitles" = Some (VDict subs) /\
    r !! "thumbnails" = Some (VList thumbs).
Proof.
  intros Hp Htitle Hdate Hfmt Hsubs Htracks Hthumbs Hitems.
  assert (Ht : exists clean,
    sanitize_title nfkd (get_or data "title" (VStr "Unknown Title")) = Ok clean).
  { unfold sanitize_title. destruct Htitle as [Hf | [s Hs]].
    - rewrite Hf. simpl. eauto.
    - rewrite Hs. destruct (negb (truthy (VStr s))); eauto. }
  destruct Ht as [clean Ht].
  destruct (upload_date_field_total _ Hdate) as [date Hd].
  destruct (transform_subtitles_total subtitles Htracks) as [subs Hs].
  destruct (transform_thumbnails_total thumbnails Hitems) as [thumbs Hth].
  pose proof (Hfmt clean Ht) as Hf.
  rewrite <- Hsubs in Hs. rewrite <- Hthumbs in Hth.
  destruct (transform_single_fields _ _ _ _ _ _ Hp Ht Hd Hf Hs Hth)
    as (r & Hr & Hid & Htl & Horig & Hurl & Hdur & Hfm & Hsub & Hthumb
          & _ & Herr & Hnote & _).
  destruct (Hnote eq_refl) as (He & Hv & Hh).
  rewrite Hsubs in Hs. rewrite Hthumbs in Hth.
  exists r, clean, subs, thumbs. repeat split; assumption.
Qed.

End TransformerFacts.

(** ** The reconciler on references: what a run does to the store *)

Section StoreFrame.

Variable h0 : store.
Variable ins : list loc.

#[local] Abbreviation inv := (run_inv h0 ins).
#[local] Abbreviation ok := (acceptable h0 ins).
#[local] Abbreviation run := (triple h0 ins).

Lemma run_inv_incl L L' h : incl L L' -> inv L' h -> inv L h.
Proof. intros Hi [Hf Hl]. split; [exact Hf |]. intros l Hin. auto. Qed.

Lemma run_ret {A} L (a : A) (post : A -> Prop) L' :
  post a -> incl (L' a) L -> run L (mret a) post L'.
Proof.
  intros Hp Hi h a' h' Hinv [= <- <-]. split; [exact Hp |].
  eapply run_inv_incl; eauto.
Qed.

Lemma run_bind {A B} L (m : M A) (k : A -> M B) post1 L1 post2 L2 :
  run L m post1 L1 ->
  (forall a, post1 a -> run (L1 a) (k a) post2 L2) ->
  run L (m ≫= k) post2 L2.
Proof.
  intros Hm Hk h b h' Hinv H. unfold mbind, M_bind in H.
  destruct (m h) as [[a h1] | |] eqn:E; try discriminate.
  destruct (Hm _ _ _ Hinv E) as [Hp Hinv1].
  exact (Hk a Hp _ _ _ Hinv1 H).
Qed.

Lemma run_weaken {A} L (m : M A) (post post' : A -> Prop) L1 :
  run L m post L1 -> (forall a, post a -> post' a) -> run L m post' L1.
Proof.
  intros Hm Hw h a h' Hinv H. destruct (Hm _ _ _ Hinv H). auto.
Qed.

Lemma run_lift {A} L (r : result A) : run L (lift r) (fun _ => True) (fun _ => L).
Proof.
  intros h a h' Hinv H. unfold lift in H.
  destruct r; try discriminate. now injection H as <- <-.
Qed.

Lemma run_alloc_list L :
  run L (alloc (OList [])) (fun _ => True) (fun l => l :: L).
Proof.
  intros h a h' [Hf Hl] H. unfold alloc in H. injection H as <- <-.
  split; [exact I |].
  assert (Hfresh : h !! fresh (dom h) = None)
    by (apply not_elem_of_dom, is_fresh).
  split.
  - intros l o Ho. rewrite lookup_insert_ne; [auto |].
    intros <-. rewrite (Hf _ _ Ho) in Hfresh. discriminate.
  - intros l [<- | Hin].
    + split.
      * destruct (h0 !! fresh (dom h)) as [o |] eqn:Eo; [| reflexivity].
        rewrite (Hf _ _ Eo) in Hfresh. discriminate.
      * exists []. rewrite lookup_insert_eq. split; [reflexivity | intros x []].
    + destruct (Hl l Hin) as (Hn & items & Hi & Hok).
      split; [exact Hn |]. exists items. split; [| exact Hok].
      rewrite lookup_insert_ne; [exact Hi |].
      intros <-. rewrite Hi in Hfresh. discriminate.
Qed.

Lemma run_alloc_dict L d :
  run L (alloc (ODict d)) (fun l => h0 !! l = None) (fun _ => L).
Proof.
  intros h a h' [Hf Hl] H. unfold alloc in H. injection H as <- <-.
  assert (Hfresh : h !! fresh (dom h) = None)
    by (apply not_elem_of_dom, is_fresh).
  split.
  - destruct (h0 !! fresh (dom h)) as [o |] eqn:Eo; [| reflexivity].
    rewrite (Hf _ _ Eo) in Hfresh. discriminate.
  - split.
    + intros l o Ho. rewrite lookup_insert_ne; [auto |].
      intros <-. rewrite (Hf _ _ Ho) in Hfresh. discriminate.
    + intros l Hin. destruct (Hl l Hin) as (Hn & items & Hi & Hok).
      split; [exact Hn |]. exists items. split; [| exact Hok].
      rewrite lookup_insert_ne; [exact Hi |].
      intros <-. rewrite Hi in Hfresh. discriminate.
Qed.

Lemma run_read_dict L l : run L (read_dict l) (fun _ => True) (fun _ => L).
Proof.
  intros h a h' Hinv H. unfold read_dict in H.
  destruct (h !! l) as [[d | items] |]; try discriminate.
  now injection H as <- <-.
Qed.

Lemma run_read_list L l :
  In l L ->
  run L (read_list l) (fun items => forall x, In x items -> ok x) (fun _ => L).
Proof.
  intros Hin h a h' Hinv H. unfold read_list in H.
  destruct (proj2 Hinv l Hin) as (_ & items & Hi & Hok).
  rewrite Hi in H. now injection H as <- <-.
Qed.

Lemma run_read_list_input L formats :
  h0 !! formats = Some (OList ins) ->
  run L (read_list formats) (fun items => items = ins) (fun _ => L).
Proof.
  intros Hfm h a h' Hinv H. unfold read_list in H.
  rewrite (proj1 Hinv _ _ Hfm) in H. now injection H as <- <-.
Qed.

(** Writing to an object of the run keeps the invariant. *)
Lemma run_inv_update L h l o :
  inv L h -> h0 !! l = None ->
  (forall items, h !! l = Some (OList items) ->
     exists items', o = OList items' /\
                    (In l L -> forall x, In x items' -> ok x)) ->
  (forall d, h !! l = Some (ODict d) -> ~ In l L) ->
  is_Some (h !! l) ->
  inv L (<[l := o]> h).
Proof.
  intros [Hf Hl] Hn Hlist Hdict Hsome. split.
  - intros l' o' Ho. rewrite lookup_insert_ne; [auto |]. congruence.
  - intros l' Hin. destruct (Hl l' Hin) as (Hn' & items & Hi & Hok).
    split; [exact Hn' |]. destruct (decide (l = l')) as [<- | Hne].
    + destruct (Hlist _ Hi) as (items' & -> & Hok').
      exists items'. rewrite lookup_insert_eq. auto.
    + exists items. rewrite lookup_insert_ne by exact Hne. auto.
Qed.

Lemma run_append L l x :
  In l L -> ok x -> run L (append l x) (fun _ => True) (fun _ => L).
Proof.
  intros Hin Hx h a h' Hinv H. unfold append in H.
  destruct (proj2 Hinv l Hin) as (Hn & items & Hi & Hok).
  rewrite Hi in H. injection H as <- <-. split; [exact I |].
  apply run_inv_update; auto.
  - intros items' Hi'. rewrite Hi in Hi'. injection Hi' as <-.
    eexists. split; [reflexivity |]. intros _ y Hy.
    apply in_app_or in Hy as [Hy | [<- | []]]; auto.
  - intros d Hd. congruence.
Qed.

Lemma run_set_items L l items :
  In l L -> (forall x, In x items -> ok x) ->
  run L (set_items l items) (fun _ => True) (fun _ => L).
Proof.
  intros Hin Hx h a h' Hinv H. unfold set_items in H.
  destruct (proj2 Hinv l Hin) as (Hn & items0 & Hi & Hok).
  rewrite Hi in H. injection H as <- <-. split; [exact I |].
  apply run_inv_update; auto.
  - intros items' _. eexists. split; [reflexivity | auto].
  - intros d Hd. congruence.
Qed.

Lemma run_setitem L l k v :
  h0 !! l = None -> run L (setitem l k v) (fun _ => True) (fun _ => L).
Proof.
  intros Hn h a h' Hinv H. unfold setitem in H.
  destruct (h !! l) as [[d | items] |] eqn:Hi; try discriminate.
  injection H as <- <-. split; [exact I |].
  apply run_inv_update; auto.
  - intros items Hi'. congruence.
  - intros d' _ Hin. destruct (proj2 Hinv l Hin) as (_ & items & Hi' & _).
    congruence.
Qed.

Lemma run_copy L x :
  run L (copy x) (fun l => h0 !! l = None) (fun _ => L).
Proof.
  unfold copy. eapply run_bind; [apply run_read_dict |].
  intros d _. apply run_alloc_dict.
Qed.

Lemma run_ref_get L l k : run L (ref_get l k) (fun _ => True) (fun _ => L).
Proof.
  unfold ref_get. eapply run_bind; [apply run_read_dict |].
  intros d _. apply run_ret; [exact I | apply incl_refl].
Qed.

Lemma run_ref_get_or L l k dflt :
  run L (ref_get_or l k dflt) (fun _ => True) (fun _ => L).
Proof.
  unfold ref_get_or. eapply run_bind; [apply run_read_dict |].
  intros d _. apply run_ret; [exact I | apply incl_refl].
Qed.

Lemma run_for_each {A} L (items : list A) body :
  (forall x, In x items -> run L (body x) (fun _ => True) (fun _ => L)) ->
  run L (for_each items body) (fun _ => True) (fun _ => L).
Proof.
  induction items as [|x items IH]; intros Hb; simpl.
  - apply run_ret; [exact I | apply incl_refl].
  - eapply run_bind; [apply Hb; now left |].
    intros ? _. apply IH. intros y Hy. apply Hb. now right.
Qed.

Lemma run_fold_each {A S} L (items : list A) (s : S) body (J : S -> Prop) :
  J s ->
  (forall s x, J s -> In x items -> run L (body s x) J (fun _ => L)) ->
  run L (fold_each items s body) J (fun _ => L).
Proof.
  revert s. induction items as [|x items IH]; intros s Hs Hb; simpl.
  - apply run_ret; [exact Hs | apply incl_refl].
  - eapply run_bind; [apply Hb; [exact Hs | now left] |].
    intros s' Hs'. apply IH; [exact Hs' |].
    intros s1 y Hs1 Hy. apply Hb; [exact Hs1 | now right].
Qed.

Lemma run_read_dicts L items :
  run L (read_dicts items) (fun _ => True) (fun _ => L).
Proof.
  induction items as [|x items IH]; simpl.
  - apply run_ret; [exact I | apply incl_refl].
  - eapply run_bind; [apply run_read_dict |]. intros d _.
    eapply run_bind; [apply IH |]. intros ds _.
    apply run_ret; [exact I | apply incl_refl].
Qed.

Lemma run_sort_refs_by_key L l key :
  In l L -> run L (sort_refs_by_key l key) (fun _ => True) (fun _ => L).
Proof.
  intros Hin. unfold sort_refs_by_key.
  eapply run_bind; [now apply run_read_list |]. intros items Hok.
  eapply run_bind; [apply run_read_dicts |]. intros ds _.
  intros h a h' Hinv H. unfold mbind, M_bind, lift in H.
  destruct (sort_by_key_desc _ _) as [sorted | |] eqn:Es; try discriminate.
  refine (run_set_items L l (map fst sorted) Hin _ h a h' Hinv H).
  intros x Hx. apply in_map_iff in Hx as ([y d] & <- & Hy).
  apply (sort_by_key_desc_In _ _ _ _ Es) in Hy.
  apply in_combine_l in Hy. auto.
Qed.

Lemma run_sort_refs_by_score L l :
  In l L -> run L (sort_refs_by_score l) (fun _ => True) (fun _ => L).
Proof.
  intros Hin. unfold sort_refs_by_score.
  eapply run_bind; [now apply run_read_list |]. intros items Hok.
  eapply run_bind; [apply run_read_dicts |]. intros ds _.
  apply run_set_items; [exact Hin |].
  intros x Hx. apply in_map_iff in Hx as ([y d] & <- & Hy).
  apply sort_desc_In in Hy. apply in_combine_l in Hy. auto.
Qed.

Lemma run_dedup_turn L video_formats s fmt :
  In video_formats L -> ok fmt ->
  (forall b, snd s = Some b -> ok b) ->
  run L (dedup_turn video_formats s fmt)
      (fun s' => forall b, snd s' = Some b -> ok b) (fun _ => L).
Proof.
  intros Hin Hfmt Hs. destruct s as [seen best]. unfold dedup_turn.
  eapply run_bind; [apply run_read_dict |]. intros d _.
  destruct (loop_has d "vcodec").
  - destruct (_ || _).
    + eapply run_bind; [apply run_lift |]. intros t _.
      case_bool_decide.
      * apply run_ret; [exact Hs | apply incl_refl].
      * eapply run_bind; [now apply run_append |]. intros ? _.
        apply run_ret; [exact Hs | apply incl_refl].
    + apply run_ret; [exact Hs | apply incl_refl].
  - destruct (_ && _).
    + apply run_ret; [| apply incl_refl]. simpl. now intros b [= <-].
    + apply run_ret; [exact Hs | apply incl_refl].
Qed.

(** The whole run: the list that comes back is a list of the run. *)
Lemma run_merge_video_audio_formats_refs formats :
  h0 !! formats = Some (OList ins) ->
  run [] (merge_video_audio_formats_refs formats)
      (fun _ => True) (fun out => [out]).
Proof.
  intros Hfm. unfold merge_video_audio_formats_refs.
  eapply run_bind; [apply run_alloc_list |]. intros combined _.
  eapply run_bind; [apply run_alloc_list |]. intros video_only _.
  eapply run_bind; [apply run_alloc_list |]. intros audio_only _.
  eapply run_bind; [now apply run_read_list_input |]. intros items ->.
  eapply run_bind.
  { apply run_for_each. intros fmt Hf.
    eapply run_bind; [apply run_read_dict |]. intros d _.
    destruct (classify d).
    - apply run_ret; [exact I | apply incl_refl].
    - apply run_append; [simpl; tauto | now left].
    - apply run_append; [simpl; tauto | now left].
    - apply run_append; [simpl; tauto | now left]. }
  intros ? _.
  eapply run_bind; [apply run_alloc_list |]. intros result _.
  eapply run_bind; [apply run_read_list; simpl; tauto |]. intros cs Hcs.
  eapply run_bind.
  { apply run_for_each. intros fmt Hf.
    apply run_append; [simpl; tauto | auto]. }
  intros ? _.
  eapply run_bind; [apply run_read_list; simpl; tauto |]. intros vs Hvs.
  eapply run_bind; [apply run_read_list; simpl; tauto |]. intros aus Haus.
  eapply run_bind with (post1 := fun _ => True)
                       (L1 := fun _ => [result; audio_only; video_only; combined]).
  { assert (Hskip : run [result; audio_only; video_only; combined]
                      (mret tt) (fun _ => True)
                      (fun _ => [result; audio_only; video_only; combined]))
      by (apply run_ret; [exact I | apply incl_refl]).
    destruct vs as [|vd0 vs1]; [exact Hskip |].
    destruct aus as [|au0 aus1]; [exact Hskip |].
    eapply run_bind; [apply run_sort_refs_by_key; simpl; tauto |].
    intros ? _.
    eapply run_bind; [apply run_read_list; simpl; tauto |].
    intros sorted Hsorted.
    destruct sorted as [|best_audio rest]; [exact Hskip |].
    eapply run_bind; [apply run_read_dict |]. intros b _.
    destruct (truthy (VDict b)); [| exact Hskip].
    apply run_for_each. intros vfmt Hv.
    eapply run_bind; [apply run_copy |]. intros merged Hm.
    eapply run_bind; [apply run_ref_get_or |]. intros acodec _.
    eapply run_bind; [now apply run_setitem |]. intros ? _.
    eapply run_bind; [apply run_ref_get |]. intros abr _.
    eapply run_bind; [now apply run_setitem |]. intros ? _.
    eapply run_bind; [apply run_ref_get_or |]. intros audio_ext _.
    eapply run_bind; [now apply run_setitem |]. intros ? _.
    eapply run_bind; [apply run_ref_get |]. intros audio_url _.
    eapply run_bind; [now apply run_setitem |]. intros ? _.
    eapply run_bind; [now apply run_setitem |]. intros ? _.
    apply run_append; [simpl; tauto | now right]. }
  intros ? _.
  eapply run_bind; [apply run_read_list; simpl; tauto |]. intros rs Hrs.
  eapply run_bind with (post1 := fun _ => True)
                       (L1 := fun _ => [result; audio_only; video_only; combined]).
  { destruct rs; [| apply run_ret; [exact I | apply incl_refl]].
    apply run_for_each. intros vfmt Hv.
    eapply run_bind; [apply run_copy |]. intros vfmt_copy Hc.
    eapply run_bind; [now apply run_setitem |]. intros ? _.
    apply run_append; [simpl; tauto | now right]. }
  intros ? _.
  eapply run_bind; [apply run_read_list; simpl; tauto |]. intros aus2 Haus2.
  eapply run_bind.
  { apply run_for_each. intros fmt Hf.
    eapply run_bind; [apply run_copy |]. intros fmt_copy Hc.
    eapply run_bind; [apply run_ref_get |]. intros preference _.
    eapply run_bind; [now apply run_setitem |]. intros ? _.
    apply run_append; [simpl; tauto | now right]. }
  intros ? _.
  eapply run_bind; [apply run_sort_refs_by_score; simpl; tauto |].
  intros ? _.
  eapply run_bind; [apply run_alloc_list |]. intros video_formats _.
  eapply run_bind; [apply run_read_list; simpl; tauto |]. intros rs2 Hrs2.
  eapply run_bind.
  { apply (run_fold_each _ _ _ _ (fun s => forall b, snd s = Some b -> ok b)).
    - simpl. discriminate.
    - intros s x Hs Hx. apply run_dedup_turn; [simpl; tauto | auto | exact Hs]. }
  intros [seen best] Hbest. simpl in Hbest.
  assert (Hdone : run [video_formats; result; audio_only; video_only; combined]
                    (mret video_formats) (fun _ => True) (fun out => [out])).
  { apply run_ret; [exact I |]. intros x [<- | []]. now left. }
  destruct best as [best_audio |]; [| exact Hdone].
  eapply run_bind; [apply run_read_dict |]. intros b _.
  destruct (truthy (VDict b)); [| exact Hdone].
  eapply run_bind; [apply run_append; [simpl; tauto | now apply Hbest] |].
  intros ? _. exact Hdone.
Qed.

End StoreFrame.

(** The run on references and the function on values give the same
    entries on the scenario of one video-only and one audio-only
    format. *)
Lemma merge_video_audio_formats_refs_scenario :
  fst <$> (out ← merge_video_audio_formats_refs 3%positive;
           outs ← read_list out;
           read_dicts outs) scenario_store
  = merge_video_audio_formats [scenario_video; scenario_audio].
Proof. reflexivity. Qed.

(** C10.  The reconciler does not modify its input.  After a run on a
    reference [formats] to a list object, every object of the store of the call (the
    input list, each format dict in it, and any other object) is in the
    final store with the same content.  The list that comes back is a
    new object, and each of its entries is an item of the input list or
    an object that the run allocated: a merged entry, a fallback entry
    and a penalized audio entry is a copy, no input dict is written
    to. *)
Theorem merge_video_audio_formats_refs_frame formats ins h out h' :
  h !! formats = Some (OList ins) ->
  merge_video_audio_formats_refs formats h = Ok (out, h') ->
  (forall l o, h !! l = Some o -> h' !! l = Some o) /\
  h !! out = None /\
  exists outs,
    h' !! out = Some (OList outs) /\
    forall x, In x outs -> In x ins \/ h !! x = None.
Proof.
  intros Hins H.
  assert (Hinv : run_inv h ins [] h).
  { split; [auto |]. intros l []. }
  destruct (run_merge_video_audio_formats_refs h ins formats Hins _ _ _ Hinv H)
    as [_ [Hf Hl]].
  destruct (Hl out (or_introl eq_refl)) as (Hn & outs & Ho & Hok).
  split; [exact Hf |]. split; [exact Hn |].
  exists outs. split; [exact Ho | exact Hok].
Qed.

(** ** Further properties of the reconciler *)

Lemma insert_desc_sorted {A} (f : A -> Z) x l :
  StronglySorted (fun a b => f b <= f a) l ->
  StronglySorted (fun a b => f b <= f a) (insert_desc (fun a b => f a <? f b) x l).
Proof.
  induction 1 as [|a l Hs IH Ha]; simpl.
  - constructor; constructor.
  - destruct (f x <? f a) eqn:E.
    + apply Z.ltb_lt in E. constructor; [exact IH |].
      apply Forall_forall. intros b Hb. apply list_elem_of_In in Hb.
      apply insert_desc_In in Hb as [-> | Hb]; [lia |].
      rewrite Forall_forall in Ha. apply Ha. now apply list_elem_of_In.
    + apply Z.ltb_ge in E. constructor; [now constructor |].
      constructor; [exact E |].
      eapply Forall_impl; [exact Ha |]. simpl. intros b Hb. lia.
Qed.

Lemma sort_desc_sorted {A} (f : A -> Z) l :
  StronglySorted (fun a b => f b <= f a) (sort_desc (fun a b => f a <? f b) l).
Proof.
  induction l as [|a l IH]; simpl; [constructor |].
  now apply insert_desc_sorted.
Qed.

Lemma StronglySorted_sublist {A} (R : A -> A -> Prop) k l :
  sublist k l -> StronglySorted R l -> StronglySorted R k.
Proof.
  induction 1 as [| x k l Hs IH | x k l Hs IH]; intros H.
  - constructor.
  - apply StronglySorted_inv in H as [H1 H2]. constructor; [auto |].
    rewrite Forall_forall in *. intros y Hy. apply H2.
    eapply elem_of_sublist; eauto.
  - apply StronglySorted_inv in H as [H1 H2]. auto.
Qed.

(** The video formats that the last loop keeps are taken from the list
    it reads, in the order of that list. *)
Lemma dedup_loop_sublist l : forall st st',
  dedup_loop st l = Ok st' ->
  exists kept, video_formats st' = (video_formats st ++ kept)%list /\
               sublist kept l.
Proof.
  induction l as [|a l IH]; simpl; intros st st' H.
  - injection H as <-. exists []. split; [now rewrite app_nil_r | constructor].
  - destruct (dedup_step st a) as [st1 | |] eqn:E; simpl in H; try discriminate.
    destruct (IH _ _ H) as (kept & Ek & Hs).
    destruct (dedup_step_video _ _ _ E) as [[E1 _] | (E1 & _)];
      rewrite E1 in Ek.
    + exists kept. split; [exact Ek | now constructor].
    + exists (a :: kept). rewrite <- app_assoc in Ek.
      split; [exact Ek | now constructor].
Qed.

(** The audio-only format that the last loop keeps is the first one of
    the list it reads. *)
Lemma dedup_loop_first_audio l : forall st st' b,
  dedup_loop st l = Ok st' ->
  best_audio st = None -> best_audio st' = Some b ->
  exists l1 l2, l = (l1 ++ b :: l2)%list /\
    has_video b = false /\ has_audio b = true /\
    forall x, In x l1 -> has_video x = true \/ has_audio x = false.
Proof.
  induction l as [|a l IH]; simpl; intros st st' b H Hn Hb.
  - injection H as <-. congruence.
  - destruct (dedup_step st a) as [st1 | |] eqn:E; simpl in H; try discriminate.
    destruct (dedup_step_best _ _ _ E) as [E1 | (_ & E1 & Hv & Ha)].
    + rewrite Hn in E1.
      destruct (IH _ _ _ H E1 Hb) as (l1 & l2 & -> & Hv & Ha & Hl1).
      exists (a :: l1), l2. split; [reflexivity |]. split; [exact Hv |].
      split; [exact Ha |]. intros x [<- | Hx]; [| auto].
      revert E E1. unfold dedup_step.
      rewrite loop_has_v, truthy_py_or, loop_has_a.
      destruct (has_video a); [now left |].
      destruct (has_audio a); [| now right]. simpl.
      rewrite Hn. rewrite bool_decide_eq_true_2 by reflexivity.
      intros [= <-]. simpl. discriminate.
    + assert (Hkeep : forall l st st', dedup_loop st l = Ok st' ->
                best_audio st = Some a -> best_audio st' = Some a).
      { clear. induction l as [|x l IH]; simpl; intros st st' H Hs.
        - now injection H as <-.
        - destruct (dedup_step st x) as [st1 | |] eqn:E; simpl in H;
            try discriminate.
          apply (IH _ _ H).
          destruct (dedup_step_best _ _ _ E) as [E1 | (E0 & _)]; congruence. }
      rewrite (Hkeep _ _ _ H E1) in Hb. injection Hb as <-.
      exists [], l. split; [reflexivity |]. split; [exact Hv |].
      split; [exact Ha |]. intros x [].
Qed.

Lemma dedup_loop_length l : forall st st',
  dedup_loop st l = Ok st' ->
  (length (video_formats st') + match best_audio st' with Some _ => 1 | None => 0 end
   <= length (video_formats st) + match best_audio st with Some _ => 1 | None => 0 end + length l)%nat.
Proof.
  induction l as [|a l IH]; simpl; intros st st' H.
  - injection H as <-. lia.
  - destruct (dedup_step st a) as [st1 | |] eqn:E; simpl in H; try discriminate.
    specialize (IH _ _ H).
    destruct (dedup_step_video _ _ _ E) as [[E1 _] | (E1 & Hv & _)];
      destruct (dedup_step_best _ _ _ E) as [E2 | (E0 & E2 & Hv' & _)];
      try congruence; rewrite E1, E2 in IH; rewrite ?E0;
      rewrite ?length_app in IH; simpl in IH; lia.
Qed.

(** The list that the last loop reads, case by case. *)
Lemma merge_video_audio_formats_cases formats out :
  merge_video_audio_formats formats = Ok out ->
  exists audio result st,
    (((List.filter (in_bucket VideoOnly) formats = [] \/
       List.filter (in_bucket AudioOnly) formats = []) /\
      audio = List.filter (in_bucket AudioOnly) formats /\
      result = (match List.filter (in_bucket Combined) formats with
                | [] => map video_only_entry
                          (List.filter (in_bucket VideoOnly) formats)
                | _ => List.filter (in_bucket Combined) formats
                end ++ map audio_entry audio)%list)
     \/
     (exists best rest,
        List.filter (in_bucket VideoOnly) formats <> [] /\
        sort_by_key_desc audio_key (List.filter (in_bucket AudioOnly) formats)
          = Ok (best :: rest) /\
        audio = best :: rest /\
        result = ((List.filter (in_bucket Combined) formats ++
                   map (merge_entry best)
                     (List.filter (in_bucket VideoOnly) formats)) ++
                  map audio_entry audio)%list)) /\
    dedup_loop dedup_start
      (sort_desc (fun x y => get_format_quality_score x <? get_format_quality_score y)
                 result) = Ok st /\
    out = (video_formats st ++
           match best_audio st with
           | Some b => if truthy (VDict b) then [b] else []
           | None => []
           end)%list.
Proof.
  unfold merge_video_audio_formats.
  set (combined := List.filter (in_bucket Combined) formats).
  set (video_only := List.filter (in_bucket VideoOnly) formats).
  assert (Haudio : forall e, In e (List.filter (in_bucket AudioOnly) formats) ->
            truthy (VDict e) = true).
  { intros e He. apply filter_bucket_In in He as [_ He].
    apply classify_AudioOnly in He as (_ & _ & Hu).
    eapply truthy_get_dict; eauto. }
  set (audio_only := List.filter (in_bucket AudioOnly) formats) in *.
  clearbody combined video_only audio_only.
  intros H.
  assert (Hend : forall result,
    (st ← dedup_loop dedup_start
           (sort_desc (fun x y => get_format_quality_score x
                                  <? get_format_quality_score y) result);
     match best_audio st with
     | Some b => if truthy (VDict b) then Ok (video_formats st ++ [b])%list
                 else Ok (video_formats st)
     | None => Ok (video_formats st)
     end) = Ok out ->
    exists st,
      dedup_loop dedup_start
        (sort_desc (fun x y => get_format_quality_score x
                               <? get_format_quality_score y) result) = Ok st /\
      out = (video_formats st ++
             match best_audio st with
             | Some b => if truthy (VDict b) then [b] else []
             | None => []
             end)%list).
  { intros result H'.
    destruct (dedup_loop dedup_start _) as [st | |] eqn:Hloop; try discriminate.
    simpl in H'. exists st. split; [reflexivity |].
    destruct (best_audio st) as [b |].
    - change (negb (bool_decide (b = ∅))) with (truthy (VDict b)) in H'.
      destruct (truthy (VDict b)); injection H' as <-; [reflexivity |].
      now rewrite app_nil_r.
    - injection H' as <-. now rewrite app_nil_r. }
  destruct video_only as [|v0 vs] eqn:Ev.
  { simpl in H. destruct (Hend _ H) as (st & Hl & Ho).
    eexists audio_only, _, st. split; [left; split; [now left | split; reflexivity] |].
    split; [exact Hl | exact Ho]. }
  destruct audio_only as [|a0 as0] eqn:Ea.
  { simpl in H. destruct (Hend _ H) as (st & Hl & Ho).
    eexists [], _, st. split; [left; split; [now right | split; reflexivity] |].
    split; [exact Hl | exact Ho]. }
  destruct (sort_by_key_desc audio_key (a0 :: as0)) as [sorted | e |] eqn:Es;
    simpl in H; try discriminate.
  pose proof (sort_by_key_desc_length _ _ _ Es) as Hlen.
  destruct sorted as [|best rest]; [discriminate |].
  assert (Htruthy : truthy (VDict best) = true).
  { apply Haudio. apply (proj1 (sort_by_key_desc_In _ _ _ best Es)). now left. }
  simpl in Htruthy. rewrite Htruthy in H. simpl in H.
  assert (Hres : match (combined ++ map (merge_entry best) (v0 :: vs))%list with
                 | [] => map video_only_entry (v0 :: vs)
                 | _ => (combined ++ map (merge_entry best) (v0 :: vs))%list
                 end = (combined ++ map (merge_entry best) (v0 :: vs))%list).
  { destruct (combined ++ map (merge_entry best) (v0 :: vs))%list eqn:Er;
      [| reflexivity].
    apply app_eq_nil in Er as [_ Er]. discriminate. }
  simpl in Hres. rewrite Hres in H.
  destruct (Hend _ H) as (st & Hl & Ho).
  eexists (best :: rest), _, st. split; [| split; [exact Hl | exact Ho]].
  right. exists best, rest. split; [discriminate |]. split; [reflexivity |].
  split; reflexivity.
Qed.

Lemma classify_usable f :
  classify f <> Skipped ->
  truthy (get f "url") = true /\
  eq_str (get f "ext") "mhtml" = false /\
  eq_str (get f "vcodec") "images" = false.
Proof.
  unfold classify. destruct (truthy (get f "url")); simpl; [| congruence].
  destruct (eq_str (get f "ext") "mhtml"); simpl; [congruence |].
  destruct (eq_str (get f "vcodec") "images"); simpl; [congruence |].
  auto.
Qed.

Lemma get_lookup (d e : pydict) k : e !! k = d !! k -> get e k = get d k.
Proof. unfold get. now intros ->. Qed.

Lemma merge_entry_lookup best v k :
  ~ In k reconciler_keys -> merge_entry best v !! k = v !! k.
Proof.
  intros Hk. unfold merge_entry.
  rewrite !lookup_insert_ne; [reflexivity | | | | |];
    intros <-; apply Hk; simpl; tauto.
Qed.

Lemma video_only_entry_lookup v k :
  ~ In k reconciler_keys -> video_only_entry v !! k = v !! k.
Proof.
  intros Hk. unfold video_only_entry.
  rewrite lookup_insert_ne; [reflexivity |].
  intros <-; apply Hk; simpl; tauto.
Qed.

Lemma audio_entry_lookup a k :
  ~ In k reconciler_keys -> audio_entry a !! k = a !! k.
Proof.
  intros Hk. unfold audio_entry.
  rewrite lookup_insert_ne; [reflexivity |].
  intros <-; apply Hk; simpl; tauto.
Qed.

Lemma not_reconciler_key k :
  k = "url" \/ k = "ext" \/ k = "vcodec" \/ k = "height" ->
  ~ In k reconciler_keys.
Proof.
  intros [-> | [-> | [-> | ->]]]; simpl;
    intros H; repeat (destruct H as [H | H]; [discriminate |]); exact H.
Qed.

(** Where a returned entry comes from. *)
Lemma merge_entries_origin formats out e :
  merge_video_audio_formats formats = Ok out -> In e out ->
  exists f, In f formats /\ classify f <> Skipped /\
    (forall k, ~ In k reconciler_keys -> e !! k = f !! k) /\
    truthy (get e "url") = true /\
    eq_str (get e "ext") "mhtml" = false /\
    eq_str (get e "vcodec") "images" = false.
Proof.
  intros H He.
  destruct (merge_video_audio_formats_out _ _ H)
    as (result & st & Hres & Hvf & _ & Hout).
  assert (Hin : In e result).
  { destruct Hout as [-> | (b & -> & Hb & _)]; [now apply Hvf |].
    apply in_app_or in He as [He | [<- | []]]; [now apply Hvf | exact Hb]. }
  assert (Hgoal : exists f, In f formats /\ classify f <> Skipped /\
            (forall k, ~ In k reconciler_keys -> e !! k = f !! k)).
  { destruct (Hres e Hin)
      as [[Hf Hc] | [(best & v & -> & _ & _ & Hv & Hc)
                    | [(v & -> & Hv & Hc & _) | (a & -> & Ha & Hc)]]].
    - exists e. split; [exact Hf |]. split; [congruence | reflexivity].
    - exists v. split; [exact Hv |]. split; [congruence |].
      intros k Hk. now apply merge_entry_lookup.
    - exists v. split; [exact Hv |]. split; [congruence |].
      intros k Hk. now apply video_only_entry_lookup.
    - exists a. split; [exact Ha |]. split; [congruence |].
      intros k Hk. now apply audio_entry_lookup. }
  destruct Hgoal as (f & Hf & Hc & Hk). exists f.
  split; [exact Hf |]. split; [exact Hc |]. split; [exact Hk |].
  destruct (classify_usable f Hc) as (H1 & H2 & H3).
  rewrite (get_lookup f e "url"), (get_lookup f e "ext"),
    (get_lookup f e "vcodec");
    try (apply Hk, not_reconciler_key; tauto).
  auto.
Qed.

(** X1.  Every entry of the list that the reconciler returns is one of
    the input formats that has a URL and is no storyboard ([mhtml],
    [images]), with at most the seven keys of [reconciler_keys] written
    over it: every other key has the value it has in that input format,
    so the entry has a URL and is no storyboard either. *)
Theorem merge_entries_from_input formats out e :
  merge_video_audio_formats formats = Ok out -> In e out ->
  exists f, In f formats /\ classify f <> Skipped /\
    (forall k, ~ In k reconciler_keys -> e !! k = f !! k) /\
    truthy (get e "url") = true /\
    eq_str (get e "ext") "mhtml" = false /\
    eq_str (get e "vcodec") "images" = false.
Proof. exact (merge_entries_origin formats out e). Qed.

Lemma dedup_loop_best_stays l : forall st st',
  dedup_loop st l = Ok st' -> best_audio st <> None -> best_audio st' <> None.
Proof.
  induction l as [|x l IH]; simpl; intros st st' H Hs.
  - now injection H as <-.
  - destruct (dedup_step st x) as [st1 | |] eqn:E; simpl in H;
      try discriminate.
    apply (IH _ _ H).
    destruct (dedup_step_best _ _ _ E) as [E1 | (E0 & E1 & _)]; congruence.
Qed.

Lemma dedup_loop_finds_audio l : forall st st',
  dedup_loop st l = Ok st' ->
  (exists x, In x l /\ has_video x = false /\ has_audio x = true) ->
  best_audio st' <> None.
Proof.
  induction l as [|a l IH]; simpl; intros st st' H (x & Hx & Hv & Ha).
  - destruct Hx.
  - destruct (dedup_step st a) as [st1 | |] eqn:E; simpl in H; try discriminate.
    destruct Hx as [<- | Hx].
    + apply (dedup_loop_best_stays _ _ _ H). revert E. unfold dedup_step.
      rewrite loop_has_v, truthy_py_or, loop_has_a, Hv, Ha. simpl.
      case_bool_decide as Hb; simpl; intros [= <-]; simpl; congruence.
    + apply (IH _ _ H). eauto.
Qed.

Lemma has_audio_audio_entry a : has_audio (audio_entry a) = has_audio a.
Proof. unfold audio_entry. now rewrite has_audio_insert. Qed.

Lemma has_video_merge_entry best v : has_video (merge_entry best v) = has_video v.
Proof. unfold merge_entry. now rewrite !has_video_insert. Qed.

Lemma has_video_video_only_entry v :
  has_video (video_only_entry v) = has_video v.
Proof. unfold video_only_entry. now rewrite has_video_insert. Qed.

Lemma merge_cases_audio formats audio result :
  (((List.filter (in_bucket VideoOnly) formats = [] \/
       List.filter (in_bucket AudioOnly) formats = []) /\
      audio = List.filter (in_bucket AudioOnly) formats /\
      result = (match List.filter (in_bucket Combined) formats with
                | [] => map video_only_entry
                          (List.filter (in_bucket VideoOnly) formats)
                | _ => List.filter (in_bucket Combined) formats
                end ++ map audio_entry audio)%list)
     \/
     (exists best rest,
        List.filter (in_bucket VideoOnly) formats <> [] /\
        sort_by_key_desc audio_key (List.filter (in_bucket AudioOnly) formats)
          = Ok (best :: rest) /\
        audio = best :: rest /\
        result = ((List.filter (in_bucket Combined) formats ++
                   map (merge_entry best)
                     (List.filter (in_bucket VideoOnly) formats)) ++
                  map audio_entry audio)%list)) ->
  forall a, In a formats -> classify a = AudioOnly -> In (audio_entry a) result.
Proof.
  intros Hc a Ha Hca.
  assert (Hao : In a (List.filter (in_bucket AudioOnly) formats))
    by now apply filter_bucket_In.
  destruct Hc as [(_ & -> & ->) | (best & rest & _ & Es & -> & ->)];
    apply in_or_app; right; apply in_map; [exact Hao |].
  now apply (sort_by_key_desc_In _ _ _ a Es).
Qed.

(** X2.  The returned list is a run of entries with video followed by
    at most one audio-only entry.  There is none when the input has no
    audio-only format; otherwise it is the copy, with its preference
    lowered by 50, of an audio-only input format whose copy has the
    highest quality score among the copies of the audio-only formats. *)
Theorem merge_one_audio_entry_last formats out :
  merge_video_audio_formats formats = Ok out ->
  exists videos tail,
    out = (videos ++ tail)%list /\
    (forall v, In v videos -> has_video v = true) /\
    ((tail = [] /\ forall a, In a formats -> classify a <> AudioOnly) \/
     exists a, tail = [audio_entry a] /\ In a formats /\
       classify a = AudioOnly /\
       forall a', In a' formats -> classify a' = AudioOnly ->
         get_format_quality_score (audio_entry a')
         <= get_format_quality_score (audio_entry a)).
Proof.
  intros H.
  destruct (merge_video_audio_formats_cases _ _ H)
    as (audio & result & st & Hc & Hloop & ->).
  assert (Hres : forall b, In b result -> has_video b = false ->
            exists a, b = audio_entry a /\ In a formats /\ classify a = AudioOnly).
  { intros b Hb Hv.
    destruct Hc as [(_ & -> & ->) | (best & rest & _ & Es & -> & ->)].
    - apply in_app_or in Hb as [Hb | Hb].
      + destruct (List.filter (in_bucket Combined) formats) eqn:Ec.
        * apply in_map_iff in Hb as (v & <- & Hb).
          apply filter_bucket_In in Hb as [_ Hb].
          rewrite has_video_video_only_entry in Hv.
          apply classify_VideoOnly in Hb as [Hb _]. congruence.
        * rewrite <- Ec in Hb. apply filter_bucket_In in Hb as [_ Hb].
          apply classify_Combined in Hb as [Hb _]. congruence.
      + apply in_map_iff in Hb as (a & <- & Hb).
        apply filter_bucket_In in Hb as [Hb1 Hb2]. eauto.
    - apply in_app_or in Hb as [Hb | Hb]; [apply in_app_or in Hb as [Hb | Hb] |].
      + apply filter_bucket_In in Hb as [_ Hb].
        apply classify_Combined in Hb as [Hb _]. congruence.
      + apply in_map_iff in Hb as (v & <- & Hb).
        apply filter_bucket_In in Hb as [_ Hb].
        rewrite has_video_merge_entry in Hv.
        apply classify_VideoOnly in Hb as [Hb _]. congruence.
      + apply in_map_iff in Hb as (a & <- & Hb).
        apply (sort_by_key_desc_In _ _ _ a Es) in Hb.
        apply filter_bucket_In in Hb as [Hb1 Hb2]. eauto. }
  exists (video_formats st). eexists. split; [reflexivity |]. split.
  - intros v Hv.
    destruct (dedup_loop_video _ _ _ Hloop v Hv) as [[] | (_ & Hvv & _)].
    exact Hvv.
  - destruct (best_audio st) as [b |] eqn:Eb.
    + right.
      destruct (dedup_loop_first_audio _ _ _ _ Hloop eq_refl Eb)
        as (l1 & l2 & El & Hv & Ha & Hl1).
      assert (Hb : In b result).
      { apply (sort_desc_In (fun x y => get_format_quality_score x
                                         <? get_format_quality_score y)).
        rewrite El. apply in_or_app. right. now left. }
      destruct (Hres b Hb Hv) as (a & -> & Hina & Hca).
      exists a. split; [| split; [exact Hina | split; [exact Hca |]]].
      * assert (Ht : truthy (VDict (audio_entry a)) = true).
        { apply (truthy_get_dict _ "url").
          rewrite (get_lookup a) by
            (apply audio_entry_lookup, not_reconciler_key; tauto).
          now apply classify_AudioOnly in Hca as (_ & _ & ?). }
        now rewrite Ht.
      * intros a' Hina' Hca'.
        pose proof (merge_cases_audio _ _ _ Hc a' Hina' Hca') as Hin'.
        apply (sort_desc_In (fun x y => get_format_quality_score x
                                         <? get_format_quality_score y)) in Hin'.
        pose proof (sort_desc_sorted get_format_quality_score result) as Hs.
        rewrite El in Hin', Hs.
        apply in_app_or in Hin' as [Hin' | [<- | Hin']].
        -- destruct (Hl1 _ Hin') as [Hx | Hx].
           ++ rewrite has_video_audio_entry in Hx.
              apply classify_AudioOnly in Hca' as (? & _). congruence.
           ++ rewrite has_audio_audio_entry in Hx.
              apply classify_AudioOnly in Hca' as (_ & ? & _). congruence.
        -- lia.
        -- apply (StronglySorted_sublist _ (audio_entry a :: l2)) in Hs;
             [| now apply sublist_inserts_l].
           apply StronglySorted_inv in Hs as [_ Hs].
           rewrite Forall_forall in Hs. apply Hs. now apply list_elem_of_In.
    + left. split; [reflexivity |]. intros a Hina Hca.
      apply (dedup_loop_finds_audio _ _ _ Hloop); [| exact Eb].
      exists (audio_entry a). split.
      * apply sort_desc_In. eapply merge_cases_audio; eauto.
      * rewrite has_video_audio_entry, has_audio_audio_entry.
        now apply classify_AudioOnly in Hca as (? & ? & _).
Qed.


(** X3.  The entries with video of the returned list are in
    non-increasing order of [get_format_quality_score]. *)
Theorem merge_videos_best_first formats out :
  merge_video_audio_formats formats = Ok out ->
  StronglySorted
    (fun x y => get_format_quality_score y <= get_format_quality_score x)
    (List.filter has_video out).
Proof.
  intros H.
  destruct (merge_video_audio_formats_cases _ _ H)
    as (audio & result & st & _ & Hloop & ->).
  destruct (dedup_loop_sublist _ _ _ Hloop) as (kept & Ek & Hs).
  simpl in Ek. subst kept.
  assert (Hv : forall v, In v (video_formats st) -> has_video v = true).
  { intros v Hv.
    destruct (dedup_loop_video _ _ _ Hloop v Hv) as [[] | (_ & Hvv & _)].
    exact Hvv. }
  assert (Ef : List.filter has_video
                 (video_formats st ++
                  match best_audio st with
                  | Some b => if truthy (VDict b) then [b] else []
                  | None => []
                  end)%list = video_formats st).
  { rewrite List.filter_app.
    assert (E1 : List.filter has_video (video_formats st) = video_formats st).
    { revert Hv. generalize (video_formats st) as l.
      induction l as [|x l IH]; simpl; intros Hv; [reflexivity |].
      rewrite (Hv x) by now left. f_equal. apply IH. intros v Hin.
      apply Hv. now right. }
    rewrite E1.
    destruct (best_audio st) as [b |] eqn:Eb; [| apply app_nil_r].
    destruct (dedup_loop_best _ _ _ Hloop b Eb) as [Hn | (_ & Hvb & _)];
      [discriminate |].
    destruct (truthy (VDict b)); simpl; [| apply app_nil_r].
    rewrite Hvb. apply app_nil_r. }
  rewrite Ef.
  eapply StronglySorted_sublist; [exact Hs |].
  apply (sort_desc_sorted get_format_quality_score).
Qed.

Lemma StronglySorted_head {A} (R : A -> A -> Prop) a l x :
  StronglySorted R (a :: l) -> In x l -> R a x.
Proof.
  intros H Hx. apply StronglySorted_inv in H as [_ H].
  rewrite Forall_forall in H. apply H. now apply list_elem_of_In.
Qed.

(** The first item after the sort of the audio formats has the largest
    key, when the keys are numbers. *)
Lemma sort_by_key_desc_head {A} (key : A -> pyval) l best rest :
  sort_by_key_desc key l = Ok (best :: rest) ->
  (forall x, In x l -> is_num_key (key x) = true) ->
  forall x, In x l -> key_num (key x) <= key_num (key best).
Proof.
  intros Es Hnum x Hx.
  apply (sort_by_key_desc_In _ _ _ x Es) in Hx.
  unfold sort_by_key_desc in Es. destruct l as [|a [|b l]].
  - discriminate.
  - injection Es as <- <-. destruct Hx as [<- | []]. lia.
  - assert (Hall : forallb (fun x => is_num_key (key x)) (a :: b :: l) = true).
    { apply forallb_forall. exact Hnum. }
    rewrite Hall in Es.
    assert (Es' : sort_desc (fun x y => key_num (key x) <? key_num (key y))
                    (a :: b :: l) = best :: rest)
      by (injection Es; intros E; exact E).
    pose proof (sort_desc_sorted (fun x => key_num (key x)) (a :: b :: l)) as Hs.
    cbv beta in Hs. rewrite Es' in Hs. destruct Hx as [<- | Hx]; [lia |].
    apply (StronglySorted_head _ _ _ _ Hs Hx).
Qed.

(** X4.  When the input has a video-only and an audio-only format and
    the sort keys of the audio-only formats ([abr], else [tbr], else 0)
    are numbers, there is one audio-only format with the largest key
    such that every returned entry with video is a combined format of
    the input or a video-only format merged with that audio format,
    carrying its URL in [_audio_url] and the flag [_needs_merge]. *)
Theorem merge_pairs_with_best_audio formats out :
  merge_video_audio_formats formats = Ok out ->
  (forall a, In a formats -> classify a = AudioOnly ->
     is_num_key (audio_key a) = true) ->
  (exists v, In v formats /\ classify v = VideoOnly) ->
  (exists a, In a formats /\ classify a = AudioOnly) ->
  exists best, In best formats /\ classify best = AudioOnly /\
    (forall a, In a formats -> classify a = AudioOnly ->
       key_num (audio_key a) <= key_num (audio_key best)) /\
    forall e, In e out -> has_video e = true ->
      (In e formats /\ classify e = Combined) \/
      (exists v, In v formats /\ classify v = VideoOnly /\
                 e = merge_entry best v /\
                 get e "_audio_url" = get best "url" /\
                 get e "_needs_merge" = VBool true).
Proof.
  intros H Hnum (v0 & Hv0 & Hcv0) (a0 & Ha0 & Hca0).
  destruct (merge_video_audio_formats_cases _ _ H)
    as (audio & result & st & Hc & Hloop & ->).
  pose proof (proj2 (filter_bucket_In VideoOnly formats v0) (conj Hv0 Hcv0))
    as Hv0'.
  pose proof (proj2 (filter_bucket_In AudioOnly formats a0) (conj Ha0 Hca0))
    as Ha0'.
  destruct Hc as [([E | E] & _) | (best & rest & _ & Es & -> & ->)];
    [rewrite E in Hv0'; destruct Hv0' | rewrite E in Ha0'; destruct Ha0' |].
  assert (Hbest : In best formats /\ classify best = AudioOnly).
  { apply filter_bucket_In. apply (sort_by_key_desc_In _ _ _ best Es). now left. }
  exists best. split; [tauto |]. split; [tauto |]. split.
  - intros a Ha Hca. apply (sort_by_key_desc_head _ _ _ _ Es).
    + intros x Hx. apply filter_bucket_In in Hx as [Hx1 Hx2]. auto.
    + now apply filter_bucket_In.
  - intros e He Hv.
    assert (Hin : In e (video_formats st)).
    { apply in_app_or in He as [He | He]; [exact He |].
      destruct (best_audio st) as [b |] eqn:Eb; [| destruct He].
      destruct (dedup_loop_best _ _ _ Hloop b Eb) as [Hn | (_ & Hvb & _)];
        [discriminate |].
      destruct (truthy (VDict b)); [| destruct He].
      destruct He as [<- | []]. congruence. }
    destruct (dedup_loop_video _ _ _ Hloop e Hin) as [[] | (Hr & _)].
    apply sort_desc_In in Hr.
    apply in_app_or in Hr as [Hr | Hr]; [apply in_app_or in Hr as [Hr | Hr] |].
    + left. now apply filter_bucket_In.
    + right. apply in_map_iff in Hr as (v & <- & Hr).
      apply filter_bucket_In in Hr as [Hr1 Hr2].
      exists v. split; [exact Hr1 |]. split; [exact Hr2 |].
      split; [reflexivity |]. unfold merge_entry. split.
      * rewrite get_insert_ne by discriminate. apply get_insert_eq.
      * apply get_insert_eq.
    + apply in_map_iff in Hr as (a & <- & Hr).
      apply (sort_by_key_desc_In _ _ _ a Es) in Hr.
      apply filter_bucket_In in Hr as [_ Hr].
      rewrite has_video_audio_entry in Hv.
      apply classify_AudioOnly in Hr as (? & _). congruence.
Qed.

Lemma filter_buckets_length formats :
  (length (List.filter (in_bucket Combined) formats) +
   length (List.filter (in_bucket VideoOnly) formats) +
   length (List.filter (in_bucket AudioOnly) formats) <= length formats)%nat.
Proof.
  induction formats as [|f l IH]; simpl; [lia |].
  replace (in_bucket Combined f) with (bucket_eqb (classify f) Combined)
    by reflexivity.
  replace (in_bucket VideoOnly f) with (bucket_eqb (classify f) VideoOnly)
    by reflexivity.
  replace (in_bucket AudioOnly f) with (bucket_eqb (classify f) AudioOnly)
    by reflexivity.
  destruct (classify f); simpl; lia.
Qed.

(** X5.  The reconciler never returns more entries than the input
    has formats. *)
Theorem merge_length formats out :
  merge_video_audio_formats formats = Ok out ->
  (length out <= length formats)%nat.
Proof.
  intros H.
  destruct (merge_video_audio_formats_cases _ _ H)
    as (audio & result & st & Hc & Hloop & ->).
  pose proof (dedup_loop_length _ _ _ Hloop) as Hlen.
  rewrite length_sort_desc in Hlen. simpl in Hlen.
  pose proof (filter_buckets_length formats) as Hb.
  assert (Hr : (length result <= length formats)%nat).
  { destruct Hc as [([E | E] & -> & ->) | (best & rest & _ & Es & -> & ->)].
    - rewrite E in *. rewrite length_app, length_map.
      destruct (List.filter (in_bucket Combined) formats); simpl in *; lia.
    - rewrite E in *. rewrite length_app. simpl.
      destruct (List.filter (in_bucket Combined) formats);
        simpl in *; rewrite ?length_map; lia.
    - apply sort_by_key_desc_length in Es.
      rewrite !length_app, !length_map, Es. lia. }
  rewrite length_app.
  destruct (best_audio st) as [b |]; [destruct (truthy (VDict b)) |];
    simpl; lia.
Qed.

(** ** Further properties of the classifier and of direct downloads *)

(** The chain of tests of [get_file_category] on a lowercase text. *)
Lemma category_of_set (A : gset string) (name : string) :
  (forall e, e ∈ A -> get_file_category e = name /\ py_lower e = e) ->
  forall ext, py_lower ext ∈ A -> get_file_category ext = name.
Proof.
  intros HA ext H. rewrite <- get_file_category_lower. now apply HA.
Qed.

Ltac category_by_cases H :=
  apply elem_of_list_to_set in H;
  repeat (apply elem_of_cons in H as [-> | H];
          [split; vm_compute; reflexivity |]);
  inversion H.

Lemma archive_category e :
  e ∈ ARCHIVE_EXTENSIONS -> get_file_category e = "archive" /\ py_lower e = e.
Proof. intros H. unfold ARCHIVE_EXTENSIONS in H. category_by_cases H. Qed.

Lemma executable_category e :
  e ∈ EXECUTABLE_EXTENSIONS ->
  get_file_category e = "executable" /\ py_lower e = e.
Proof. intros H. unfold EXECUTABLE_EXTENSIONS in H. category_by_cases H. Qed.

Lemma document_category e :
  e ∈ DOCUMENT_EXTENSIONS -> get_file_category e = "document" /\ py_lower e = e.
Proof. intros H. unfold DOCUMENT_EXTENSIONS in H. category_by_cases H. Qed.

Lemma image_category e :
  e ∈ IMAGE_EXTENSIONS -> get_file_category e = "image" /\ py_lower e = e.
Proof. intros H. unfold IMAGE_EXTENSIONS in H. category_by_cases H. Qed.

Lemma audio_category e :
  e ∈ AUDIO_EXTENSIONS -> get_file_category e = "audio" /\ py_lower e = e.
Proof. intros H. unfold AUDIO_EXTENSIONS in H. category_by_cases H. Qed.

Lemma video_category e :
  e ∈ VIDEO_EXTENSIONS -> get_file_category e = "video" /\ py_lower e = e.
Proof. intros H. unfold VIDEO_EXTENSIONS in H. category_by_cases H. Qed.

Lemma font_category e :
  e ∈ FONT_EXTENSIONS -> get_file_category e = "font" /\ py_lower e = e.
Proof. intros H. unfold FONT_EXTENSIONS in H. category_by_cases H. Qed.

Lemma code_category e :
  e ∈ CODE_EXTENSIONS -> get_file_category e = "code" /\ py_lower e = e.
Proof. intros H. unfold CODE_EXTENSIONS in H. category_by_cases H. Qed.

Lemma get_file_category_inv ext :
  (get_file_category ext = "archive" -> py_lower ext ∈ ARCHIVE_EXTENSIONS) /\
  (get_file_category ext = "executable" -> py_lower ext ∈ EXECUTABLE_EXTENSIONS) /\
  (get_file_category ext = "document" -> py_lower ext ∈ DOCUMENT_EXTENSIONS) /\
  (get_file_category ext = "image" -> py_lower ext ∈ IMAGE_EXTENSIONS) /\
  (get_file_category ext = "audio" -> py_lower ext ∈ AUDIO_EXTENSIONS) /\
  (get_file_category ext = "video" -> py_lower ext ∈ VIDEO_EXTENSIONS) /\
  (get_file_category ext = "font" -> py_lower ext ∈ FONT_EXTENSIONS) /\
  (get_file_category ext = "code" -> py_lower ext ∈ CODE_EXTENSIONS).
Proof.
  unfold get_file_category.
  generalize (py_lower ext) ARCHIVE_EXTENSIONS EXECUTABLE_EXTENSIONS
    DOCUMENT_EXTENSIONS IMAGE_EXTENSIONS AUDIO_EXTENSIONS VIDEO_EXTENSIONS
    FONT_EXTENSIONS CODE_EXTENSIONS.
  intros e A B C D E F G H.
  repeat (case_bool_decide;
          [repeat split; intros Heq; (assumption || discriminate Heq) |]).
  repeat split; discriminate.
Qed.

(** X6.  The eight extension sets do not overlap: [get_file_category]
    gives the name of a set exactly for the extensions whose lowercase
    form is in that set, whatever the order of its tests, and [file]
    exactly when the lowercase form is in none of them. *)
Theorem get_file_category_by_set ext :
  (get_file_category ext = "archive" <-> py_lower ext ∈ ARCHIVE_EXTENSIONS) /\
  (get_file_category ext = "executable" <-> py_lower ext ∈ EXECUTABLE_EXTENSIONS) /\
  (get_file_category ext = "document" <-> py_lower ext ∈ DOCUMENT_EXTENSIONS) /\
  (get_file_category ext = "image" <-> py_lower ext ∈ IMAGE_EXTENSIONS) /\
  (get_file_category ext = "audio" <-> py_lower ext ∈ AUDIO_EXTENSIONS) /\
  (get_file_category ext = "video" <-> py_lower ext ∈ VIDEO_EXTENSIONS) /\
  (get_file_category ext = "font" <-> py_lower ext ∈ FONT_EXTENSIONS) /\
  (get_file_category ext = "code" <-> py_lower ext ∈ CODE_EXTENSIONS) /\
  (get_file_category ext = "file" <-> py_lower ext ∉ ALL_DIRECT_EXTENSIONS).
Proof.
  destruct (get_file_category_inv ext)
    as (H1 & H2 & H3 & H4 & H5 & H6 & H7 & H8).
  split; [split; [exact H1 | apply category_of_set, archive_category] |].
  split; [split; [exact H2 | apply category_of_set, executable_category] |].
  split; [split; [exact H3 | apply category_of_set, document_category] |].
  split; [split; [exact H4 | apply category_of_set, image_category] |].
  split; [split; [exact H5 | apply category_of_set, audio_category] |].
  split; [split; [exact H6 | apply category_of_set, video_category] |].
  split; [split; [exact H7 | apply category_of_set, font_category] |].
  split; [split; [exact H8 | apply category_of_set, code_category] |].
  pose proof (get_file_category_file ext) as Hf. split.
  - intros E Hin. apply Hf in Hin. contradiction.
  - intros Hn. destruct (decide (get_file_category ext = "file"))
      as [E | E]; [exact E |]. apply Hf in E. contradiction.
Qed.

Lemma before_first_not_In c l : ~ In c (before_first c l).
Proof.
  induction l as [|a l IH]; simpl; [tauto |].
  destruct (Ascii.eqb_spec a c) as [-> | Hne]; simpl; [tauto |].
  intros [E | H]; [congruence | contradiction].
Qed.

Lemma py_isalnum_nonempty s : py_isalnum s = true -> s <> "".
Proof. now intros H ->. Qed.

Lemma isalnum_char_not c :
  isalnum_char c = true -> c <> "."%char /\ c <> "?"%char /\ c <> "/"%char.
Proof. intros H. repeat split; intros ->; discriminate. Qed.

Ltac lookup_inserts :=
  repeat (rewrite lookup_insert_eq || (rewrite lookup_insert_ne by discriminate));
  rewrite ?lookup_empty.

Section DirectDownloadFacts.

Variable nfkd : list N -> list N.
Variable urlparse_path : string -> result string.
Variable unquote : string -> string.
Variable basename : string -> string.
Variable has_ytdlp : bool.

#[local] Abbreviation filename_of' :=
  (extract_filename_from_url urlparse_path unquote basename).
#[local] Abbreviation extension_of' :=
  (get_extension_from_url urlparse_path unquote basename).
#[local] Abbreviation is_direct' :=
  (is_direct_download_url urlparse_path unquote basename).
#[local] Abbreviation direct_result :=
  (create_direct_download_result nfkd urlparse_path unquote basename).

(** X7.  The file name that [extract_filename_from_url] returns is
    never empty and holds no question mark. *)
Theorem extract_filename_from_url_shape url name :
  filename_of' url = Ok name ->
  name <> "" /\ has_char "?" name = false.
Proof.
  unfold extract_filename_from_url.
  destruct (urlparse_path url) as [parsed | |]; simpl; try discriminate.
  set (raw := basename (unquote parsed)).
  set (cut := if has_char "?" raw then _ else raw).
  assert (Hcut : has_char "?" cut = false).
  { subst cut. destruct (has_char "?" raw) eqn:E; [| exact E].
    apply has_char_false. rewrite list_ascii_of_string_of_list_ascii.
    apply before_first_not_In. }
  intros [= <-]. destruct (String.eqb_spec cut "") as [E | E].
  - split; [discriminate | reflexivity].
  - split; [exact E | exact Hcut].
Qed.

Lemma get_extension_from_url_inv url e :
  extension_of' url = Ok (Some e) ->
  e <> "" /\ py_lower e = e /\ py_isalnum e = true /\
  (String.length e <= 10)%nat /\
  exists name, filename_of' url = Ok name /\
               e = py_lower (after_last "." name) /\
               has_extension name (after_last "." name).
Proof.
  unfold get_extension_from_url.
  destruct (filename_of' url) as [name | |]; simpl; try discriminate.
  destruct (has_char "." name) eqn:Hdot; [| discriminate].
  destruct (Z.leb_spec (Z.of_nat (String.length (py_lower (after_last "." name)))) 10)
    as [Hl | Hl]; simpl; [| discriminate].
  destruct (py_isalnum (py_lower (after_last "." name))) eqn:Ha;
    [| discriminate].
  intros [= <-]. split; [now apply py_isalnum_nonempty |].
  split; [apply py_lower_idem |]. split; [exact Ha |]. split; [lia |].
  exists name. split; [reflexivity |]. split; [reflexivity |].
  now apply has_extension_after_last.
Qed.

Lemma sanitize_filename_200 title :
  filesystem_safe (sanitize_filename nfkd title 200) /\
  (String.length (sanitize_filename nfkd title 200) <= 200)%nat.
Proof.
  split; [apply sanitize_filename_safe |].
  destruct (sanitize_filename_length nfkd title 200) as [-> | H];
    [lia | simpl; lia | lia].
Qed.

Lemma create_direct_download_result_fields url parsed :
  urlparse_path url = Ok parsed ->
  exists r fmt name oext ext title,
    direct_result url = Ok r /\
    filename_of' url = Ok name /\
    extension_of' url = Ok oext /\
    ext = default "bin" oext /\
    r !! "direct_download" = Some (VBool true) /\
    r !! "webpage_url" = Some (VStr url) /\
    r !! "original_title" = Some (VStr name) /\
    r !! "category" = Some (VStr (get_file_category ext)) /\
    r !! "formats" = Some (VList [VDict fmt]) /\
    fmt !! "url" = Some (VStr url) /\
    fmt !! "ext" = Some (VStr ext) /\
    fmt !! "format" = Some (VStr (get_file_category ext ++ "/" ++ ext)) /\
    (fmt !! "protocol" = Some (VStr "https") \/
     fmt !! "protocol" = Some (VStr "http")) /\
    (fmt !! "video_ext" = Some (VStr ext) /\ get_file_category ext = "video" \/
     fmt !! "video_ext" = None /\ get_file_category ext <> "video") /\
    (fmt !! "audio_ext" = Some (VStr ext) /\ get_file_category ext = "audio" \/
     fmt !! "audio_ext" = None /\ get_file_category ext <> "audio") /\
    r !! "title" = Some (VStr title) /\
    r !! "id" = Some (VStr title) /\
    fmt !! "_filename" = Some (VStr title) /\
    filesystem_safe title /\ (String.length title <= 200)%nat.
Proof.
  intros H.
  pose proof (extract_filename_from_url_eq urlparse_path unquote basename _ _ H)
    as Hname.
  unfold create_direct_download_result. rewrite Hname.
  destruct (get_extension_from_url_spec _ unquote basename _ _ H)
    as (oext & Eo & _).
  rewrite Eo. simpl.
  set (name := if String.eqb _ "" then "download" else _) in *.
  assert (Hext : match oext with
                 | Some e => if String.eqb e "" then "bin" else e
                 | None => "bin"
                 end = default "bin" oext).
  { destruct oext as [e |]; [| reflexivity]. simpl.
    destruct (String.eqb_spec e "") as [-> | _]; [| reflexivity].
    apply get_extension_from_url_inv in Eo as [Eo _]. congruence. }
  rewrite Hext.
  destruct (sanitize_filename_200
              (codepoints (if has_char "." name then before_last "." name
                           else name))) as [Hsafe Hlen].
  set (title := sanitize_filename nfkd _ 200) in *.
  set (category := get_file_category (default "bin" oext)).
  assert (Ecat : get_file_category (default "bin" oext) = category)
    by reflexivity.
  clearbody category title name.
  eexists _, _, name, oext, (default "bin" oext), title.
  rewrite Ecat.
  split; [reflexivity |]. split; [reflexivity |]. split; [reflexivity |].
  split; [reflexivity |].
  do 5 (split; [lookup_inserts; reflexivity |]).
  split; [destruct (String.eqb category "video");
          [| destruct (String.eqb category "audio")];
          lookup_inserts; reflexivity |].
  split; [destruct (String.eqb category "video");
          [| destruct (String.eqb category "audio")];
          lookup_inserts; reflexivity |].
  split; [destruct (String.eqb category "video");
          [| destruct (String.eqb category "audio")];
          lookup_inserts; reflexivity |].
  split; [destruct (String.eqb category "video");
          [| destruct (String.eqb category "audio")];
          destruct (String.prefix "https" url);
          lookup_inserts; auto |].
  split.
  { destruct (String.eqb_spec category "video") as [Ev | Ev].
    - left. split; [lookup_inserts; reflexivity | exact Ev].
    - right. split; [| exact Ev].
      destruct (String.eqb category "audio"); lookup_inserts; reflexivity. }
  split.
  { destruct (String.eqb_spec category "video") as [Ev | Ev].
    - right. split; [lookup_inserts; reflexivity | congruence].
    - destruct (String.eqb_spec category "audio") as [Ea | Ea].
      + left. split; [lookup_inserts; reflexivity | exact Ea].
      + right. split; [lookup_inserts; reflexivity | exact Ea]. }
  do 2 (split; [lookup_inserts; reflexivity |]).
  split; [destruct (String.eqb category "video");
          [| destruct (String.eqb category "audio")];
          lookup_inserts; reflexivity |].
  split; assumption.
Qed.

Lemma is_direct_download_url_inv url :
  is_direct' url = Ok true ->
  exists parsed ext name,
    urlparse_path url = Ok parsed /\
    extension_of' url = Ok (Some ext) /\
    ext ∈ ALL_DIRECT_EXTENSIONS /\
    filename_of' url = Ok name.
Proof.
  unfold is_direct_download_url, mbind, result_bind.
  destruct (extension_of' url) as [[ext |] | |] eqn:Eo; intros Hd;
    [| discriminate Hd ..].
  assert (Hin : ext ∈ ALL_DIRECT_EXTENSIONS).
  { eapply bool_decide_eq_true_1. congruence. }
  clear Hd. unfold get_extension_from_url, mbind, result_bind in Eo.
  destruct (filename_of' url) as [name | |] eqn:En; [| discriminate Eo ..].
  clear Eo. unfold extract_filename_from_url, mbind, result_bind in En.
  destruct (urlparse_path url) as [parsed | |] eqn:Ep; [| discriminate En ..].
  exists parsed, ext, name. auto.
Qed.

Lemma direct_extension_category ext :
  py_lower ext = ext -> ext ∈ ALL_DIRECT_EXTENSIONS ->
  get_file_category ext <> "file".
Proof. intros El Hin. apply get_file_category_file. now rewrite El. Qed.

(** X8.  An extension that [get_extension_from_url] returns is never
    empty, is in lower case, alphanumeric and at most ten characters
    long, and it is the lowercase form of the text after the last dot
    of the file name. *)
Theorem get_extension_from_url_shape url e :
  extension_of' url = Ok (Some e) ->
  e <> "" /\ py_lower e = e /\ py_isalnum e = true /\
  (String.length e <= 10)%nat /\
  exists name, filename_of' url = Ok name /\
               e = py_lower (after_last "." name) /\
               has_extension name (after_last "." name).
Proof. exact (get_extension_from_url_inv url e). Qed.

(** X9.  For every URL that the library parses,
    [create_direct_download_result] returns a record flagged
    [direct_download] with exactly one format.  The format has the URL,
    the protocol [https] or [http], and the URL's extension, or [bin]
    when it has none; its [format] text is category/extension; it has
    [video_ext] exactly when the category is [video] and [audio_ext]
    exactly when it is [audio], with the extension as value.  The
    [title], the [id] and the [_filename] are one and the same name,
    which is filesystem-safe and at most 200 characters long. *)
Theorem create_direct_download_result_shape url parsed :
  urlparse_path url = Ok parsed ->
  exists r fmt name oext ext title,
    direct_result url = Ok r /\
    filename_of' url = Ok name /\
    extension_of' url = Ok oext /\
    ext = default "bin" oext /\
    r !! "direct_download" = Some (VBool true) /\
    r !! "webpage_url" = Some (VStr url) /\
    r !! "original_title" = Some (VStr name) /\
    r !! "category" = Some (VStr (get_file_category ext)) /\
    r !! "formats" = Some (VList [VDict fmt]) /\
    fmt !! "url" = Some (VStr url) /\
    fmt !! "ext" = Some (VStr ext) /\
    fmt !! "format" = Some (VStr (get_file_category ext ++ "/" ++ ext)) /\
    (fmt !! "protocol" = Some (VStr "https") \/
     fmt !! "protocol" = Some (VStr "http")) /\
    (fmt !! "video_ext" = Some (VStr ext) /\ get_file_category ext = "video" \/
     fmt !! "video_ext" = None /\ get_file_category ext <> "video") /\
    (fmt !! "audio_ext" = Some (VStr ext) /\ get_file_category ext = "audio" \/
     fmt !! "audio_ext" = None /\ get_file_category ext <> "audio") /\
    r !! "title" = Some (VStr title) /\
    r !! "id" = Some (VStr title) /\
    fmt !! "_filename" = Some (VStr title) /\
    filesystem_safe title /\ (String.length title <= 200)%nat.
Proof. exact (create_direct_download_result_fields url parsed). Qed.

(** What [extract_info] returns for a direct URL, whatever the
    extractor would do. *)
Lemma extract_info_direct_record url :
  is_direct' url = Ok true ->
  exists r fmt ext name,
    (forall ytdlp playlist,
       extract_info nfkd urlparse_path unquote basename ytdlp url playlist
       = Ok r) /\
    extension_of' url = Ok (Some ext) /\
    ext ∈ ALL_DIRECT_EXTENSIONS /\
    filename_of' url = Ok name /\
    r !! "direct_download" = Some (VBool true) /\
    r !! "webpage_url" = Some (VStr url) /\
    r !! "category" = Some (VStr (get_file_category ext)) /\
    get_file_category ext <> "file" /\
    r !! "original_title" = Some (VStr name) /\
    r !! "formats" = Some (VList [VDict fmt]) /\
    fmt !! "url" = Some (VStr url) /\
    fmt !! "ext" = Some (VStr ext).
Proof.
  intros Hd.
  destruct (is_direct_download_url_inv _ Hd)
    as (parsed & ext & name & Hp & He & Hin & Hn).
  destruct (create_direct_download_result_fields _ _ Hp)
    as (r & fmt & name' & oext & ext' & title & Hr & Hn' & He' & -> &
        H1 & H2 & H3 & H4 & H5 & H6 & H7 & _).
  rewrite Hn in Hn'. injection Hn' as <-.
  rewrite He in He'. injection He' as <-. simpl in *.
  exists r, fmt, ext, name.
  split; [intros ytdlp playlist; unfold extract_info; now rewrite Hd |].
  split; [exact He |]. split; [exact Hin |]. split; [exact Hn |].
  split; [exact H1 |]. split; [exact H2 |]. split; [exact H4 |].
  split; [| auto].
  apply direct_extension_category; [| exact Hin].
  now apply get_extension_from_url_inv in He as (_ & ? & _).
Qed.

(** X10.  For a direct URL, [extract_info] returns the record of
    [create_direct_download_result] whatever the extractor would answer
    and whatever the playlist flag is: the record is flagged
    [direct_download], its one format has the URL and the URL's
    extension (the fallback extension [bin] is not used), and its
    category is one of the eight, never [file]. *)
Theorem extract_info_direct url :
  is_direct' url = Ok true ->
  exists r fmt ext,
    (forall ytdlp playlist,
       extract_info nfkd urlparse_path unquote basename ytdlp url playlist
       = Ok r) /\
    extension_of' url = Ok (Some ext) /\
    r !! "direct_download" = Some (VBool true) /\
    r !! "category" = Some (VStr (get_file_category ext)) /\
    get_file_category ext <> "file" /\
    r !! "formats" = Some (VList [VDict fmt]) /\
    fmt !! "url" = Some (VStr url) /\
    fmt !! "ext" = Some (VStr ext).
Proof.
  intros Hd.
  destruct (extract_info_direct_record _ Hd)
    as (r & fmt & ext & name & H1 & H2 & _ & _ & H3 & _ & H4 & H5 & _ & H6 & H7 & H8).
  exists r, fmt, ext. auto 10.
Qed.

(** X11.  When [analyze_url] reports a URL as direct, [extract_info]
    succeeds on it and the two records agree: the same URL, the
    extension of the analysis is the [ext] of the one format, and the
    category and the file name are the same. *)
Theorem analyze_url_agrees_with_extract_info url a :
  analyze_url urlparse_path unquote basename has_ytdlp url = Ok a ->
  a !! "is_direct" = Some (VBool true) ->
  exists r fmt,
    (forall ytdlp playlist,
       extract_info nfkd urlparse_path unquote basename ytdlp url playlist
       = Ok r) /\
    r !! "formats" = Some (VList [VDict fmt]) /\
    a !! "url" = r !! "webpage_url" /\
    a !! "extension" = fmt !! "ext" /\
    a !! "category" = r !! "category" /\
    a !! "filename" = r !! "original_title".
Proof.
  intros Ha Hdir.
  assert (Hd : is_direct' url = Ok true).
  { unfold analyze_url in Ha.
    destruct (extension_of' url) as [oext | |]; simpl in Ha; try discriminate.
    destruct (filename_of' url) as [name | |]; simpl in Ha; try discriminate.
    destruct (is_direct' url) as [[|] | |]; simpl in Ha; try discriminate;
      [reflexivity |].
    injection Ha as <-. revert Hdir. lookup_inserts. discriminate. }
  destruct (extract_info_direct_record _ Hd)
    as (r & fmt & ext & name & H1 & H2 & _ & Hn & _ & H3 & H4 & _ & H5 & H6 & _ & H7).
  exists r, fmt. split; [exact H1 |]. split; [exact H6 |].
  unfold analyze_url in Ha. rewrite H2, Hn, Hd in Ha. simpl in Ha.
  injection Ha as <-. rewrite H3, H4, H5, H7.
  repeat split; lookup_inserts; reflexivity.
Qed.

End DirectDownloadFacts.

(** ** Further properties of the sanitizer *)

Lemma lstrip_suffix p l : exists l0, l = (l0 ++ lstrip p l)%list.
Proof.
  induction l as [|a l [l0 IH]]; simpl; [now exists [] |].
  destruct (p a); [| now exists []].
  exists (a :: l0). simpl. now rewrite <- IH.
Qed.

Lemma rstrip_prefix p l : exists l1, l = (rstrip p l ++ l1)%list.
Proof.
  unfold rstrip. destruct (lstrip_suffix p (rev l)) as [l0 E].
  exists (rev l0). rewrite <- rev_app_distr, <- E. now rewrite rev_involutive.
Qed.

Lemma slice_to_prefix {A} (l : list A) n : exists l1, l = (slice_to l n ++ l1)%list.
Proof.
  unfold slice_to. destruct (0 <=? n); eexists; symmetry; apply firstn_skipn.
Qed.

Lemma collapse_runs_head l : forall t,
  collapse_runs true l <> "_"%char :: t.
Proof.
  induction l as [|a l IH]; simpl; intros t; [discriminate |].
  destruct (space_or_underscore a) eqn:E; [apply IH |].
  intros [= -> _]. discriminate.
Qed.

Lemma collapse_runs_no_double l : forall b l1 l2,
  collapse_runs b l <> (l1 ++ "_" :: "_" :: l2)%list%char.
Proof.
  induction l as [|a l IH]; simpl; intros b l1 l2.
  - destruct l1; discriminate.
  - destruct (space_or_underscore a) eqn:E.
    + destruct b; [apply IH |].
      destruct l1 as [|x l1]; simpl.
      * intros [= H]. now apply collapse_runs_head in H.
      * intros [= _ H]. now apply IH in H.
    + destruct l1 as [|x l1]; simpl.
      * intros [= -> _]. discriminate.
      * intros [= _ H]. now apply IH in H.
Qed.

Lemma no_double_prefix (l k : list ascii) :
  (forall l1 l2, (k ++ l)%list <> (l1 ++ "_" :: "_" :: l2)%list)%char ->
  (forall l1 l2, k <> (l1 ++ "_" :: "_" :: l2)%list)%char.
Proof.
  intros H l1 l2 ->. apply (H l1 (l2 ++ l)%list).
  now rewrite <- app_assoc.
Qed.

Lemma no_double_suffix (l k : list ascii) :
  (forall l1 l2, (k ++ l)%list <> (l1 ++ "_" :: "_" :: l2)%list)%char ->
  (forall l1 l2, l <> (l1 ++ "_" :: "_" :: l2)%list)%char.
Proof.
  intros H l1 l2 ->. apply (H (k ++ l1)%list l2).
  now rewrite <- app_assoc.
Qed.

Lemma prefix_head {A} (k l1 : list A) c t :
  k = c :: t -> exists t', (k ++ l1)%list = c :: t'.
Proof. intros ->. now exists (t ++ l1)%list. Qed.

Lemma download_shape : clean_name_shape (list_ascii_of_string "download").
Proof.
  split; [| split; [| split]].
  - intros c Hc. simpl in Hc.
    repeat (destruct Hc as [<- | Hc]; [reflexivity |]). destruct Hc.
  - intros l1 l2 H. simpl in H.
    do 8 (destruct l1 as [|? l1]; [discriminate H |];
          simpl in H; injection H as _ H).
    destruct l1; discriminate H.
  - intros c t [= <- _]. reflexivity.
  - intros t c H. simpl in H.
    do 7 (destruct t as [|? t]; [discriminate H |];
          simpl in H; injection H as _ H).
    destruct t as [|? t]; [injection H as <-; discriminate |].
    simpl in H. injection H as _ H. destruct t; discriminate H.
Qed.

Section SanitizerShape.

Variable nfkd : list N -> list N.

Lemma sanitize_filename_clean title max_length :
  clean_name_shape
    (list_ascii_of_string (sanitize_filename nfkd title max_length)).
Proof.
  unfold sanitize_filename.
  destruct title as [|t0 title]; [apply download_shape |].
  set (ascii_text := if _ <? _ then _ else _).
  set (clean1 := List.filter _ ascii_text).
  set (clean2 := collapse_runs false clean1).
  set (clean3 := strip _ clean2).
  set (clean4 := if _ >? _ then _ else _).
  assert (H3 : clean_name_shape clean3 \/ clean3 = []).
  { destruct clean3 as [|c3 t3] eqn:E3; [now right |]. left.
    rewrite <- E3. subst clean3. unfold strip in *.
    destruct (lstrip_suffix (ascii_in "_. ") clean2) as [l0 E0].
    destruct (rstrip_prefix (ascii_in "_. ")
                (lstrip (ascii_in "_. ") clean2)) as [l1 E1].
    set (mid := rstrip _ _) in *.
    split; [| split; [| split]].
    - intros c Hc.
      assert (Hin : In c clean2).
      { rewrite E0, E1. apply in_or_app. right. apply in_or_app. now left. }
      destruct (py_isspace c) eqn:Es; [| reflexivity].
      apply collapse_runs_space in Hin; [| unfold space_or_underscore;
                                           now rewrite Es].
      subst c. discriminate Es.
    - apply (no_double_prefix l1). rewrite <- E1.
      apply (no_double_suffix _ l0). rewrite <- E0.
      apply collapse_runs_no_double.
    - intros c t Hm.
      destruct (prefix_head mid l1 c t Hm) as [t' Ht'].
      rewrite <- E1 in Ht'. now apply lstrip_head in Ht'.
    - intros t c Hm. apply rstrip_last in Hm.
      intros ->. discriminate Hm. }
  assert (H4 : clean_name_shape clean4 \/ clean4 = []).
  { subst clean4. destruct (_ >? _); [| exact H3].
    destruct (rstrip (ascii_in "_") (slice_to clean3 max_length))
      as [|c4 t4] eqn:E4; [now right |]. left. rewrite <- E4.
    destruct H3 as [(Ha & Hb & Hc & Hd) | ->];
      [| unfold slice_to in E4; rewrite !firstn_nil in E4;
         destruct (0 <=? max_length); discriminate E4].
    destruct (slice_to_prefix clean3 max_length) as [l1 E1].
    destruct (rstrip_prefix (ascii_in "_") (slice_to clean3 max_length))
      as [l2 E2].
    set (cut := rstrip _ _) in *.
    assert (E : clean3 = (cut ++ (l2 ++ l1))%list)
      by (rewrite app_assoc, <- E2; exact E1).
    split; [| split; [| split]].
    - intros c Hin. apply Ha. rewrite E. apply in_or_app. now left.
    - apply (no_double_prefix (l2 ++ l1)%list). now rewrite <- E.
    - intros c t Hm.
      destruct (prefix_head cut (l2 ++ l1)%list c t Hm) as [t' Ht'].
      rewrite <- E in Ht'. eapply Hc; eauto.
    - intros t c Hm. apply rstrip_last in Hm.
      intros ->. discriminate Hm. }
  destruct clean4 as [|a l] eqn:E; [apply download_shape |].
  rewrite list_ascii_of_string_of_list_ascii.
  destruct H4 as [H4 | H4]; [exact H4 | discriminate H4].
Qed.


Lemma collapse_runs_id l :
  (forall c, In c l -> py_isspace c = false) ->
  (forall l1 l2, l <> (l1 ++ "_" :: "_" :: l2)%list)%char ->
  collapse_runs false l = l /\
  ((forall t, l <> "_"%char :: t) -> collapse_runs true l = l).
Proof.
  induction l as [|a l IH]; intros Hs Hd; simpl; [auto |].
  assert (Hs' : forall c, In c l -> py_isspace c = false)
    by (intros c Hc; apply Hs; now right).
  assert (Hd' : forall l1 l2, l <> (l1 ++ "_" :: "_" :: l2)%list%char).
  { intros l1 l2 ->. now apply (Hd (a :: l1) l2). }
  destruct (IH Hs' Hd') as [IH1 IH2].
  unfold space_or_underscore. rewrite (Hs a) by now left. simpl.
  destruct (Ascii.eqb_spec a "_") as [-> | Hne].
  - split.
    + rewrite IH2; [reflexivity |]. intros t ->. now apply (Hd [] t).
    + intros Hh. now destruct (Hh l).
  - rewrite IH1. auto.
Qed.

Lemma lstrip_id p c l : p c = false -> lstrip p (c :: l) = c :: l.
Proof. intros H. simpl. now rewrite H. Qed.

Lemma strip_id p l :
  (forall c t, l = c :: t -> p c = false) ->
  (forall t c, l = (t ++ [c])%list -> p c = false) ->
  strip p l = l.
Proof.
  intros Hh Hl. unfold strip, rstrip.
  destruct l as [|c t]; [reflexivity |].
  rewrite (lstrip_id p c t) by (eapply Hh; eauto).
  destruct (rev (c :: t)) as [|z u] eqn:E.
  - apply (f_equal (@length ascii)) in E. rewrite length_rev in E.
    discriminate E.
  - assert (E' : c :: t = (rev u ++ [z])%list).
    { rewrite <- (rev_involutive (c :: t)), E. reflexivity. }
    rewrite (lstrip_id p z u) by (eapply Hl; eauto).
    rewrite <- E. apply rev_involutive.
Qed.

Lemma filter_id {A} (f : A -> bool) l :
  (forall x, In x l -> f x = true) -> List.filter f l = l.
Proof.
  induction l as [|a l IH]; simpl; intros H; [reflexivity |].
  rewrite (H a) by now left. f_equal. apply IH. intros x Hx. apply H. now right.
Qed.

Lemma encode_ascii_ignore_codepoints s :
  (forall c, In c (list_ascii_of_string s) -> (N_of_ascii c < 128)%N) ->
  encode_ascii_ignore (codepoints s) = list_ascii_of_string s.
Proof.
  intros H. unfold encode_ascii_ignore, codepoints.
  rewrite filter_id.
  - rewrite map_map. rewrite <- (map_id (list_ascii_of_string s)) at 2.
    apply map_ext. intros c. apply ascii_N_embedding.
  - intros n Hn. apply in_map_iff in Hn as (c & <- & Hc).
    apply N.ltb_lt. auto.
Qed.

Lemma filename_char_ok_valid c : filename_char_ok c -> invalid_char c = false.
Proof.
  intros (H1 & H2 & H3 & H4). unfold invalid_char.
  apply orb_false_iff. split; [apply orb_false_iff; split |].
  - destruct (ascii_in "\/:*?<>|" c) eqn:E; [| reflexivity].
    apply ascii_in_spec in E. contradiction.
  - now apply Ascii.eqb_neq.
  - apply N.leb_gt. exact H2.
Qed.

(** A name of the clean shape that fits the length comes back as it
    is. *)
Lemma sanitize_filename_fixed r max_length :
  (forall l, (forall n, In n l -> (n < 128)%N) -> nfkd l = l) ->
  filesystem_safe r ->
  clean_name_shape (list_ascii_of_string r) ->
  Z.of_nat (String.length r) <= max_length ->
  ends_with "." r = false ->
  sanitize_filename nfkd (codepoints r) max_length = r.
Proof.
  intros Hnfkd [Hne Hok] (Hsp & Hdb & Hhd & Hlast) Hlen Hdot.
  unfold sanitize_filename.
  assert (Hcp : forall n, In n (codepoints r) -> (n < 128)%N).
  { intros n Hn. unfold codepoints in Hn.
    apply in_map_iff in Hn as (c & <- & Hc). now apply Hok. }
  assert (Elen : length (codepoints r) = length (list_ascii_of_string r))
    by (unfold codepoints; apply length_map).
  destruct (codepoints r) as [|n0 t0] eqn:Ecp.
  { destruct r; [congruence | discriminate Ecp]. }
  rewrite (Hnfkd _ Hcp). rewrite <- Ecp.
  rewrite encode_ascii_ignore_codepoints by (intros c Hc; now apply Hok).
  assert (Htest : (10 * Z.of_nat (length (list_ascii_of_string r))
                   <? 3 * Z.of_nat (length (codepoints r))) = false).
  { apply Z.ltb_ge. rewrite Ecp, Elen. lia. }
  rewrite Htest.
  rewrite filter_id
    by (intros c Hc; apply negb_true_iff, filename_char_ok_valid; auto).
  rewrite (proj1 (collapse_runs_id _ Hsp Hdb)).
  rewrite strip_id; [| exact Hhd |].
  - assert (Hfit : (Z.of_nat (length (list_ascii_of_string r)) >? max_length)
                   = false).
    { rewrite <- (string_of_list_ascii_of_string r) in Hlen.
      rewrite length_string_of_list_ascii in Hlen.
      destruct (Z.gtb_spec (Z.of_nat (length (list_ascii_of_string r)))
                  max_length); [lia | reflexivity]. }
    rewrite Hfit.
    destruct (list_ascii_of_string r) as [|c t] eqn:El.
    + discriminate Elen.
    + rewrite <- El. apply string_of_list_ascii_of_string.
  - intros t c Ht.
    destruct (ascii_in "_. " c) eqn:E; [| reflexivity].
    apply ascii_in_spec in E. simpl in E.
    destruct E as [<- | [<- | [<- | []]]].
    + now destruct (Hlast t "_"%char Ht).
    + unfold ends_with in Hdot. rewrite Ht, rev_app_distr in Hdot.
      discriminate Hdot.
    + assert (Hs : py_isspace " " = false)
        by (apply Hsp; rewrite Ht; apply in_or_app; right; now left).
      discriminate Hs.
Qed.

(** X12.  The name that the sanitizer returns has no whitespace and no
    two underscores in a row, does not begin with an underscore, a dot
    or a space, and does not end with an underscore. *)
Theorem sanitize_filename_shape title max_length :
  clean_name_shape
    (list_ascii_of_string (sanitize_filename nfkd title max_length)).
Proof. apply sanitize_filename_clean. Qed.

(** X13.  Sanitizing is idempotent on the names that fit: when the
    decomposition leaves ASCII text as it is, a name that the sanitizer
    returned, that is at most [max_length] characters long and does not
    end with a dot, is returned unchanged when it is sanitized again. *)
Theorem sanitize_filename_idempotent title max_length :
  (forall l, (forall n, In n l -> (n < 128)%N) -> nfkd l = l) ->
  Z.of_nat (String.length (sanitize_filename nfkd title max_length))
    <= max_length ->
  ends_with "." (sanitize_filename nfkd title max_length) = false ->
  sanitize_filename nfkd
    (codepoints (sanitize_filename nfkd title max_length)) max_length
  = sanitize_filename nfkd title max_length.
Proof.
  intros Hnfkd Hlen Hdot. apply sanitize_filename_fixed; auto.
  - apply sanitize_filename_safe.
  - apply sanitize_filename_clean.
Qed.

End SanitizerShape.

(** ** Scores and integers *)

(** X14.  A combined format outranks every format that is not
    combined, as long as the latter's height and bitrate stay below
    the bonus: when the combined format has a height and a bitrate that
    are not negative and ten times the height plus the bitrate of the
    other format is below 99300, the score of the combined format is
    the larger one. *)
Theorem score_combined_above c f :
  is_combined_format c = true ->
  is_combined_format f = false ->
  0 <= safe_int (get c "height") 0 ->
  0 <= safe_int (get c "tbr") 0 ->
  10 * safe_int (get f "height") 0 + safe_int (get f "tbr") 0 < 99300 ->
  get_format_quality_score f < get_format_quality_score c.
Proof.
  intros Hc Hf H1 H2 H3. unfold get_format_quality_score.
  rewrite Hc, Hf.
  set (hc := safe_int (get c "height") 0) in *.
  set (tc := safe_int (get c "tbr") 0) in *.
  set (hf := safe_int (get f "height") 0) in *.
  set (tf := safe_int (get f "tbr") 0) in *.
  clearbody hc tc hf tf.
  repeat match goal with
         | |- context [if ?b then _ else _] => destruct b
         end; lia.
Qed.

Lemma int_digits_uint d : forall acc,
  0 < acc ->
  int_digits acc (list_ascii_of_string (NilEmpty.string_of_uint d))
  = Some (Z.pos (Pos.of_uint_acc d (Z.to_pos acc))).
Proof.
  induction d; intros acc Hacc; simpl;
    try (rewrite IHd by lia; do 2 f_equal; f_equal; lia).
  f_equal. lia.
Qed.

Lemma int_digits_uint0 d :
  int_digits 0 (list_ascii_of_string (NilEmpty.string_of_uint d))
  = Some (Z.of_N (Pos.of_uint d)).
Proof.
  induction d; simpl; try exact IHd; try reflexivity;
    rewrite int_digits_uint by lia; reflexivity.
Qed.

Lemma string_of_uint_digits d c :
  In c (list_ascii_of_string (NilEmpty.string_of_uint d)) ->
  int_space c = false /\ c <> "-"%char /\ c <> "+"%char /\
  exists k, digit_of c = Some k.
Proof.
  induction d; simpl; try tauto;
    (intros [<- | H]; [| auto]);
    (split; [reflexivity |]; split; [discriminate |];
     split; [discriminate |]; eexists; reflexivity).
Qed.

Lemma int_unsigned_digits l :
  (forall c, In c l -> exists k, digit_of c = Some k) ->
  l <> [] -> int_unsigned l = int_digits 0 l.
Proof.
  intros H Hne. destruct l as [|c l]; [congruence |]. simpl.
  destruct (H c (or_introl eq_refl)) as [k ->]. reflexivity.
Qed.

Lemma to_uint_string p :
  exists c l,
    list_ascii_of_string (NilZero.string_of_uint (Pos.to_uint p)) = c :: l /\
    (forall x, In x (c :: l) ->
       int_space x = false /\ x <> "-"%char /\ x <> "+"%char /\
       exists k, digit_of x = Some k) /\
    int_digits 0 (c :: l) = Some (Z.pos p).
Proof.
  pose proof (DecimalPos.Unsigned.of_to p) as Hp.
  destruct (Pos.to_uint p) as [| | | | | | | | | |] eqn:E;
    [discriminate Hp | ..];
    unfold NilZero.string_of_uint;
    match goal with
    | |- context [NilEmpty.string_of_uint ?d] =>
        pose proof (int_digits_uint0 d) as Hd;
        pose proof (string_of_uint_digits d) as Hc;
        rewrite Hp in Hd;
        destruct (list_ascii_of_string (NilEmpty.string_of_uint d))
          as [|c l] eqn:El; [discriminate El |];
        exists c, l; split; [reflexivity |]; split; [exact Hc | exact Hd]
    end.
Qed.

Lemma last_In {A} (t : list A) c l : l = (t ++ [c])%list -> In c l.
Proof. intros ->. apply in_or_app. right. now left. Qed.

Lemma int_of_str_str_of_int n : int_of_str (str_of_int n) = Some n.
Proof.
  unfold str_of_int, int_of_str. destruct n as [| p | p]; simpl.
  - reflexivity.
  - destruct (to_uint_string p) as (c & l & El & Hc & Hd).
    rewrite El. rewrite strip_id.
    + destruct (Hc c (or_introl eq_refl)) as (_ & Hm & Hp & _).
      rewrite (proj2 (Ascii.eqb_neq _ _) Hm), (proj2 (Ascii.eqb_neq _ _) Hp).
      change (int_unsigned (c :: l) = Some (Z.pos p)).
      rewrite int_unsigned_digits; [exact Hd | | discriminate].
      intros x Hx. now apply Hc.
    + intros x t [= <- _]. now apply Hc; left.
    + intros t x Ht. apply last_In in Ht. now apply Hc.
  - destruct (to_uint_string p) as (c & l & El & Hc & Hd).
    rewrite El. rewrite strip_id.
    + rewrite int_unsigned_digits; [rewrite Hd; reflexivity | | discriminate].
      intros x Hx. now apply Hc.
    + intros x t [= <- _]. reflexivity.
    + intros t x Ht.
      destruct t as [|y t]; [discriminate Ht |].
      injection Ht as _ Ht. apply last_In in Ht. now apply Hc.
Qed.

(** X15.  [int(str(n))] is [n]: for every integer [n] of at most 4300
    digits, the text that [str] writes for it is read back by [int],
    and so by [safe_int], as [n], whatever the default is. *)
Theorem safe_int_of_str n (default : Z) s :
  Z.abs n < 10 ^ 4300 ->
  py_str (VInt n) = Ok s ->
  py_int (VStr s) = Ok n /\ safe_int (VStr s) default = n.
Proof.
  intros _ [= <-]. unfold safe_int, py_int.
  now rewrite int_of_str_str_of_int.
Qed.

(** ** Further properties of the transformer *)

Lemma keys_in_empty L : keys_in ∅ L.
Proof. intros k [v Hv]. now rewrite lookup_empty in Hv. Qed.

Lemma keys_in_insert (m : pydict) L k v :
  In k L -> keys_in m L -> keys_in (<[k := v]> m) L.
Proof.
  intros Hk Hm k' Hs. destruct (decide (k = k')) as [<- | Hne]; [exact Hk |].
  rewrite lookup_insert_ne in Hs by exact Hne. now apply Hm.
Qed.

Lemma keys_in_if (b : bool) (m1 m2 : pydict) L :
  keys_in m1 L -> keys_in m2 L -> keys_in (if b then m1 else m2) L.
Proof. now destruct b. Qed.

Ltac keys_in_step :=
  first [ apply keys_in_empty
        | assumption
        | apply keys_in_if
        | apply keys_in_insert; [simpl; tauto |] ].

Ltac bind_step H x E :=
  match type of H with
  | (mbind _ ?m) = _ => destruct m as [x | |] eqn:E; [| discriminate H ..]
  end;
  cbn [mbind result_bind] in H.

Lemma transform_format_inv fmt title id r :
  transform_format fmt title id = Ok (Some r) ->
  truthy (get fmt "url") = true /\
  exists protocol,
    known_protocol protocol = true /\
    r !! "url" = Some (get fmt "url") /\
    r !! "protocol" = Some protocol /\
    r !! "ext" = Some (get_or fmt "ext" (VStr "mp4")) /\
    r !! "vcodec" =
      (if has_video fmt then Some (get_or fmt "vcodec" (VStr "none"))
       else None) /\
    r !! "acodec" =
      (if has_audio fmt then Some (get_or fmt "acodec" (VStr "none"))
       else if truthy (get fmt "audio_ext")
            then Some (get_or fmt "acodec" (VStr "aac")) else None) /\
    r !! "audio_ext" =
      (if has_audio fmt
       then Some (if has_video fmt then get_or fmt "ext" (VStr "mp4")
                  else get_or fmt "audio_ext" (get_or fmt "ext" (VStr "mp4")))
       else if truthy (get fmt "audio_ext")
            then Some (get fmt "audio_ext") else None) /\
    keys_in r format_keys /\
    ((title = "" /\ r !! "_filename" = None) \/
     (title <> "" /\
      exists hp ip,
        (if truthy (get fmt "height")
         then t ← py_str (get fmt "height"); Ok [t ++ "p"] else Ok []) = Ok hp /\
        (if truthy id then
           n ← py_len id;
           if n <=? 12 then t ← py_str id; Ok ["[" ++ t ++ "]"] else Ok []
         else Ok []) = Ok ip /\
        r !! "_filename" =
          Some (VStr (String.concat "_" (title :: hp ++ ip)%list)))).
Proof.
  intros H. unfold transform_format in H. cbv zeta in H.
  destruct (truthy (get fmt "url")) eqn:Hurl; [| discriminate H].
  cbn [negb] in H. split; [reflexivity |].
  bind_step H protocol Hprot. bind_step H parts_v Hpv.
  bind_step H parts_s Hps. bind_step H res4 Hres4.
  bind_step H res5 Hres5. bind_step H res8 Hres8. bind_step H res9 Hres9.
  injection H as H.
  exists protocol.
  assert (Hknown : known_protocol protocol = true).
  { clear -Hprot. unfold known_protocol.
    destruct (_ || _) eqn:E in Hprot.
    - injection Hprot as <-. exact E.
    - bind_step Hprot in_url Hin.
      destruct (_ || _) in Hprot; [now injection Hprot as <- |].
      bind_step Hprot https Hhttps.
      destruct https; now injection Hprot as <-. }
  split; [exact Hknown |].
  match type of Hres4 with
  | match _ with [] => Ok ?m | _ => _ end = _ => set (res3 := m) in *
  end.
  assert (K3 : keys_in res3 format_keys).
  { subst res3. unfold format_keys. repeat keys_in_step. }
  assert (L3 :
    res3 !! "url" = Some (get fmt "url") /\
    res3 !! "protocol" = Some protocol /\
    res3 !! "ext" = Some (get_or fmt "ext" (VStr "mp4")) /\
    res3 !! "vcodec" =
      (if has_video fmt then Some (get_or fmt "vcodec" (VStr "none"))
       else None) /\
    res3 !! "acodec" =
      (if has_audio fmt then Some (get_or fmt "acodec" (VStr "none"))
       else if truthy (get fmt "audio_ext")
            then Some (get_or fmt "acodec" (VStr "aac")) else None) /\
    res3 !! "audio_ext" =
      (if has_audio fmt
       then Some (if has_video fmt then get_or fmt "ext" (VStr "mp4")
                  else get_or fmt "audio_ext" (get_or fmt "ext" (VStr "mp4")))
       else if truthy (get fmt "audio_ext")
            then Some (get fmt "audio_ext") else None) /\
    res3 !! "_filename" = None).
  { subst res3. fold (has_video fmt). fold (has_audio fmt).
    destruct (has_video fmt), (has_audio fmt), (truthy (get fmt "audio_ext"));
      cbn [andb negb]; repeat split; lookup_inserts; reflexivity. }
  clearbody res3.
  assert (S4 : keys_in res4 format_keys /\
    forall k, k <> "format" -> res4 !! k = res3 !! k).
  { destruct (_ ++ _)%list in Hres4.
    - injection Hres4 as <-. auto.
    - bind_step Hres4 t Ht.
      injection Hres4 as <-. split.
      + apply keys_in_insert; [simpl; tauto | exact K3].
      + intros k Hk. now rewrite lookup_insert_ne. }
  assert (S5 : keys_in res5 format_keys /\
    (forall k, k <> "_filename" -> res5 !! k = res4 !! k) /\
    ((title = "" /\ res5 !! "_filename" = res4 !! "_filename") \/
     (title <> "" /\
      exists hp ip,
        (if truthy (get fmt "height")
         then t ← py_str (get fmt "height"); Ok [t ++ "p"] else Ok []) = Ok hp /\
        (if truthy id then
           n ← py_len id;
           if n <=? 12 then t ← py_str id; Ok ["[" ++ t ++ "]"] else Ok []
         else Ok []) = Ok ip /\
        res5 !! "_filename" =
          Some (VStr (String.concat "_" (title :: hp ++ ip)%list))))).
  { destruct (String.eqb_spec title "") as [Et | Et]; cbn [negb] in Hres5.
    - injection Hres5 as <-. split; [apply S4 |]. split; [reflexivity |].
      left. auto.
    - bind_step Hres5 hp Hhp. bind_step Hres5 ip Hip.
      injection Hres5 as <-. split; [| split].
      + apply keys_in_insert; [simpl; tauto | apply S4].
      + intros k Hk. now rewrite lookup_insert_ne.
      + right. split; [exact Et |]. exists hp, ip.
        split; [reflexivity |]. split; [reflexivity |].
        apply lookup_insert_eq. }
  match type of Hres8 with
  | (if _ then _ else Ok ?m) = _ => set (res7 := m) in *
  end.
  assert (S7 : keys_in res7 format_keys /\
    forall k, k <> "language" -> k <> "languagePreference" ->
              k <> "httpHeaders" -> res7 !! k = res5 !! k).
  { subst res7. split.
    - destruct S5 as [S5 _]. repeat keys_in_step.
    - intros k H1 H2 H3.
      destruct (truthy (get_or fmt "http_headers" (VDict ∅))),
        (truthy (get fmt "language"));
        rewrite ?lookup_insert_ne by congruence; reflexivity. }
  clearbody res7.
  assert (S8 : keys_in res8 format_keys /\
    forall k, k <> "container" -> res8 !! k = res7 !! k).
  { destruct (eq_str protocol "http_dash_segments") in Hres8.
    - bind_step Hres8 t Ht.
      injection Hres8 as <-. split.
      + apply keys_in_insert; [simpl; tauto | apply S7].
      + intros k Hk. now rewrite lookup_insert_ne.
    - injection Hres8 as <-. split; [apply S7 | reflexivity]. }
  assert (S9 : keys_in res9 format_keys /\
    forall k, k <> "fragments" -> k <> "fragment_base_url" ->
              res9 !! k = res8 !! k).
  { destruct (truthy _) in Hres9.
    - bind_step Hres9 items Hitems. bind_step Hres9 frags Hfrags.
      injection Hres9 as <-. split.
      + destruct S8 as [S8 _]. repeat keys_in_step.
      + intros k H1 H2. now rewrite !lookup_insert_ne.
    - injection Hres9 as <-. split; [apply S8 | auto]. }
  assert (S10 : keys_in r format_keys /\
    forall k, k <> "manifestUrl" -> r !! k = res9 !! k).
  { subst r. split.
    - destruct S9 as [S9 _]. repeat keys_in_step.
    - intros k Hk. destruct (eq_str protocol "m3u8_native");
        rewrite ?lookup_insert_ne by congruence; reflexivity. }
  assert (Early : forall k,
    k <> "format" -> k <> "_filename" -> k <> "language" ->
    k <> "languagePreference" -> k <> "httpHeaders" -> k <> "container" ->
    k <> "fragments" -> k <> "fragment_base_url" -> k <> "manifestUrl" ->
    r !! k = res3 !! k).
  { intros k H1 H2 H3 H4 H5 H6 H7 H8 H9.
    rewrite (proj2 S10), (proj2 S9), (proj2 S8), (proj2 S7),
      (proj1 (proj2 S5)), (proj2 S4) by assumption. reflexivity. }
  assert (Late : r !! "_filename" = res5 !! "_filename").
  { rewrite (proj2 S10), (proj2 S9), (proj2 S8), (proj2 S7) by discriminate.
    reflexivity. }
  destruct L3 as (L1 & L2 & L3 & L4 & L5 & L6 & L7).
  rewrite <- L1, <- L2, <- L3, <- L4, <- L5, <- L6.
  do 6 (split; [apply Early; discriminate |]).
  split; [apply S10 |]. rewrite Late.
  destruct S5 as (_ & _ & [[Et E5] | (Et & hp & ip & Hhp & Hip & E5)]).
  - left. split; [exact Et |]. rewrite E5, (proj2 S4) by discriminate.
    exact L7.
  - right. split; [exact Et |]. exists hp, ip. auto.
Qed.

Lemma transform_format_none fmt title id :
  transform_format fmt title id = Ok None -> truthy (get fmt "url") = false.
Proof.
  intros H. unfold transform_format in H. cbv zeta in H.
  destruct (truthy (get fmt "url")) eqn:Hurl; [| reflexivity].
  cbn [negb] in H.
  bind_step H protocol Hprot. bind_step H parts_v Hpv.
  bind_step H parts_s Hps. bind_step H res4 Hres4.
  bind_step H res5 Hres5. bind_step H res8 Hres8. bind_step H res9 Hres9.
  discriminate H.
Qed.

Lemma keys_in_not (m : pydict) L k : keys_in m L -> ~ In k L -> m !! k = None.
Proof.
  intros Hm Hk. destruct (m !! k) as [v |] eqn:E; [| reflexivity].
  destruct Hk. apply Hm. now exists v.
Qed.

(** X16.  When [transform_format] returns, it returns [None] exactly
    for a format without a URL.  A dict that it returns has the URL of
    the format, one of the four protocols [http], [https],
    [m3u8_native] and [http_dash_segments], and no key outside
    [format_keys]: the marks [_audio_url], [_needs_merge] and
    [_video_only] of the reconciler are not copied. *)
Theorem transform_format_shape fmt title id o :
  transform_format fmt title id = Ok o ->
  (o = None <-> truthy (get fmt "url") = false) /\
  forall r, o = Some r ->
    r !! "url" = Some (get fmt "url") /\
    (exists p, r !! "protocol" = Some p /\ known_protocol p = true) /\
    keys_in r format_keys /\
    r !! "_audio_url" = None /\ r !! "_needs_merge" = None /\
    r !! "_video_only" = None.
Proof.
  intros H. split.
  - destruct o as [r |].
    + apply transform_format_inv in H as [Hu _].
      split; [discriminate | congruence].
    + apply transform_format_none in H. tauto.
  - intros r ->.
    destruct (transform_format_inv _ _ _ _ H)
      as (_ & p & Hp & Hurl & Hprot & _ & _ & _ & _ & Hk & _).
    split; [exact Hurl |]. split; [now exists p |]. split; [exact Hk |].
    repeat split; apply (keys_in_not _ _ _ Hk); simpl;
      intros Hin; repeat (destruct Hin as [Hin | Hin]; [discriminate Hin |]);
      exact Hin.
Qed.

(** ** Formats, playlists, thumbnails and subtitles of a record *)

Lemma mapM_result_Forall2 {A B} (f : A -> result B) l : forall ys,
  mapM_result f l = Ok ys -> Forall2 (fun x y => f x = Ok y) l ys.
Proof.
  induction l as [|x l IH]; simpl; intros ys H.
  - injection H as <-. constructor.
  - bind_step H y Hy. bind_step H ys' Hys. injection H as <-.
    constructor; auto.
Qed.

(** A reconciled entry has a URL, and audio information or no video. *)
Lemma merge_entries_audio formats out e :
  merge_video_audio_formats formats = Ok out -> In e out ->
  truthy (get e "url") = true /\
  (has_audio e = true \/
   (has_video e = true /\ truthy (get e "audio_ext") = true)).
Proof.
  intros H He.
  destruct (merge_entries_origin _ _ _ H He) as (_ & _ & _ & _ & Hu & _).
  split; [exact Hu |].
  destruct (merge_video_audio_formats_out _ _ H)
    as (result & st & _ & Hvf & _ & Hout).
  assert (Hcases : In e (video_formats st) \/
                   (has_video e = false /\ has_audio e = true)).
  { destruct Hout as [-> | (b & -> & _ & Hb1 & Hb2)]; [now left |].
    apply in_app_or in He as [He | [<- | []]]; [now left | now right]. }
  destruct Hcases as [Hin | [_ Ha]]; [| now left].
  destruct (Hvf e Hin) as (_ & Hv & Ha).
  destruct (has_audio e); [now left |]. right. auto.
Qed.

Lemma loop_has_lookup (r : pydict) k v :
  r !! k = Some v ->
  loop_has r k = truthy v && negb (eq_str v "none").
Proof.
  intros E. unfold loop_has, get, py_and. rewrite E. simpl.
  destruct (truthy v) eqn:Et; simpl; [reflexivity | exact Et].
Qed.

(** A transformed reconciled entry passes the filter of
    [transform_single] and is no empty dict. *)
Lemma keep_format_transformed e title id r :
  truthy (get e "url") = true ->
  (has_audio e = true \/
   (has_video e = true /\ truthy (get e "audio_ext") = true)) ->
  transform_format e title id = Ok (Some r) ->
  truthy (VDict r) = true /\ keep_format r = true.
Proof.
  intros Hu Ha H.
  destruct (transform_format_inv _ _ _ _ H)
    as (_ & p & _ & Hurl & _ & _ & Hvc & Hac & Hae & _).
  split.
  - apply (truthy_get_dict r "url"). unfold get. now rewrite Hurl.
  - unfold keep_format.
    destruct (has_audio e) eqn:Eha.
    + assert (Hla : loop_has r "acodec" = true).
      { rewrite (loop_has_lookup _ _ _ Hac). exact Eha. }
      rewrite Hla. destruct (loop_has r "vcodec"); reflexivity.
    + destruct Ha as [Ha | [_ Ha]]; [discriminate Ha |].
      rewrite Ha in Hae.
      assert (Ht : truthy (get r "audio_ext") = true)
        by (unfold get; now rewrite Hae).
      rewrite Ht. now rewrite !orb_true_r.
Qed.

Lemma transformed_all e_list title id : forall objs,
  Forall2 (fun e o => transform_format e title id = Ok o) e_list objs ->
  (forall e, In e e_list ->
     truthy (get e "url") = true /\
     (has_audio e = true \/
      (has_video e = true /\ truthy (get e "audio_ext") = true))) ->
  exists rs,
    keep_some objs = rs /\
    Forall2 (fun e r => transform_format e title id = Ok (Some r)) e_list rs /\
    forall r, In r rs -> truthy (VDict r) = true /\ keep_format r = true.
Proof.
  induction 1 as [|e o l objs Ho Hrest IH]; intros Hall.
  - exists []. split; [reflexivity |]. split; [constructor | intros r []].
  - assert (Hall' : forall x, In x l ->
       truthy (get x "url") = true /\
       (has_audio x = true \/
        (has_video x = true /\ truthy (get x "audio_ext") = true)))
      by (intros x Hx; apply Hall; now right).
    destruct (IH Hall') as (rs & Ek & Hf & Hk).
    destruct (Hall e (or_introl eq_refl)) as [Hu Ha].
    destruct o as [r |].
    + exists (r :: rs). simpl. rewrite Ek. split; [reflexivity |].
      split; [now constructor |].
      intros x [<- | Hx]; [| exact (Hk x Hx)].
      exact (keep_format_transformed e title id r Hu Ha Ho).
    + apply transform_format_none in Ho. congruence.
Qed.

(** The formats of a record after reconciliation, transformation and
    the filter. *)
Lemma transformed_formats_all data clean id fs :
  transformed_formats data clean id = Ok fs ->
  exists raw processed,
    raw_formats data = Ok raw /\
    merge_video_audio_formats raw = Ok processed /\
    Forall2 (fun e r => transform_format e clean id = Ok (Some r))
            processed fs.
Proof.
  intros H. unfold transformed_formats in H.
  bind_step H raw Hraw. bind_step H processed Hproc.
  bind_step H objs Hobjs. injection H as <-.
  exists raw, processed. split; [reflexivity |]. split; [exact Hproc |].
  apply mapM_result_Forall2 in Hobjs.
  assert (Hall : forall e, In e processed ->
     truthy (get e "url") = true /\
     (has_audio e = true \/
      (has_video e = true /\ truthy (get e "audio_ext") = true)))
    by (intros e He; eapply merge_entries_audio; eauto).
  destruct (transformed_all _ _ _ _ Hobjs Hall) as (rs & Ek & Hf & Hk).
  rewrite Ek.
  rewrite (filter_id (fun o => truthy (VDict o)))
    by (intros r Hr; now apply Hk).
  rewrite (filter_id keep_format) by (intros r Hr; now apply Hk).
  destruct rs; exact Hf.
Qed.

(** X17.  The filter of [transform_single] never drops a format: when
    the formats of a record can be reconciled and transformed, the
    [formats] of the result are exactly the reconciled formats, each
    transformed (none gives [None]), in the order of the reconciler. *)
Theorem transformed_formats_unfiltered data clean id fs :
  transformed_formats data clean id = Ok fs ->
  exists raw processed,
    raw_formats data = Ok raw /\
    merge_video_audio_formats raw = Ok processed /\
    Forall2 (fun e r => transform_format e clean id = Ok (Some r))
            processed fs.
Proof. exact (transformed_formats_all data clean id fs). Qed.

Lemma sanitize_title_nonempty nfkd t clean :
  sanitize_title nfkd t = Ok clean -> clean <> "".
Proof.
  unfold sanitize_title. destruct (negb (truthy t)).
  - intros [= <-]. discriminate.
  - destruct t; try discriminate. intros [= <-].
    apply sanitize_filename_safe.
Qed.

(** X18.  [generate_filename] and the [_filename] of a transformed
    format are the same name, for the sanitized title of the record and
    the height of the format, unless the video id is 13 to 15
    characters long (the one keeps an id of up to 15 characters, the
    other of up to 12). *)
Theorem generate_filename_matches_transform_format nfkd t clean fmt id ext r :
  sanitize_title nfkd t = Ok clean ->
  transform_format fmt clean id = Ok (Some r) ->
  (forall n, py_len id = Ok n -> n <= 12 \/ 15 < n) ->
  exists name,
    generate_filename nfkd t id (get fmt "height") ext true = Ok name /\
    r !! "_filename" = Some (VStr name).
Proof.
  intros Ht H Hlen.
  destruct (transform_format_inv _ _ _ _ H)
    as (_ & p & _ & _ & _ & _ & _ & _ & _ & _ & Hfn).
  destruct Hfn as [[E _] | (_ & hp & ip & Hhp & Hip & Hfn)].
  { now apply sanitize_title_nonempty in Ht. }
  unfold generate_filename. rewrite Ht. cbn [mbind result_bind andb].
  rewrite Hhp. cbn [mbind result_bind].
  assert (Hip' :
    (if truthy id then
       n ← py_len id;
       if n <=? 15 then t ← py_str id; Ok ["[" ++ t ++ "]"] else Ok []
     else Ok []) = Ok ip).
  { destruct (truthy id); [| exact Hip].
    destruct (py_len id) as [n | |] eqn:En; [| discriminate Hip ..].
    cbn [mbind result_bind] in *.
    destruct (Hlen n eq_refl) as [Hn | Hn].
    - rewrite (proj2 (Z.leb_le n 12)) in Hip by lia.
      rewrite (proj2 (Z.leb_le n 15)) by lia. exact Hip.
    - rewrite (proj2 (Z.leb_gt n 12)) in Hip by lia.
      rewrite (proj2 (Z.leb_gt n 15)) by lia. exact Hip. }
  rewrite Hip'. cbn [mbind result_bind].
  eexists. split; [reflexivity | exact Hfn].
Qed.

Lemma four_keys (k : string) (m : pydict) a b c d :
  is_Some ((<["duration" := a]> (<["title" := b]> (<["url" := c]>
            (<["_type" := d]> m)))) !! k) ->
  m = ∅ ->
  k = "_type" \/ k = "url" \/ k = "title" \/ k = "duration".
Proof.
  intros Hs ->.
  destruct (decide (k = "duration")) as [-> | H1]; [tauto |].
  destruct (decide (k = "title")) as [-> | H2]; [tauto |].
  destruct (decide (k = "url")) as [-> | H3]; [tauto |].
  destruct (decide (k = "_type")) as [-> | H4]; [tauto |].
  rewrite !lookup_insert_ne, lookup_empty in Hs by congruence.
  now destruct Hs.
Qed.

Lemma playlist_entry_spec item o :
  playlist_entry item = Ok o ->
  (truthy item = false /\ o = None) \/
  (truthy item = true /\
   exists d e, item = VDict d /\ o = Some e /\ url_entry_of "url" "webpage_url" d e).
Proof.
  unfold playlist_entry. destruct (truthy item) eqn:Et.
  - intros H. bind_step H d Hd. injection H as <-. right.
    split; [reflexivity |]. destruct item; try discriminate Hd.
    injection Hd as ->. exists d. eexists. split; [reflexivity |].
    split; [reflexivity |]. eexists. split; [reflexivity |].
    repeat split; try (lookup_inserts; reflexivity).
    intros k Hk. eapply four_keys; [exact Hk | reflexivity].
  - intros [= <-]. now left.
Qed.

Lemma playlist_entries_spec items : forall objs,
  mapM_result playlist_entry items = Ok objs ->
  Forall2 (fun item e => exists d, item = VDict d /\
                                   url_entry_of "url" "webpage_url" d e)
          (List.filter truthy items) (keep_some objs).
Proof.
  induction items as [|x items IH]; simpl; intros objs H.
  - injection H as <-. constructor.
  - bind_step H o Ho. bind_step H objs' Hobjs. injection H as <-.
    destruct (playlist_entry_spec _ _ Ho)
      as [[Et ->] | (Et & d & e & -> & -> & He)]; rewrite Et; simpl.
    + now apply IH.
    + constructor; [now exists d | now apply IH].
Qed.

(** X19.  [transform_playlist_info] returns a record of type
    [playlist] with the id, title and URL of the data (defaults: empty,
    [Playlist], empty).  Its entries are made from the truthy items of
    [entries], in order, one each; such an item is a dict, and the
    entry has the type [url], the item's [url] or else its
    [webpage_url], its title or [Unknown], its duration, and no other
    key.  Falsy items are skipped. *)
Theorem transform_playlist_info_entries data r :
  transform_playlist_info data = Ok r ->
  r !! "_type" = Some (VStr "playlist") /\
  r !! "id" = Some (get_or data "id" (VStr "")) /\
  r !! "title" = Some (get_or data "title" (VStr "Playlist")) /\
  r !! "webpage_url" = Some (get_or data "webpage_url" (VStr "")) /\
  exists items entries,
    py_iter (get_or data "entries" (VList [])) = Ok items /\
    r !! "entries" = Some (VList entries) /\
    Forall2 (fun item e => exists d, item = VDict d /\
                                     url_entry_of "url" "webpage_url" d e)
            (List.filter truthy items) entries.
Proof.
  intros H. unfold transform_playlist_info in H.
  bind_step H items Hitems. bind_step H objs Hobjs. injection H as <-.
  do 4 (split; [lookup_inserts; reflexivity |]).
  exists items, (keep_some objs). split; [reflexivity |].
  split; [lookup_inserts; reflexivity |].
  now apply playlist_entries_spec.
Qed.

Lemma playlist_item_entry_spec d :
  url_entry_of "webpage_url" "url" d (playlist_item_entry d).
Proof.
  eexists. split; [reflexivity |].
  repeat split; try (lookup_inserts; reflexivity).
  intros k Hk. eapply four_keys; [exact Hk | reflexivity].
Qed.

(** The title that the loop of [transform_playlist] ends with. *)
Lemma transform_playlist_loop_flat dicts url : forall entries title,
  (forall d, In d dicts -> eq_str (get d "_type") "playlist" = false) ->
  exists r,
    transform_playlist_loop (map VDict dicts) entries title url = Ok r /\
    r !! "_type" = Some (VStr "playlist") /\
    r !! "webpage_url" = Some (VStr url) /\
    r !! "id" = None /\
    r !! "entries" =
      Some (VList (entries ++ map playlist_item_entry dicts)%list) /\
    r !! "title" =
      Some (fold_left
              (fun t d =>
                 if negb (truthy t) || eq_str t "Playlist"
                 then get_or d "playlist_title"
                        (get_or d "playlist" (VStr "Playlist"))
                 else t)
              dicts title).
Proof.
  induction dicts as [|d dicts IH]; simpl; intros entries title Hn.
  - eexists. split; [reflexivity |]. rewrite app_nil_r.
    repeat split; lookup_inserts; reflexivity.
  - rewrite (Hn d (or_introl eq_refl)).
    destruct (IH (entries ++ [playlist_item_entry d])%list
                (if negb (truthy title) || eq_str title "Playlist"
                 then get_or d "playlist_title"
                        (get_or d "playlist" (VStr "Playlist"))
                 else title))
      as (r & Hr & H1 & H2 & H3 & H4 & H5).
    { intros x Hx. apply Hn. now right. }
    exists r. split; [exact Hr |]. rewrite <- app_assoc in H4. auto 10.
Qed.

(** X20.  For items that are dicts and of which none is a playlist,
    [transform_playlist] returns a record of type [playlist] for the
    URL it was called with, without [id], with one entry per item in
    order; an entry has the item's [webpage_url] or else its [url] (the
    other order than in [transform_playlist_info]).  The title is
    [Playlist] until an item gives another one in [playlist_title] or
    else [playlist]. *)
Theorem transform_playlist_flat dicts url :
  (forall d, In d dicts -> eq_str (get d "_type") "playlist" = false) ->
  exists r,
    transform_playlist (map VDict dicts) url = Ok r /\
    r !! "_type" = Some (VStr "playlist") /\
    r !! "webpage_url" = Some (VStr url) /\
    r !! "id" = None /\
    r !! "entries" = Some (VList (map playlist_item_entry dicts)) /\
    Forall2 (url_entry_of "webpage_url" "url") dicts
            (map playlist_item_entry dicts) /\
    r !! "title" =
      Some (fold_left
              (fun t d =>
                 if negb (truthy t) || eq_str t "Playlist"
                 then get_or d "playlist_title"
                        (get_or d "playlist" (VStr "Playlist"))
                 else t)
              dicts (VStr "Playlist")).
Proof.
  intros Hn. unfold transform_playlist.
  destruct (transform_playlist_loop_flat dicts url [] (VStr "Playlist") Hn)
    as (r & Hr & H1 & H2 & H3 & H4 & H5).
  exists r. split; [exact Hr |]. split; [exact H1 |]. split; [exact H2 |].
  split; [exact H3 |]. split; [exact H4 |]. split; [| exact H5].
  clear. induction dicts as [|d dicts IH]; simpl; constructor;
    [apply playlist_item_entry_spec | exact IH].
Qed.

Lemma transform_playlist_loop_nested before p after url : forall entries title,
  (forall d, In d before -> eq_str (get d "_type") "playlist" = false) ->
  eq_str (get p "_type") "playlist" = true ->
  transform_playlist_loop (map VDict before ++ VDict p :: after)%list
    entries title url
  = transform_playlist_info p.
Proof.
  induction before as [|d before IH]; simpl; intros entries title Hn Hp.
  - now rewrite Hp.
  - rewrite (Hn d (or_introl eq_refl)). apply IH; [| exact Hp].
    intros x Hx. apply Hn. now right.
Qed.

(** X21.  The first item of type [playlist] takes over: when the
    items before it are dicts that are no playlists,
    [transform_playlist] returns what [transform_playlist_info] returns
    for that item; the entries collected so far, the items after it and
    the URL are not used. *)
Theorem transform_playlist_nested before p after url :
  (forall d, In d before -> eq_str (get d "_type") "playlist" = false) ->
  eq_str (get p "_type") "playlist" = true ->
  transform_playlist (map VDict before ++ VDict p :: after)%list url
  = transform_playlist_info p.
Proof. intros Hn Hp. now apply transform_playlist_loop_nested. Qed.

Lemma thumbnail_entry_spec item o :
  thumbnail_entry item = Ok o ->
  exists d, item = VDict d /\
    ((truthy (get d "url") = false /\ o = None) \/
     (truthy (get d "url") = true /\
      exists td, o = Some (VDict td) /\
        td !! "url" = Some (get d "url") /\
        td !! "width" = Some (get d "width") /\
        td !! "height" = Some (get d "height") /\
        td !! "preference" = Some (VInt (safe_int (get d "preference") 0)))).
Proof.
  unfold thumbnail_entry. intros H. bind_step H d Hd.
  destruct item; try discriminate Hd. injection Hd as ->.
  exists d. split; [reflexivity |].
  destruct (truthy (get d "url")); injection H as <-; [right | now left].
  split; [reflexivity |]. eexists. split; [reflexivity |].
  repeat split; lookup_inserts; reflexivity.
Qed.

Lemma thumbnail_entries_spec items : forall objs,
  mapM_result thumbnail_entry items = Ok objs ->
  (forall item, In item items -> exists d, item = VDict d) /\
  Forall2 (fun item t => exists d td,
             item = VDict d /\ t = VDict td /\
             td !! "url" = Some (get d "url") /\
             td !! "width" = Some (get d "width") /\
             td !! "height" = Some (get d "height") /\
             td !! "preference" = Some (VInt (safe_int (get d "preference") 0)))
          (List.filter has_url items) (keep_some objs).
Proof.
  induction items as [|x items IH]; simpl; intros objs H.
  - injection H as <-. split; [intros item [] | constructor].
  - bind_step H o Ho. bind_step H objs' Hobjs. injection H as <-.
    destruct (IH _ eq_refl) as [IH1 IH2].
    destruct (thumbnail_entry_spec _ _ Ho)
      as (d & -> & [[Et ->] | (Et & td & -> & H1 & H2 & H3 & H4)]);
      simpl; rewrite Et; (split; [intros item [<- | Hi]; eauto |]).
    + exact IH2.
    + constructor; [| exact IH2]. exists d, td. auto 10.
Qed.

(** X22.  When the thumbnails can be processed, every item is a dict,
    and the result has one thumbnail for each item with a truthy [url],
    in order, with that URL, the item's width and height, and an
    integer preference ([safe_int], 0 by default). *)
Theorem transform_thumbnails_spec v thumbs :
  transform_thumbnails v = Ok thumbs ->
  exists items,
    py_iter v = Ok items /\
    (forall item, In item items -> exists d, item = VDict d) /\
    Forall2 (fun item t => exists d td,
               item = VDict d /\ t = VDict td /\
               td !! "url" = Some (get d "url") /\
               td !! "width" = Some (get d "width") /\
               td !! "height" = Some (get d "height") /\
               td !! "preference" =
                 Some (VInt (safe_int (get d "preference") 0)))
            (List.filter has_url items) thumbs.
Proof.
  intros H. unfold transform_thumbnails in H.
  bind_step H items Hitems. bind_step H objs Hobjs. injection H as <-.
  exists items. split; [reflexivity |]. now apply thumbnail_entries_spec.
Qed.

Lemma mapM_result_length {A B} (f : A -> result B) l ys :
  mapM_result f l = Ok ys -> length ys = length l.
Proof.
  intros H. apply mapM_result_Forall2 in H.
  symmetry. eapply Forall2_length; eauto.
Qed.

Lemma subtitle_language_spec lang v o :
  subtitle_language (lang, v) = Ok o ->
  (o = None /\ forall l, v = VList l -> l = []) \/
  (exists l entries, v = VList l /\ l <> [] /\
     o = Some (lang, VList entries) /\ length entries = length l).
Proof.
  unfold subtitle_language. destruct v as [| | | | [|x l] |];
    try (intros [= <-]; left; split; [reflexivity |];
         intros l' E; (discriminate E || now injection E as <-)).
  intros H. bind_step H entries He. injection H as <-.
  right. exists (x :: l), entries. split; [reflexivity |].
  split; [discriminate |]. split; [reflexivity |].
  eapply mapM_result_length; eauto.
Qed.

Lemma subtitle_pairs_spec kvs : forall pairs,
  mapM_result subtitle_language kvs = Ok pairs ->
  sublist (keep_some pairs).*1 kvs.*1 /\
  (forall lang e, In (lang, e) (keep_some pairs) ->
     exists l entries, In (lang, VList l) kvs /\ l <> [] /\
       e = VList entries /\ length entries = length l) /\
  (forall lang l, In (lang, VList l) kvs -> l <> [] ->
     exists e, In (lang, e) (keep_some pairs)).
Proof.
  induction kvs as [|[lang v] kvs IH]; simpl; intros pairs H.
  - injection H as <-. split; [constructor |].
    split; [intros ? ? [] | intros ? ? []].
  - bind_step H o Ho. bind_step H pairs' Hp. injection H as <-.
    destruct (IH _ eq_refl) as (IH1 & IH2 & IH3).
    destruct (subtitle_language_spec _ _ _ Ho)
      as [[-> Hnil] | (l & entries & -> & Hne & -> & Hlen)]; simpl.
    + split; [now constructor |]. split.
      * intros lang' e He. destruct (IH2 _ _ He) as (l & en & Hin & ?).
        exists l, en. split; [now right | assumption].
      * intros lang' l [[= <- ->] | Hin] Hne; [now destruct (Hne (Hnil l eq_refl)) |].
        eauto.
    + split; [now constructor |]. split.
      * intros lang' e [[= <- <-] | He].
        -- exists l, entries. split; [now left | auto].
        -- destruct (IH2 _ _ He) as (l' & en & Hin & ?).
           exists l', en. split; [now right | assumption].
      * intros lang' l' [[= <- <-] | Hin] Hne'.
        -- eexists. now left.
        -- destruct (IH3 _ _ Hin Hne') as [e He]. exists e. now right.
Qed.

(** X23.  When the subtitles can be processed, a language is in the
    result exactly when its tracks are a non-empty list, and it then
    has as many tracks as the input; a language with an empty list or
    with a value that is no list is left out. *)
Theorem transform_subtitles_languages subs out :
  transform_subtitles (VDict subs) = Ok out ->
  forall lang,
    (exists l entries,
       subs !! lang = Some (VList l) /\ l <> [] /\
       out !! lang = Some (VList entries) /\ length entries = length l) \/
    (out !! lang = None /\
     forall l, subs !! lang = Some (VList l) -> l = []).
Proof.
  intros H lang. unfold transform_subtitles in H. simpl in H.
  bind_step H pairs Hp. injection H as <-.
  destruct (subtitle_pairs_spec _ _ Hp) as (Hsub & Hin & Hex).
  assert (Hnd : NoDup (keep_some pairs).*1).
  { apply (sublist_NoDup _ (map_to_list subs).*1); [| exact Hsub].
    apply NoDup_fst_map_to_list. }
  destruct (list_to_map (M := pydict) (keep_some pairs) !! lang) as [e |] eqn:E.
  - left. apply elem_of_list_to_map in E; [| exact Hnd].
    apply list_elem_of_In in E.
    destruct (Hin _ _ E) as (l & entries & Hl & Hne & -> & Hlen).
    exists l, entries. split; [| auto].
    apply elem_of_map_to_list. now apply list_elem_of_In.
  - right. split; [reflexivity |]. intros l Hl.
    destruct l as [|x l]; [reflexivity |].
    apply elem_of_map_to_list, list_elem_of_In in Hl.
    destruct (Hex _ _ Hl) as [e He]; [discriminate |].
    apply not_elem_of_list_to_map in E. destruct E.
    apply list_elem_of_In in He. apply list_elem_of_fmap.
    exists (lang, e). auto.
Qed.

(** ** When a record has no formats *)

Lemma dedup_step_seen st x st' :
  dedup_step st x = Ok st' ->
  (seen_resolutions st <> ∅ -> video_formats st <> []) ->
  (seen_resolutions st' <> ∅ -> video_formats st' <> []) /\
  (has_video x = true ->
   (has_audio x || truthy (get x "audio_ext")) = true ->
   video_formats st' <> []).
Proof.
  unfold dedup_step. rewrite loop_has_v, truthy_py_or, loop_has_a.
  intros H Hinv.
  destruct (has_video x).
  - destruct (has_audio x || truthy (get x "audio_ext")).
    + bind_step H t Ht. case_bool_decide as Hb; injection H as <-; simpl.
      * split; [exact Hinv |]. intros _ _. apply Hinv. set_solver.
      * split; intros; now destruct (video_formats st).
    + injection H as <-. split; [exact Hinv | discriminate].
  - split; [| discriminate].
    destruct (has_audio x && _); injection H as <-; exact Hinv.
Qed.

Lemma dedup_loop_finds_video l : forall st st',
  dedup_loop st l = Ok st' ->
  (seen_resolutions st <> ∅ -> video_formats st <> []) ->
  (exists x, In x l /\ has_video x = true /\
             (has_audio x || truthy (get x "audio_ext")) = true) ->
  video_formats st' <> [].
Proof.
  induction l as [|a l IH]; simpl; intros st st' H Hinv (x & Hx & Hv & Ha).
  - destruct Hx.
  - bind_step H st1 E.
    destruct (dedup_step_seen _ _ _ E Hinv) as [Hinv1 Hnow].
    destruct Hx as [<- | Hx].
    + destruct (dedup_loop_sublist _ _ _ H) as (kept & -> & _).
      specialize (Hnow Hv Ha). now destruct (video_formats st1).
    + apply (IH _ _ H Hinv1). eauto.
Qed.

Lemma dedup_loop_nothing l : forall st,
  (forall x, In x l -> has_video x = true /\ has_audio x = false /\
                       truthy (get x "audio_ext") = false) ->
  dedup_loop st l = Ok st.
Proof.
  induction l as [|a l IH]; simpl; intros st Hall; [reflexivity |].
  destruct (Hall a (or_introl eq_refl)) as (Hv & Ha & He).
  assert (E : dedup_step st a = Ok st).
  { unfold dedup_step. rewrite loop_has_v, truthy_py_or, loop_has_a.
    now rewrite Hv, Ha, He. }
  rewrite E. cbn [mbind result_bind]. apply IH. intros x Hx. apply Hall. now right.
Qed.

Lemma filter_nil_iff {A} (p : A -> bool) l :
  List.filter p l = [] <-> forall x, In x l -> p x = false.
Proof.
  induction l as [|a l IH]; simpl; [tauto |].
  destruct (p a) eqn:E.
  - split; [discriminate |]. intros H. specialize (H a (or_introl eq_refl)). congruence.
  - rewrite IH. split.
    + intros H x [<- | Hx]; auto.
    + intros H x Hx. apply H. now right.
Qed.

Lemma get_video_only_entry_audio_ext v :
  get (video_only_entry v) "audio_ext" = get v "audio_ext".
Proof. unfold video_only_entry. now rewrite get_insert_ne. Qed.

Lemma has_audio_video_only_entry v :
  has_audio (video_only_entry v) = has_audio v.
Proof. unfold video_only_entry. now rewrite has_audio_insert. Qed.

(** The reconciler returns nothing exactly when every format yields
    nothing. *)
Lemma merge_empty_iff formats out :
  merge_video_audio_formats formats = Ok out ->
  (out = [] <-> forall f, In f formats -> yields_nothing f = true).
Proof.
  intros H.
  destruct (merge_video_audio_formats_cases _ _ H)
    as (audio & result & st & Hcases & Hloop & ->).
  set (sorted := sort_desc _ result) in Hloop.
  split.
  - (* an entry is found for every format that yields one *)
    intros Hout f Hf. destruct (yields_nothing f) eqn:Ey; [reflexivity | exfalso].
    apply app_eq_nil in Hout as [Hvf Hba].
    unfold yields_nothing in Ey.
    destruct (classify f) eqn:Ec; try discriminate.
    + (* combined *)
      destruct (classify_Combined _ Ec) as [Hv Ha].
      assert (Hin : In f result).
      { assert (Hc : In f (List.filter (in_bucket Combined) formats))
          by (apply filter_In; split; [exact Hf | now apply in_bucket_classify]).
        destruct Hcases as [(_ & _ & ->) | (best & rest & _ & _ & _ & ->)].
        - apply in_or_app. left.
          destruct (List.filter (in_bucket Combined) formats); [destruct Hc | exact Hc].
        - apply in_or_app. left. apply in_or_app. now left. }
      apply (dedup_loop_finds_video _ _ _ Hloop); [intros Hs; now destruct Hs | | exact Hvf].
      exists f. split; [now apply sort_desc_In |]. now rewrite Hv, Ha.
    + (* video-only with audio_ext *)
      apply negb_false_iff in Ey.
      destruct (classify_VideoOnly _ Ec) as [Hv Ha].
      assert (Hvo : In f (List.filter (in_bucket VideoOnly) formats))
        by (apply filter_In; split; [exact Hf | now apply in_bucket_classify]).
      destruct Hcases as [(Hor & _ & ->) | (best & rest & _ & Hs & _ & ->)].
      * destruct (List.filter (in_bucket Combined) formats) as [|c cs] eqn:Ecs.
        -- apply (dedup_loop_finds_video _ _ _ Hloop);
             [intros Hs; now destruct Hs | | exact Hvf].
           exists (video_only_entry f). split.
           ++ apply sort_desc_In, in_or_app. left. now apply in_map.
           ++ rewrite has_video_video_only_entry, get_video_only_entry_audio_ext.
              rewrite Hv, Ey. now rewrite orb_true_r.
        -- assert (Hc : In c formats /\ in_bucket Combined c = true)
             by (apply filter_In; rewrite Ecs; now left).
           destruct Hc as [_ Hc]. apply in_bucket_classify in Hc.
           destruct (classify_Combined _ Hc) as [Hcv Hca].
           apply (dedup_loop_finds_video _ _ _ Hloop);
             [intros Hs; now destruct Hs | | exact Hvf].
           exists c. split; [| now rewrite Hcv, Hca].
           apply sort_desc_In, in_or_app. left. now left.
      * apply (dedup_loop_finds_video _ _ _ Hloop);
          [intros Hs'; now destruct Hs' | | exact Hvf].
        exists (merge_entry best f). split.
        -- apply sort_desc_In, in_or_app. left. apply in_or_app. right.
           now apply in_map.
        -- rewrite has_video_merge_entry, Hv. simpl.
           assert (Hb : classify best = AudioOnly).
           { apply in_bucket_classify.
             apply (proj2 (proj1 (filter_In (in_bucket AudioOnly) best formats)
                      (proj1 (sort_by_key_desc_In _ _ _ _ Hs) (or_introl eq_refl)))). }
           destruct (classify_AudioOnly _ Hb) as (_ & Hba' & _).
           now rewrite (has_audio_merge_entry best f Hba').
    + (* audio-only *)
      destruct (classify_AudioOnly _ Ec) as (Hv & Ha & _).
      pose proof (merge_cases_audio _ _ _ Hcases f Hf Ec) as Hin.
      assert (Hbest : best_audio st <> None).
      { apply (dedup_loop_finds_audio _ _ _ Hloop).
        exists (audio_entry f). split; [now apply sort_desc_In |].
        now rewrite has_video_audio_entry, has_audio_audio_entry. }
      destruct (best_audio st) as [b |] eqn:Eb; [| now apply Hbest].
      destruct (dedup_loop_first_audio _ _ _ _ Hloop eq_refl Eb)
        as (l1 & l2 & _ & _ & Hab & _).
      assert (Ht : truthy (VDict b) = true).
      { apply (truthy_get_dict b "acodec"). revert Hab. unfold has_audio, get_or, get.
        destruct (b !! "acodec") as [v |]; simpl; [| discriminate].
        now destruct (truthy v). }
      rewrite Ht in Hba. discriminate.
  - (* nothing is made of formats that yield nothing *)
    intros Hall.
    assert (Hc : List.filter (in_bucket Combined) formats = []).
    { apply filter_nil_iff. intros x Hx. specialize (Hall x Hx).
      unfold yields_nothing in Hall. unfold in_bucket.
      now destruct (classify x). }
    assert (Ha : List.filter (in_bucket AudioOnly) formats = []).
    { apply filter_nil_iff. intros x Hx. specialize (Hall x Hx).
      unfold yields_nothing in Hall. unfold in_bucket.
      now destruct (classify x). }
    assert (Hres : result = map video_only_entry
                              (List.filter (in_bucket VideoOnly) formats)).
    { destruct Hcases as [(_ & -> & ->) | (best & rest & _ & Hs & _ & _)].
      - rewrite Hc, Ha. simpl. now rewrite app_nil_r.
      - rewrite Ha in Hs. discriminate Hs. }
    assert (Hst : dedup_loop dedup_start sorted = Ok dedup_start).
    { apply dedup_loop_nothing. intros x Hx. apply sort_desc_In in Hx.
      rewrite Hres in Hx. apply in_map_iff in Hx as (v & <- & Hv).
      apply filter_In in Hv as [Hv Hb]. apply in_bucket_classify in Hb.
      specialize (Hall v Hv). unfold yields_nothing in Hall. rewrite Hb in Hall.
      apply negb_true_iff in Hall.
      destruct (classify_VideoOnly _ Hb) as [Hhv Hha].
      now rewrite has_video_video_only_entry, has_audio_video_only_entry,
        get_video_only_entry_audio_ext. }
    rewrite Hst in Hloop. injection Hloop as <-. reflexivity.
Qed.

Lemma forallb_false_In {A} (p : A -> bool) l :
  forallb p l = false -> exists x, In x l /\ p x = false.
Proof.
  induction l as [|a l IH]; simpl; [discriminate |].
  destruct (p a) eqn:E; simpl.
  - intros H. destruct (IH H) as (x & Hx & Hp). eauto.
  - intros _. eauto.
Qed.

Section ErrorNote.

Variable nfkd : list N -> list N.
Variable ytdlp_version : option string.

(** X24.  The note [_error] of a record, end to end.  For a record
    that is no playlist and that [transform_single] can process, either
    every raw format yields nothing (it has no URL, is a storyboard, has
    neither video nor audio, or is video-only without [audio_ext]), and
    then the record has no formats and carries [_error]; or some raw
    format yields an entry, and then the record has formats and no
    [_error]. *)
Theorem transform_single_error_note data r :
  eq_str (get data "_type") "playlist" = false ->
  transform_single nfkd ytdlp_version data = Ok r ->
  exists raw fs,
    raw_formats data = Ok raw /\
    r !! "formats" = Some (VList fs) /\
    (((forall f, In f raw -> yields_nothing f = true) /\
      fs = [] /\
      r !! "_error" = Some (VStr "No downloadable formats found")) \/
     ((exists f, In f raw /\ yields_nothing f = false) /\
      fs <> [] /\
      r !! "_error" = None)).
Proof.
  intros Hp H.
  destruct (transform_single_inv _ _ _ _ Hp H)
    as (clean & date & formats & subs & thumbs & Ht & Hd & Hf & Hs & Hth).
  destruct (transform_single_fields nfkd ytdlp_version _ _ _ _ _ _ Hp Ht Hd Hf Hs Hth)
    as (r' & Hr & _ & _ & _ & _ & _ & Hfmt & _ & _ & _ & _ & Hnote & Hnone).
  rewrite H in Hr. injection Hr as <-.
  destruct (transformed_formats_all _ _ _ _ Hf) as (raw & processed & Hraw & Hm & Hall).
  exists raw, (map VDict formats). split; [exact Hraw |]. split; [exact Hfmt |].
  pose proof (merge_empty_iff _ _ Hm) as Hiff.
  destruct (forallb yields_nothing raw) eqn:Ey.
  - left. assert (Hy : forall f, In f raw -> yields_nothing f = true)
      by (now apply forallb_forall).
    assert (Hproc : processed = []) by (now apply Hiff).
    subst processed. inversion Hall; subst.
    split; [exact Hy |]. split; [reflexivity |]. now apply Hnote.
  - right. apply forallb_false_In in Ey as (f & Hf' & Hyf).
    assert (Hne : formats <> []).
    { intros ->. inversion Hall; subst.
      assert (Hy : yields_nothing f = true) by (now apply (proj1 Hiff)).
      congruence. }
    split; [eauto |]. split; [now destruct formats | now apply Hnone].
Qed.

End ErrorNote.

(** ** The extractor *)

Lemma error_record_error text : error_record text !! "error" = Some (VStr text).
Proof. unfold error_record. now rewrite lookup_insert_eq. Qed.

Lemma transform_playlist_info_no_error data r :
  transform_playlist_info data = Ok r -> r !! "error" = None.
Proof.
  unfold transform_playlist_info. intros H.
  bind_step H items Hi. bind_step H entries He. injection H as <-.
  lookup_inserts. reflexivity.
Qed.

Lemma transform_playlist_loop_no_error items : forall entries title url r,
  transform_playlist_loop items entries title url = Ok r -> r !! "error" = None.
Proof.
  induction items as [|item items IH]; simpl; intros entries title url r H.
  - injection H as <-. lookup_inserts. reflexivity.
  - bind_step H d Hd.
    destruct (eq_str (get d "_type") "playlist").
    + now apply transform_playlist_info_no_error in H.
    + now apply IH in H.
Qed.

Section ExtractorFacts.

Variable nfkd : list N -> list N.
Variable ytdlp_version : option string.
Variable find_ytdlp : option string.
Variable subprocess_run : list string -> run_outcome.
Variable json_loads : string -> result pyval.

Lemma transform_single_no_error data r :
  transform_single nfkd ytdlp_version data = Ok r -> r !! "error" = None.
Proof.
  intros H. destruct (eq_str (get data "_type") "playlist") eqn:Hp.
  - unfold transform_single in H. rewrite Hp in H.
    now apply transform_playlist_info_no_error in H.
  - destruct (transform_single_inv _ _ _ _ Hp H)
      as (clean & date & formats & subs & thumbs & Ht & Hd & Hf & Hs & Hth).
    destruct (transform_single_fields nfkd ytdlp_version _ _ _ _ _ _ Hp Ht Hd Hf Hs Hth)
      as (r' & Hr & _ & _ & _ & _ & _ & _ & _ & _ & _ & Herr & _).
    rewrite H in Hr. now injection Hr as <-.
Qed.

Lemma transform_objects_no_error objs url d :
  objs <> [] ->
  transform_objects nfkd ytdlp_version objs url = Ok d -> d !! "error" = None.
Proof.
  intros Hne H. destruct objs as [|o [|o' objs]]; [now destruct Hne | |].
  - simpl in H. bind_step H data Hd. now apply transform_single_no_error in H.
  - now apply transform_playlist_loop_no_error in H.
Qed.

(** X25.  The key [error] tells failure from success.  When the
    extractor returns, its result is without the key [error] exactly
    when the program was found and ran to completion, its output held
    at least one JSON object, and the transformer returned a record for
    the objects, which is then the result.  In every other case (no
    program, a timeout or another exception of the run, no output,
    nothing parsed, an exception of the transformer) the result has the
    key; a record of the transformer never has it. *)
Theorem extract_with_ytdlp_error_key url playlist rep :
  extract_with_ytdlp nfkd ytdlp_version find_ytdlp subprocess_run json_loads
    url playlist = Ok rep ->
  (has_error_key rep = false <->
   exists ytdlp p json_objects d,
     find_ytdlp = Some ytdlp /\ ytdlp <> "" /\
     subprocess_run (ytdlp_command ytdlp url playlist) = Completed p /\
     parse_lines json_loads (py_split newline (py_strip (stdout p)))
       = Ok json_objects /\
     json_objects <> [] /\
     transform_objects nfkd ytdlp_version json_objects url = Ok d /\
     rep = Returned d).
Proof.
  intros H. split.
  - intros Hk. unfold extract_with_ytdlp in H.
    assert (Hrec : forall text, Ok (Returned (error_record text)) = Ok rep -> False).
    { intros text [= <-]. simpl in Hk. rewrite error_record_error in Hk.
      rewrite bool_decide_eq_false in Hk. apply Hk. eauto. }
    destruct find_ytdlp as [ytdlp |]; [| now apply Hrec in H].
    destruct (String.eqb ytdlp "") eqn:Ey; [now apply Hrec in H |].
    destruct (subprocess_run _) as [p | | text] eqn:Er;
      [| now apply Hrec in H | now apply Hrec in H].
    cbv zeta in H.
    destruct (negb _ && _); [now apply Hrec in H |].
    destruct (String.eqb (py_strip (stdout p)) ""); [now apply Hrec in H |].
    destruct (parse_lines _ _) as [objs | |] eqn:Ep; cbn [mbind result_bind] in H.
    + destruct (transform_objects _ _ objs url) as [d | e |] eqn:Et;
        [| injection H as <-; discriminate Hk | discriminate H].
      injection H as <-.
      exists ytdlp, p, objs, d. split; [reflexivity |].
      split; [intros ->; discriminate Ey |].
      split; [exact Er |]. split; [exact Ep |].
      split; [| split; [exact Et | reflexivity]].
      intros ->. injection Et as <-. simpl in Hk.
      rewrite error_record_error in Hk.
      rewrite bool_decide_eq_false in Hk. apply Hk. eauto.
    + injection H as <-. discriminate Hk.
    + discriminate H.
  - intros (ytdlp & p & objs & d & _ & _ & _ & _ & Hne & Ht & ->).
    simpl. apply bool_decide_eq_false.
    rewrite (transform_objects_no_error _ _ _ Hne Ht). now intros [? ?].
Qed.

End ExtractorFacts.

Lemma sanitize_filename_contract_witness :
  0 < 200 /\
  filesystem_safe
    (sanitize_filename (fun s => s) (codepoints "My  video: part_1?.") 200) /\
  (sanitize_filename (fun s => s) (codepoints "My  video: part_1?.") 200
   = "download" \/
   Z.of_nat (String.length
     (sanitize_filename (fun s => s) (codepoints "My  video: part_1?.") 200))
   <= 200) /\
  sanitize_filename (fun s => s) [] 200 = "download".
Proof.
  split; [lia |].
  apply (sanitize_filename_contract (fun s => s)
           (codepoints "My  video: part_1?.") 200).
  lia.
Defined.

(** C5 (counterexample).  With [max_length = 3] the empty title is
    answered by the fallback [download], which is 8 characters long. *)
Lemma sanitize_filename_length_counterexample :
  0 < 3 /\
  forall nfkd,
    sanitize_filename nfkd [] 3 = "download" /\
    ~ Z.of_nat (String.length (sanitize_filename nfkd [] 3)) <= 3.
Proof.
  split; [lia |]. intros nfkd. split; [reflexivity |]. simpl. lia.
Qed.

Lemma sanitize_filename_truncation_trailing_dot_witness :
  (fun s : list N => s) (codepoints "ab.cd") = codepoints "ab.cd" /\
  sanitize_filename (fun s => s) (codepoints "ab.cd") 3 = "ab.".
Proof.
  split; [reflexivity |].
  apply (sanitize_filename_truncation_trailing_dot (fun s => s)).
  reflexivity.
Defined.

(** The library calls at which the classifier is run below: the paths of
    the two URLs of the rule's examples, no percent escapes, POSIX path
    names. *)
Lemma analyze_url_direct_rule_witness :
  let urlparse_path := fun url : string =>
    if String.eqb url "https://x.com/a/report.pdf"
    then Ok "/a/report.pdf" else Ok "/watch" in
  let unquote := fun s : string => s in
  (urlparse_path "https://x.com/a/report.pdf" = Ok "/a/report.pdf" /\
   unquote "/a/report.pdf" = "/a/report.pdf" /\
   posix_basename "/a/report.pdf" = "report.pdf") /\
  exists r,
    analyze_url urlparse_path unquote posix_basename false
      "https://x.com/a/report.pdf" = Ok r /\
    r !! "is_direct" = Some (VBool true) /\
    r !! "extension" = Some (VStr "pdf") /\
    r !! "category" = Some (VStr "document").
Proof.
  split; [repeat split |].
  apply (proj1 (proj2 (analyze_url_direct_rule
           (fun url : string =>
              if String.eqb url "https://x.com/a/report.pdf"
              then Ok "/a/report.pdf" else Ok "/watch")
           (fun s : string => s) posix_basename false)));
    reflexivity.
Defined.

(** C7 (counterexamples).  The decoded path [/a/REPORT.PDF] is direct
    for the code, which lowercases the extension, while [PDF] is in none
    of the eight sets; and the decoded path [/a/b.pdf?x] is direct for
    the code, which cuts the segment at the question mark, while the text
    after its last dot, [pdf?x], is not alphanumeric. *)
Lemma is_direct_download_url_counterexample :
  ((forall urlparse_path unquote basename,
      urlparse_path "https://x.com/a/REPORT.PDF" = Ok "/a/REPORT.PDF" ->
      unquote "/a/REPORT.PDF" = "/a/REPORT.PDF" ->
      basename "/a/REPORT.PDF" = "REPORT.PDF" ->
      is_direct_download_url urlparse_path unquote basename
        "https://x.com/a/REPORT.PDF" = Ok true) /\
   ~ direct_as_specified "REPORT.PDF") /\
  ((forall urlparse_path unquote basename,
      urlparse_path "https://x.com/a/b.pdf%3Fx" = Ok "/a/b.pdf%3Fx" ->
      unquote "/a/b.pdf%3Fx" = "/a/b.pdf?x" ->
      basename "/a/b.pdf?x" = "b.pdf?x" ->
      is_direct_download_url urlparse_path unquote basename
        "https://x.com/a/b.pdf%3Fx" = Ok true) /\
   ~ direct_as_specified "b.pdf?x").
Proof.
  split; split.
  - intros up uq bn H1 H2 H3.
    destruct (is_direct_download_url_spec up uq bn _ _ H1) as (d & -> & Hd).
    f_equal. apply Hd. rewrite H2, H3. exists "PDF".
    split; [exists "REPORT"; split; reflexivity |]. split; [reflexivity |].
    split; [vm_compute; lia | vm_compute; discriminate].
  - intros (ext & Hx & _ & _ & Hin).
    apply has_extension_dot in Hx as [_ <-].
    apply (bool_decide_eq_true_2 _) in Hin. vm_compute in Hin. discriminate.
  - intros up uq bn H1 H2 H3.
    destruct (is_direct_download_url_spec up uq bn _ _ H1) as (d & -> & Hd).
    f_equal. apply Hd. rewrite H2, H3. exists "pdf".
    split; [exists "b"; split; reflexivity |]. split; [reflexivity |].
    split; [vm_compute; lia | vm_compute; discriminate].
  - intros (ext & Hx & Ha & _).
    apply has_extension_dot in Hx as [_ <-]. vm_compute in Ha. discriminate.
Qed.

Lemma merge_video_entries_carry_audio_witness :
  merge_video_audio_formats [scenario_video; scenario_audio] =
    Ok [merge_entry scenario_audio scenario_video; audio_entry scenario_audio] /\
  In (merge_entry scenario_audio scenario_video)
     [merge_entry scenario_audio scenario_video; audio_entry scenario_audio] /\
  has_video (merge_entry scenario_audio scenario_video) = true /\
  (has_audio (merge_entry scenario_audio scenario_video) = true \/
   truthy (get (merge_entry scenario_audio scenario_video) "audio_ext") = true) /\
  (has_audio (merge_entry scenario_audio scenario_video) = true \/
   (~ video_with_audio_candidate [scenario_video; scenario_audio] /\
    get (merge_entry scenario_audio scenario_video) "_video_only" = VBool true)).
Proof.
  split; [reflexivity |]. split; [now left |]. split; [reflexivity |].
  apply (merge_video_entries_carry_audio
           [scenario_video; scenario_audio]
           [merge_entry scenario_audio scenario_video; audio_entry scenario_audio]
           (merge_entry scenario_audio scenario_video)).
  - reflexivity.
  - now left.
  - reflexivity.
Defined.

Lemma merge_one_video_per_height_witness :
  (truthy (get scenario_combined "url") = true /\
   eq_str (get scenario_combined "vcodec") "images" = false /\
   is_combined_format scenario_combined = true /\
   get scenario_combined "height" = VInt 1080) /\
  merge_video_audio_formats
    [<["ext" := VStr "mp4"]> scenario_combined;
     <["ext" := VStr "webm"]> scenario_combined]
  = Ok [<["ext" := VStr "mp4"]> scenario_combined] /\
  merge_video_audio_formats
    [<["ext" := VStr "webm"]> scenario_combined;
     <["ext" := VStr "mp4"]> scenario_combined]
  = Ok [<["ext" := VStr "mp4"]> scenario_combined].
Proof.
  split; [repeat split |].
  apply (proj2 merge_one_video_per_height scenario_combined 1080);
    reflexivity.
Defined.



Lemma transform_single_no_formats_witness :
  eq_str (get record_without_formats "_type") "playlist" = false /\
  (forall clean,
     transformed_formats record_without_formats clean
       (get_or record_without_formats "id" (VStr "")) = Ok []) /\
  get_or record_without_formats "subtitles" (VDict ∅) = VDict ∅ /\
  get_or record_without_formats "thumbnails" (VList []) = VList [] /\
  exists r clean subs thumbs,
    transform_single (fun s => s) (Some "2024.01.01") record_without_formats = Ok r /\
    sanitize_title (fun s => s)
      (get_or record_without_formats "title" (VStr "Unknown Title")) = Ok clean /\
    transform_subtitles (VDict ∅) = Ok subs /\
    transform_thumbnails (VList []) = Ok thumbs /\
    r !! "error" = None /\
    r !! "_error" = Some (VStr "No downloadable formats found") /\
    r !! "_hint" = Some (VStr "Try updating yt-dlp: yt-dlp -U") /\
    r !! "_ytdlp_version" = Some (from_option VStr VNone (Some "2024.01.01")) /\
    r !! "id" = Some (get_or record_without_formats "id" (VStr "")) /\
    r !! "title" = Some (VStr clean) /\
    r !! "original_title" =
      Some (get_or record_without_formats "title" (VStr "Unknown Title")) /\
    r !! "webpage_url" =
      Some (get_or record_without_formats "webpage_url"
              (get_or record_without_formats "url" (VStr ""))) /\
    r !! "duration" = Some (get record_without_formats "duration") /\
    r !! "formats" = Some (VList []) /\
    r !! "subtitles" = Some (VDict subs) /\
    r !! "thumbnails" = Some (VList thumbs).
Proof.
  split; [reflexivity |]. split; [intros clean; reflexivity |].
  split; [reflexivity |]. split; [reflexivity |].
  apply (transform_single_no_formats (fun s => s) (Some "2024.01.01")
           record_without_formats ∅ []).
  - reflexivity.
  - right. exists "clip". reflexivity.
  - left. reflexivity.
  - intros clean _. reflexivity.
  - reflexivity.
  - intros lang l x H. rewrite lookup_empty in H. discriminate H.
  - reflexivity.
  - intros x [].
Defined.

(** C9 (counterexample).  A record without formats whose [subtitles]
    are [None]: reconciliation and transformation yield no format, and
    [transform_single] raises [AttributeError] in the subtitle loop
    instead of returning a record. *)
Lemma transform_single_no_formats_counterexample :
  eq_str (get record_with_null_subtitles "_type") "playlist" = false /\
  get record_with_null_subtitles "subtitles" = VNone /\
  (forall clean,
     transformed_formats record_with_null_subtitles clean
       (get_or record_with_null_subtitles "id" (VStr "")) = Ok []) /\
  forall nfkd ytdlp_version,
    transform_single nfkd ytdlp_version record_with_null_subtitles
    = Raise AttributeError.
Proof.
  split; [reflexivity |]. split; [reflexivity |].
  split; [intros clean; reflexivity |].
  intros nfkd ver. reflexivity.
Qed.

Lemma merge_video_audio_formats_refs_frame_witness :
  scenario_store !! 3%positive = Some (OList [1%positive; 2%positive]) /\
  exists h',
    merge_video_audio_formats_refs 3%positive scenario_store
      = Ok (10%positive, h') /\
    (forall l o, scenario_store !! l = Some o -> h' !! l = Some o) /\
    scenario_store !! 10%positive = None /\
    exists outs,
      h' !! 10%positive = Some (OList outs) /\
      forall x, In x outs ->
        In x [1%positive; 2%positive] \/ scenario_store !! x = None.
Proof.
  split; [reflexivity |].
  assert (E : exists h',
             merge_video_audio_formats_refs 3%positive scenario_store
               = Ok (10%positive, h'))
    by (eexists; vm_compute; reflexivity).
  destruct E as [h' E]. exists h'. split; [exact E |].
  exact (merge_video_audio_formats_refs_frame 3%positive
           [1%positive; 2%positive] scenario_store 10%positive h'
           eq_refl E).
Defined.

Lemma merge_entries_from_input_witness :
  merge_video_audio_formats [scenario_video; scenario_audio] =
    Ok [merge_entry scenario_audio scenario_video; audio_entry scenario_audio] /\
  In (merge_entry scenario_audio scenario_video)
     [merge_entry scenario_audio scenario_video; audio_entry scenario_audio] /\
  exists f, In f [scenario_video; scenario_audio] /\ classify f <> Skipped /\
    (forall k, ~ In k reconciler_keys ->
       merge_entry scenario_audio scenario_video !! k = f !! k) /\
    truthy (get (merge_entry scenario_audio scenario_video) "url") = true /\
    eq_str (get (merge_entry scenario_audio scenario_video) "ext") "mhtml" = false /\
    eq_str (get (merge_entry scenario_audio scenario_video) "vcodec") "images" = false.
Proof.
  split; [reflexivity |]. split; [now left |].
  apply (merge_entries_from_input
           [scenario_video; scenario_audio]
           [merge_entry scenario_audio scenario_video; audio_entry scenario_audio]
           (merge_entry scenario_audio scenario_video)).
  - reflexivity.
  - now left.
Defined.

Lemma merge_one_audio_entry_last_witness :
  merge_video_audio_formats [scenario_video; scenario_audio] =
    Ok [merge_entry scenario_audio scenario_video; audio_entry scenario_audio] /\
  exists videos tail,
    [merge_entry scenario_audio scenario_video; audio_entry scenario_audio]
      = (videos ++ tail)%list /\
    (forall v, In v videos -> has_video v = true) /\
    ((tail = [] /\
      forall a, In a [scenario_video; scenario_audio] -> classify a <> AudioOnly) \/
     exists a, tail = [audio_entry a] /\ In a [scenario_video; scenario_audio] /\
       classify a = AudioOnly /\
       forall a', In a' [scenario_video; scenario_audio] ->
         classify a' = AudioOnly ->
         get_format_quality_score (audio_entry a')
         <= get_format_quality_score (audio_entry a)).
Proof.
  split; [reflexivity |].
  apply (merge_one_audio_entry_last [scenario_video; scenario_audio]).
  reflexivity.
Defined.

Lemma merge_videos_best_first_witness :
  merge_video_audio_formats [scenario_video; scenario_audio] =
    Ok [merge_entry scenario_audio scenario_video; audio_entry scenario_audio] /\
  StronglySorted
    (fun x y => get_format_quality_score y <= get_format_quality_score x)
    (List.filter has_video
       [merge_entry scenario_audio scenario_video; audio_entry scenario_audio]).
Proof.
  split; [reflexivity |].
  apply (merge_videos_best_first [scenario_video; scenario_audio]).
  reflexivity.
Defined.

Lemma merge_pairs_with_best_audio_witness :
  merge_video_audio_formats [scenario_video; scenario_audio] =
    Ok [merge_entry scenario_audio scenario_video; audio_entry scenario_audio] /\
  is_num_key (audio_key scenario_audio) = true /\
  classify scenario_video = VideoOnly /\
  classify scenario_audio = AudioOnly /\
  exists best, In best [scenario_video; scenario_audio] /\
    classify best = AudioOnly /\
    (forall a, In a [scenario_video; scenario_audio] -> classify a = AudioOnly ->
       key_num (audio_key a) <= key_num (audio_key best)) /\
    forall e,
      In e [merge_entry scenario_audio scenario_video; audio_entry scenario_audio] ->
      has_video e = true ->
      (In e [scenario_video; scenario_audio] /\ classify e = Combined) \/
      (exists v, In v [scenario_video; scenario_audio] /\
                 classify v = VideoOnly /\
                 e = merge_entry best v /\
                 get e "_audio_url" = get best "url" /\
                 get e "_needs_merge" = VBool true).
Proof.
  split; [reflexivity |]. split; [reflexivity |]. split; [reflexivity |].
  split; [reflexivity |].
  apply (merge_pairs_with_best_audio [scenario_video; scenario_audio]).
  - reflexivity.
  - intros a [<- | [<- | []]] H; [discriminate H | reflexivity].
  - exists scenario_video. split; [now left | reflexivity].
  - exists scenario_audio. split; [right; now left | reflexivity].
Defined.

Lemma merge_length_witness :
  merge_video_audio_formats [scenario_video; scenario_audio] =
    Ok [merge_entry scenario_audio scenario_video; audio_entry scenario_audio] /\
  (length [merge_entry scenario_audio scenario_video; audio_entry scenario_audio]
   <= length [scenario_video; scenario_audio])%nat.
Proof.
  split; [reflexivity |].
  apply (merge_length [scenario_video; scenario_audio]).
  reflexivity.
Defined.

Lemma extract_filename_from_url_shape_witness :
  extract_filename_from_url (fun _ => Ok "/a/report.pdf") (fun s => s)
    posix_basename "https://x.com/a/report.pdf" = Ok "report.pdf" /\
  "report.pdf" <> "" /\ has_char "?" "report.pdf" = false.
Proof.
  split; [reflexivity |].
  apply (extract_filename_from_url_shape (fun _ => Ok "/a/report.pdf")
           (fun s => s) posix_basename "https://x.com/a/report.pdf").
  reflexivity.
Defined.

Lemma get_extension_from_url_shape_witness :
  get_extension_from_url (fun _ => Ok "/a/report.pdf") (fun s => s)
    posix_basename "https://x.com/a/report.pdf" = Ok (Some "pdf") /\
  "pdf" <> "" /\ py_lower "pdf" = "pdf" /\ py_isalnum "pdf" = true /\
  (String.length "pdf" <= 10)%nat.
Proof.
  split; [reflexivity |].
  destruct (get_extension_from_url_shape (fun _ => Ok "/a/report.pdf")
              (fun s => s) posix_basename "https://x.com/a/report.pdf" "pdf"
              eq_refl) as (H1 & H2 & H3 & H4 & _).
  auto.
Defined.

Lemma create_direct_download_result_shape_witness :
  exists r,
    create_direct_download_result (fun s => s) (fun _ => Ok "/a/report.pdf")
      (fun s => s) posix_basename "https://x.com/a/report.pdf" = Ok r /\
    r !! "direct_download" = Some (VBool true) /\
    r !! "category" = Some (VStr (get_file_category (default "bin" (Some "pdf")))).
Proof.
  destruct (create_direct_download_result_shape (fun s => s)
              (fun _ => Ok "/a/report.pdf") (fun s => s) posix_basename
              "https://x.com/a/report.pdf" "/a/report.pdf" eq_refl)
    as (r & fmt & name & oext & ext & title & Hr & _ & Ho & -> & Hd & _ & _ & Hc & _).
  injection Ho as <-.
  exists r. auto.
Defined.

Lemma extract_info_direct_witness :
  is_direct_download_url (fun _ => Ok "/a/report.pdf") (fun s => s)
    posix_basename "https://x.com/a/report.pdf" = Ok true /\
  exists r,
    extract_info (fun s => s) (fun _ => Ok "/a/report.pdf") (fun s => s)
      posix_basename (fun _ _ => OutOfModel) "https://x.com/a/report.pdf" false
    = Ok r /\
    r !! "direct_download" = Some (VBool true).
Proof.
  split; [reflexivity |].
  destruct (extract_info_direct (fun s => s) (fun _ => Ok "/a/report.pdf")
              (fun s => s) posix_basename "https://x.com/a/report.pdf" eq_refl)
    as (r & fmt & ext & Hr & _ & Hd & _).
  exists r. split; [apply Hr | exact Hd].
Defined.

Lemma analyze_url_agrees_with_extract_info_witness :
  analyze_url (fun _ => Ok "/a/report.pdf") (fun s => s) posix_basename true
      "https://x.com/a/report.pdf" = Ok report_analysis /\
  report_analysis !! "is_direct" = Some (VBool true) /\
  exists r fmt,
    extract_info (fun s => s) (fun _ => Ok "/a/report.pdf") (fun s => s)
      posix_basename (fun _ _ => OutOfModel) "https://x.com/a/report.pdf" false
    = Ok r /\
    r !! "formats" = Some (VList [VDict fmt]) /\
    report_analysis !! "extension" = fmt !! "ext" /\
    report_analysis !! "category" = r !! "category".
Proof.
  split; [reflexivity |]. split; [reflexivity |].
  destruct (analyze_url_agrees_with_extract_info (fun s => s)
              (fun _ => Ok "/a/report.pdf") (fun s => s) posix_basename true
              "https://x.com/a/report.pdf" report_analysis eq_refl eq_refl)
    as (r & fmt & Hr & Hf & _ & He & Hc & _).
  exists r, fmt. split; [apply Hr |]. auto.
Defined.

Lemma sanitize_filename_idempotent_witness :
  Z.of_nat (String.length
    (sanitize_filename (fun s => s) (codepoints "My  video: part_1?.") 200))
    <= 200 /\
  ends_with "."
    (sanitize_filename (fun s => s) (codepoints "My  video: part_1?.") 200)
    = false /\
  sanitize_filename (fun s => s)
    (codepoints
       (sanitize_filename (fun s => s) (codepoints "My  video: part_1?.") 200))
    200
  = sanitize_filename (fun s => s) (codepoints "My  video: part_1?.") 200.
Proof.
  split; [vm_compute; discriminate |]. split; [reflexivity |].
  apply (sanitize_filename_idempotent (fun s => s)
           (codepoints "My  video: part_1?.") 200).
  - reflexivity.
  - vm_compute. discriminate.
  - reflexivity.
Defined.

Lemma score_combined_above_witness :
  is_combined_format scenario_combined = true /\
  is_combined_format scenario_video = false /\
  get_format_quality_score scenario_video
  < get_format_quality_score scenario_combined.
Proof.
  split; [reflexivity |]. split; [reflexivity |].
  apply (score_combined_above scenario_combined scenario_video);
    [reflexivity | reflexivity | vm_compute; discriminate
    | vm_compute; discriminate | vm_compute; reflexivity].
Defined.

Lemma safe_int_of_str_witness :
  py_str (VInt (-42)) = Ok "-42" /\
  py_int (VStr "-42") = Ok (-42) /\ safe_int (VStr "-42") 0 = -42.
Proof.
  split; [reflexivity |].
  apply (safe_int_of_str (-42) 0 "-42"); [| reflexivity].
  apply Z.ltb_lt. vm_compute. reflexivity.
Defined.

Lemma transform_format_shape_witness :
  transform_format scenario_combined "clip" (VStr "abc")
    = Ok (Some scenario_combined_transformed) /\
  (Some scenario_combined_transformed = None <->
   truthy (get scenario_combined "url") = false).
Proof.
  split; [reflexivity |].
  apply (transform_format_shape scenario_combined "clip" (VStr "abc")).
  reflexivity.
Defined.

Lemma transformed_formats_unfiltered_witness :
  transformed_formats record_with_combined "clip" (VStr "abc")
    = Ok [scenario_combined_transformed] /\
  exists raw processed,
    raw_formats record_with_combined = Ok raw /\
    merge_video_audio_formats raw = Ok processed /\
    Forall2 (fun e r => transform_format e "clip" (VStr "abc") = Ok (Some r))
            processed [scenario_combined_transformed].
Proof.
  split; [reflexivity |].
  apply (transformed_formats_unfiltered record_with_combined "clip" (VStr "abc")).
  reflexivity.
Defined.

Lemma generate_filename_matches_transform_format_witness :
  sanitize_title (fun s => s) (VStr "clip") = Ok "clip" /\
  transform_format scenario_combined "clip" (VStr "abc")
    = Ok (Some scenario_combined_transformed) /\
  exists name,
    generate_filename (fun s => s) (VStr "clip") (VStr "abc")
      (get scenario_combined "height") (VStr "mp4") true = Ok name /\
    scenario_combined_transformed !! "_filename" = Some (VStr name).
Proof.
  split; [reflexivity |]. split; [reflexivity |].
  apply (generate_filename_matches_transform_format (fun s => s)
           (VStr "clip") "clip" scenario_combined (VStr "abc") (VStr "mp4")).
  - reflexivity.
  - reflexivity.
  - intros n H. injection H as <-. left. simpl. lia.
Defined.

Lemma transform_playlist_info_entries_witness :
  transform_playlist_info scenario_playlist = Ok scenario_playlist_record /\
  scenario_playlist_record !! "_type" = Some (VStr "playlist") /\
  scenario_playlist_record !! "id"
    = Some (get_or scenario_playlist "id" (VStr "")).
Proof.
  split; [reflexivity |].
  destruct (transform_playlist_info_entries scenario_playlist
              scenario_playlist_record eq_refl) as (H1 & H2 & _).
  split; [exact H1 | exact H2].
Defined.

Lemma transform_playlist_flat_witness :
  eq_str (get scenario_item "_type") "playlist" = false /\
  exists r,
    transform_playlist (map VDict [scenario_item]) "u" = Ok r /\
    r !! "entries" = Some (VList (map playlist_item_entry [scenario_item])).
Proof.
  split; [reflexivity |].
  destruct (transform_playlist_flat [scenario_item] "u")
    as (r & Hr & _ & _ & _ & He & _).
  - intros d [<- | []]. reflexivity.
  - exists r. split; [exact Hr | exact He].
Defined.

Lemma transform_playlist_nested_witness :
  eq_str (get scenario_item "_type") "playlist" = false /\
  eq_str (get scenario_playlist "_type") "playlist" = true /\
  transform_playlist
    (map VDict [scenario_item] ++ VDict scenario_playlist :: [VNone])%list "u"
  = transform_playlist_info scenario_playlist.
Proof.
  split; [reflexivity |]. split; [reflexivity |].
  apply (transform_playlist_nested [scenario_item] scenario_playlist [VNone] "u").
  - intros d [<- | []]. reflexivity.
  - reflexivity.
Defined.

Lemma transform_thumbnails_spec_witness :
  transform_thumbnails scenario_thumbnails = Ok scenario_thumbnails_record /\
  exists items,
    py_iter scenario_thumbnails = Ok items /\
    forall item, In item items -> exists d, item = VDict d.
Proof.
  split; [reflexivity |].
  destruct (transform_thumbnails_spec scenario_thumbnails
              scenario_thumbnails_record eq_refl) as (items & H1 & H2 & _).
  exists items. split; [exact H1 | exact H2].
Defined.

Lemma transform_subtitles_languages_witness :
  transform_subtitles (VDict scenario_subtitles) = Ok scenario_subtitles_record /\
  ((exists l entries,
      scenario_subtitles !! "de" = Some (VList l) /\ l <> [] /\
      scenario_subtitles_record !! "de" = Some (VList entries) /\
      length entries = length l) \/
   (scenario_subtitles_record !! "de" = None /\
    forall l, scenario_subtitles !! "de" = Some (VList l) -> l = [])).
Proof.
  split; [reflexivity |].
  apply (transform_subtitles_languages scenario_subtitles
           scenario_subtitles_record eq_refl "de").
Defined.

Lemma transform_single_error_note_witness :
  eq_str (get record_with_video_only "_type") "playlist" = false /\
  exists r,
    transform_single (fun s => s) None record_with_video_only = Ok r /\
    exists raw fs,
      raw_formats record_with_video_only = Ok raw /\
      r !! "formats" = Some (VList fs) /\
      (((forall f, In f raw -> yields_nothing f = true) /\
        fs = [] /\
        r !! "_error" = Some (VStr "No downloadable formats found")) \/
       ((exists f, In f raw /\ yields_nothing f = false) /\
        fs <> [] /\
        r !! "_error" = None)).
Proof.
  split; [reflexivity |]. eexists. split; [reflexivity |].
  apply (transform_single_error_note (fun s => s) None record_with_video_only);
    reflexivity.
Defined.

Lemma extract_with_ytdlp_error_key_witness :
  exists rep,
    extract_with_ytdlp (fun s => s) None (Some "yt-dlp") scenario_run
      (fun _ => Ok (VDict record_with_date)) "u" false = Ok rep /\
    (has_error_key rep = false <->
     exists ytdlp p json_objects d,
       Some "yt-dlp" = Some ytdlp /\ ytdlp <> "" /\
       scenario_run (ytdlp_command ytdlp "u" false) = Completed p /\
       parse_lines (fun _ => Ok (VDict record_with_date))
         (py_split newline (py_strip (stdout p))) = Ok json_objects /\
       json_objects <> [] /\
       transform_objects (fun s => s) None json_objects "u" = Ok d /\
       rep = Returned d).
Proof.
  eexists. split; [reflexivity |].
  apply (extract_with_ytdlp_error_key (fun s => s) None (Some "yt-dlp")
           scenario_run (fun _ => Ok (VDict record_with_date)) "u" false).
  reflexivity.
Defined.
